(** * Trader profile analysis: a shallow embedding of
      [scripts/analyze_trader_profile.py]

    The Python function [analyze_trader_profile] is embedded as a Rocq
    function of the same name.  The embedding keeps

    - rows as insertion-ordered mappings from column names to cells, a cell
      being a string or Python's [None] (what [csv.DictReader] produces);
    - the profile as a nested, insertion-ordered dictionary of Python values;
    - exceptions: a computation either returns a value or raises;
    - local variables that are bound on some paths only ([timestamps],
      [daily_trades]) as options, reading an unbound one raises
      [UnboundLocalError].

    Numbers.  Python's [int] is [Z].  The amounts of the wallet history, the
    figures computed from them (total, averages, profit factor) and the daily
    average of trades are IEEE 754 doubles ([float64]): sums, quotients and
    [round] are those of binary64, with overflow to an infinity and NaN.  The
    other floats (order sizes, ratios of counts, intervals in minutes) are
    kept as the rational number they stand for ([Q], always stored reduced),
    with [int(x)] truncating toward zero and [round(x, n)] rounding half to
    even at [n] decimals.

    Library functions.  [datetime.fromisoformat] and [float] applied to a
    string are parameters of the development ([fromisoformat],
    [float_of_str]): every theorem holds whatever they accept.
    [float_of_str] gives the number a numeral denotes; where the double is
    needed it is the one nearest to that number, an infinity when the number
    is out of range.  A reference instance for the fixed-width format written
    by the repository's data generator is given after the analysis and used
    for the concrete examples. *)

From Stdlib Require Import ZArith QArith Qround Qabs String Ascii List Bool Lia Lqa
  Permutation SpecFloat.
Import ListNotations.

Set Warnings "-register-all".
Local Open Scope Z_scope.

(** ** Exceptions and results *)

Inductive exn : Type :=
| UnboundLocalError (name : string)
| TypeError
| ValueError
| IndexError.

Inductive result (A : Type) : Type :=
| Return (a : A)
| Raise (e : exn).

Arguments Return {A} a.
Arguments Raise {A} e.

Definition bind {A B : Type} (c : result A) (k : A -> result B) : result B :=
  match c with
  | Return a => k a
  | Raise e => Raise e
  end.

Notation "x <- c ;; k" := (bind c (fun x => k))
  (at level 61, c at next level, right associativity).
Notation "' pat <- c ;; k" := (bind c (fun x => match x with pat => k end))
  (at level 61, pat pattern, c at next level, right associativity).

(** Reading a local variable that may not have been assigned. *)
Definition read_local {A : Type} (name : string) (v : option A) : result A :=
  match v with
  | Some a => Return a
  | None => Raise (UnboundLocalError name)
  end.

(** ** Rows, as [csv.DictReader] yields them *)

Inductive cell : Type :=
| CNone
| CStr (s : string).

Definition row : Type := list (string * cell).

(** [row_get k r] is [None] when the key is absent (where [dict.get]
    returns its default). *)
Fixpoint row_get (k : string) (r : row) : option cell :=
  match r with
  | [] => None
  | (k', c) :: r' => if String.eqb k k' then Some c else row_get k r'
  end.

(** [o.get(k) == s] for a string literal [s]. *)
Definition field_is (k s : string) (o : row) : bool :=
  match row_get k o with
  | Some (CStr t) => String.eqb t s
  | _ => false
  end.

(** ** Python values and insertion-ordered dictionaries *)

Inductive pykey : Type :=
| KNone
| KInt (z : Z)
| KStr (s : string).

Inductive pyval : Type :=
| VInt (z : Z)
| VFloat (q : Q)
| VDouble (x : spec_float)
| VStr (s : string)
| VList (l : list pyval)
| VDict (d : list (pykey * pyval)).

Definition pykey_eqb (a b : pykey) : bool :=
  match a, b with
  | KNone, KNone => true
  | KInt x, KInt y => Z.eqb x y
  | KStr x, KStr y => String.eqb x y
  | _, _ => false
  end.

Section Dict.
Context {K V : Type} (eqb : K -> K -> bool).

Fixpoint dict_get (k : K) (d : list (K * V)) : option V :=
  match d with
  | [] => None
  | (k', v) :: d' => if eqb k k' then Some v else dict_get k d'
  end.

(** [d[k] = v]: an existing key keeps its position, a new one goes last. *)
Fixpoint dict_set (k : K) (v : V) (d : list (K * V)) : list (K * V) :=
  match d with
  | [] => [(k, v)]
  | (k', v') :: d' =>
      if eqb k k' then (k', v) :: d' else (k', v') :: dict_set k v d'
  end.
End Dict.

(** [defaultdict(int)] used as a counter: [d[k] += 1]. *)
Definition incr {K : Type} (eqb : K -> K -> bool) (k : K) (d : list (K * Z))
  : list (K * Z) :=
  dict_set eqb k (match dict_get eqb k d with Some n => n | None => 0 end + 1) d.

Definition count_keys {K : Type} (eqb : K -> K -> bool) (ks : list K)
  : list (K * Z) :=
  fold_left (fun d k => incr eqb k d) ks [].

(** [max(d, key=d.get)]: the first key, in insertion order, with the largest
    count; [ValueError] on an empty dictionary. *)
Fixpoint max_from {K : Type} (cur : K * Z) (d : list (K * Z)) : K :=
  match d with
  | [] => fst cur
  | kv :: d' => max_from (if snd cur <? snd kv then kv else cur) d'
  end.

Definition max_by_count {K : Type} (d : list (K * Z)) : result K :=
  match d with
  | [] => Raise ValueError
  | kv :: d' => Return (max_from kv d')
  end.

(** The profile and its groups are dictionaries with string keys. *)
Definition pget (k : string) (d : list (pykey * pyval)) : option pyval :=
  dict_get pykey_eqb (KStr k) d.

Definition pset (k : string) (v : pyval) (d : list (pykey * pyval))
  : list (pykey * pyval) :=
  dict_set pykey_eqb (KStr k) v d.

(** [p.get(group, {}).get(key, default)] *)
Definition get2 (group key : string) (default : pyval)
  (p : list (pykey * pyval)) : result pyval :=
  match pget group p with
  | None => Return default
  | Some (VDict g) =>
      match pget key g with
      | Some v => Return v
      | None => Return default
      end
  | Some _ => Raise TypeError
  end.

(** ** Numbers *)

Definition Qltb (a b : Q) : bool := negb (Qle_bool b a).

(** A float value, stored reduced. *)
Definition vfloat (q : Q) : pyval := VFloat (Qred q).

(** [int(x)] for a float: truncation toward zero. *)
Definition py_int (q : Q) : Z := Z.quot (Qnum q) (Zpos (Qden q)).

(** Nearest integer, ties to the even one. *)
Definition round_half_even (q : Q) : Z :=
  let f := Qfloor q in
  match Qcompare (q - inject_Z f) (1 # 2) with
  | Lt => f
  | Gt => f + 1
  | Eq => if Z.even f then f else f + 1
  end.

(** [round(x, n)] for a float [x]. *)
Definition py_round (q : Q) (n : nat) : Q :=
  let scale := Z.pow 10 (Z.of_nat n) in
  Qred (Qmake (round_half_even (q * inject_Z scale)) (Z.to_pos scale)).

(** ** Floats as IEEE 754 doubles

    The amounts of the wallet history and the figures computed from them,
    and the daily average of trades, are binary64 data ([prec] 53, [emax]
    1024) with the operations of the standard library's specification of
    IEEE 754: overflow gives an infinity, [inf / inf] gives NaN, and [round]
    rounds the double that was computed, not the number it stands for. *)

Definition float64 : Type := spec_float.

Definition f64_zero : float64 := S754_zero false.

(** [float('inf')] *)
Definition f64_inf : float64 := S754_infinity false.

(** The double nearest to [p / d], ties to even, with sign [s]. *)
Definition f64_nearest (s : bool) (p d : positive) : float64 :=
  let '(m, e, l) := SFdiv_core_binary 53 1024 (Zpos p) 0 (Zpos d) 0 in
  binary_round_aux 53 1024 s m e l.

(** The double nearest to a rational: what [float] makes of a decimal
    numeral, and what [/] makes of two [int]s. *)
Definition f64_of_Q (q : Q) : float64 :=
  match Qnum q with
  | Z0 => f64_zero
  | Zpos p => f64_nearest false p (Qden q)
  | Zneg p => f64_nearest true p (Qden q)
  end.

(** An [int] as a float operand. *)
Definition f64_of_Z (z : Z) : float64 := f64_of_Q (inject_Z z).

Definition f64_add : float64 -> float64 -> float64 := SFadd 53 1024.
Definition f64_div : float64 -> float64 -> float64 := SFdiv 53 1024.
Definition f64_abs : float64 -> float64 := SFabs.
Definition f64_ltb : float64 -> float64 -> bool := SFltb.
Definition f64_eqb : float64 -> float64 -> bool := SFeqb.

(** The number a finite double stands for. *)
Definition f64_value (x : float64) : option Q :=
  match x with
  | S754_zero _ => Some 0%Q
  | S754_finite s m e =>
      let v := match e with
               | Zneg k => Qmake (Zpos m) (2 ^ k)
               | _ => inject_Z (Zpos m * 2 ^ e)
               end in
      Some (if s then Qopp v else v)
  | _ => None
  end.

(** [round(x, n)] for a float [x] and [0 <= n]: the double nearest to the
    decimal of [n] places nearest to [x], ties between decimals to the even
    one; an infinity or a NaN is returned as it is, and a result of zero
    keeps the sign of [x]. *)
Definition f64_round (x : float64) (n : nat) : float64 :=
  match x with
  | S754_finite s m e =>
      match f64_value (S754_finite false m e) with
      | Some v =>
          let scale := Z.pow 10 (Z.of_nat n) in
          match round_half_even (v * inject_Z scale) with
          | Zpos k => f64_nearest s k (Z.to_pos scale)
          | _ => S754_zero s
          end
      | None => x
      end
  | _ => x
  end.

(** [sum(l)] on floats: additions from the left, starting from the [int]
    0, each rounded to a double (CPython through 3.11; later versions carry
    a compensation term along). *)
Definition f64_sum (l : list float64) : float64 :=
  fold_left f64_add l f64_zero.

(** [min(10, max(1, z))] *)
Definition clamp_score (z : Z) : Z := Z.min 10 (Z.max 1 z).

(** [len(l)] as a float operand. *)
Definition qlen {A : Type} (l : list A) : Q := inject_Z (Z.of_nat (length l)).

Definition qsum (l : list Q) : Q := fold_left Qplus l 0%Q.

(** [max(l)] and [min(l)] on a non-empty list of floats: the first extremal
    element. *)
Definition qmax_from (x : Q) (l : list Q) : Q :=
  fold_left (fun cur y => if Qltb cur y then y else cur) l x.

Definition qmin_from (x : Q) (l : list Q) : Q :=
  fold_left (fun cur y => if Qltb y cur then y else cur) l x.

(** ** Strings *)

(** [needle in hay] *)
Fixpoint str_in (needle hay : string) : bool :=
  if String.prefix needle hay then true
  else match hay with
       | EmptyString => false
       | String _ hay' => str_in needle hay'
       end.

(** [s.replace('Z', '+00:00')] *)
Fixpoint replace_Z (s : string) : string :=
  match s with
  | EmptyString => EmptyString
  | String c s' =>
      if Ascii.eqb c "Z"%char then String.append "+00:00" (replace_Z s')
      else String c (replace_Z s')
  end.

(** The marker written for an unbounded profit factor: the four bytes
    195 162 203 134 between the quotes at line 222 of the source. *)
Definition inf_marker : string :=
  String (ascii_of_nat 195) (String (ascii_of_nat 162)
    (String (ascii_of_nat 203) (String (ascii_of_nat 134) EmptyString))).

(** ** Datetimes *)

(** [wall] is the wall-clock reading in microseconds since
    0001-01-01T00:00:00 (a Monday); [utcoffset] is [None] for a naive
    datetime and the offset from UTC in microseconds for an aware one. *)
Record datetime : Type := mkdt { wall : Z; utcoffset : option Z }.

Definition dt_hour (t : datetime) : Z := (wall t / 3600000000) mod 24.
Definition dt_weekday (t : datetime) : Z := (wall t / 86400000000) mod 7.

(** [a - b] as a number of microseconds; mixing naive and aware datetimes
    raises [TypeError], in subtraction as in comparison. *)
Definition dt_sub (a b : datetime) : result Z :=
  match utcoffset a, utcoffset b with
  | None, None => Return (wall a - wall b)
  | Some oa, Some ob => Return ((wall a - oa) - (wall b - ob))
  | _, _ => Raise TypeError
  end.

Definition dt_lt (a b : datetime) : result bool :=
  d <- dt_sub a b ;; Return (d <? 0).

(** [min(l)]: a later element replaces the current one when it is smaller. *)
Fixpoint dt_min_from (cur : datetime) (l : list datetime) : result datetime :=
  match l with
  | [] => Return cur
  | x :: l' => b <- dt_lt x cur ;; dt_min_from (if b then x else cur) l'
  end.

(** [max(l)]: a later element replaces the current one when it is greater. *)
Fixpoint dt_max_from (cur : datetime) (l : list datetime) : result datetime :=
  match l with
  | [] => Return cur
  | x :: l' => b <- dt_lt cur x ;; dt_max_from (if b then x else cur) l'
  end.

Definition dt_min (l : list datetime) : result datetime :=
  match l with
  | [] => Raise ValueError
  | x :: l' => dt_min_from x l'
  end.

Definition dt_max (l : list datetime) : result datetime :=
  match l with
  | [] => Raise ValueError
  | x :: l' => dt_max_from x l'
  end.

(** [sorted(l)]: a stable sort, here by insertion. *)
Fixpoint dt_insert (x : datetime) (l : list datetime) : result (list datetime) :=
  match l with
  | [] => Return [x]
  | y :: l' =>
      b <- dt_lt x y ;;
      if b then Return (x :: y :: l')
      else (r <- dt_insert x l' ;; Return (y :: r))
  end.

Definition dt_sorted (l : list datetime) : result (list datetime) :=
  fold_left (fun acc x => a <- acc ;; dt_insert x a) l (Return []).

(** Numbers that are an [int] on one branch and a [float] on the other. *)
Inductive pynum : Type :=
| NInt (z : Z)
| NFloat (q : Q).

Definition num_Q (x : pynum) : Q :=
  match x with
  | NInt z => inject_Z z
  | NFloat q => q
  end.

(** [round(x, n)] with [n > 0]: an [int] is returned unchanged. *)
Definition round_num (x : pynum) (n : nat) : pyval :=
  match x with
  | NInt z => VInt z
  | NFloat q => vfloat (py_round q n)
  end.

(** An average of amounts: the [int] 0 of an empty sample, or a double. *)
Inductive avg : Type :=
| AInt (z : Z)
| AFloat (x : float64).

(** The average as an operand of [/] and [>]. *)
Definition avg_f64 (a : avg) : float64 :=
  match a with
  | AInt z => f64_of_Z z
  | AFloat x => x
  end.

(** [round(a, n)] with [n > 0]: an [int] is returned unchanged. *)
Definition round_avg (a : avg) (n : nat) : pyval :=
  match a with
  | AInt z => VInt z
  | AFloat x => VDouble (f64_round x n)
  end.

Definition as_num (v : pyval) : result Q :=
  match v with
  | VInt z => Return (inject_Z z)
  | VFloat q => Return q
  | _ => Raise TypeError
  end.

Definition as_str (v : pyval) : result string :=
  match v with
  | VStr s => Return s
  | _ => Raise TypeError
  end.

(** The three score-to-label ladders share their thresholds. *)
Definition level (score : Z) (high medium low : string) : string :=
  if 7 <=? score then high else if 4 <=? score then medium else low.

(** ** The analysis *)

Definition profile : Type := list (pykey * pyval).

(** [profile[group][key] = v] *)
Definition pset2 (group key : string) (v : pyval) (p : profile) : result profile :=
  match pget group p with
  | Some (VDict g) => Return (pset group (VDict (pset key v g)) p)
  | _ => Raise TypeError
  end.

Definition int_dict (d : list (Z * Z)) : pyval :=
  VDict (map (fun kv => (KInt (fst kv), VInt (snd kv))) d).

Definition weekday_names : list string :=
  ["Mon"; "Tue"; "Wed"; "Thu"; "Fri"; "Sat"; "Sun"]%string.

(** [names[i]] for [0 <= i]. *)
Definition list_index (names : list string) (i : Z) : result string :=
  match nth_error names (Z.to_nat i) with
  | Some s => Return s
  | None => Raise IndexError
  end.

Section Analysis.
Variable fromisoformat : string -> option datetime.
Variable float_of_str : string -> option Q.

(** Lines 45-52. *)
Definition initial_profile : profile :=
  [ (KStr "basic_stats", VDict []);
    (KStr "risk_preference", VDict []);
    (KStr "trading_frequency", VDict []);
    (KStr "discipline_scores", VDict []);
    (KStr "trading_patterns", VDict []);
    (KStr "summary", VDict []) ].

(** *** Basic statistics (lines 54-70) *)

Definition is_filled (o : row) : bool := field_is "ordStatus" "Filled" o.
Definition is_canceled (o : row) : bool := field_is "ordStatus" "Canceled" o.

(** [o.get('ordType', 'Unknown')] as a dictionary key. *)
Definition order_type_key (o : row) : pykey :=
  match row_get "ordType" o with
  | None => KStr "Unknown"
  | Some CNone => KNone
  | Some (CStr s) => KStr s
  end.

Definition count_order_types (orders : list row) : list (pykey * Z) :=
  count_keys pykey_eqb (map order_type_key orders).

Definition fill_rate (filled total : nat) : pynum :=
  if (0 <? Z.of_nat total)
  then NFloat (inject_Z (Z.of_nat filled) / inject_Z (Z.of_nat total) * 100)
  else NInt 0.

Definition basic_stats (orders : list row) : pyval :=
  let total_orders := length orders in
  let filled_orders := filter is_filled orders in
  let canceled_orders := filter is_canceled orders in
  VDict
    [ (KStr "total_orders", VInt (Z.of_nat total_orders));
      (KStr "filled_orders", VInt (Z.of_nat (length filled_orders)));
      (KStr "canceled_orders", VInt (Z.of_nat (length canceled_orders)));
      (KStr "fill_rate",
        round_num (fill_rate (length filled_orders) total_orders) 2);
      (KStr "order_types",
        VDict (map (fun kv => (fst kv, VInt (snd kv)))
                   (count_order_types orders))) ].

(** *** Trading time analysis (lines 72-100) *)

(** The body of the [try] at line 77; [None] when it raises. *)
Definition parse_timestamp (o : row) : option datetime :=
  match row_get "timestamp" o with
  | None => fromisoformat (replace_Z "")
  | Some CNone => None
  | Some (CStr s) => fromisoformat (replace_Z s)
  end.

Definition parse_timestamps (filled_orders : list row) : list datetime :=
  flat_map (fun o => match parse_timestamp o with
                     | Some ts => [ts]
                     | None => []
                     end) filled_orders.

Definition trading_patterns (timestamps : list datetime) (p : profile)
  : result profile :=
  let hour_distribution := count_keys Z.eqb (map dt_hour timestamps) in
  let weekday_distribution := count_keys Z.eqb (map dt_weekday timestamps) in
  most_active_hour <- max_by_count hour_distribution ;;
  most_active_day <- max_by_count weekday_distribution ;;
  p <- pset2 "trading_patterns" "hour_distribution"
         (int_dict hour_distribution) p ;;
  p <- pset2 "trading_patterns" "weekday_distribution"
         (int_dict weekday_distribution) p ;;
  p <- pset2 "trading_patterns" "most_active_hour" (VInt most_active_hour) p ;;
  day <- list_index weekday_names most_active_day ;;
  pset2 "trading_patterns" "most_active_day" (VStr day) p.

(** Returns the binding of the local [timestamps] ([None]: never
    assigned) and the updated profile. *)
Definition time_analysis (filled_orders : list row) (p : profile)
  : result (option (list datetime) * profile) :=
  match filled_orders with
  | [] => Return (None, p)
  | _ :: _ =>
      let timestamps := parse_timestamps filled_orders in
      match timestamps with
      | [] => Return (Some timestamps, p)
      | _ :: _ =>
          p <- trading_patterns timestamps p ;;
          Return (Some timestamps, p)
      end
  end.

(** *** Risk preference (lines 102-133) *)

(** The body of the [try] at line 107: [abs(float(o.get('orderQty', 0)))]. *)
Definition order_size (o : row) : option Q :=
  match row_get "orderQty" o with
  | None => Some (Qabs 0)
  | Some CNone => None
  | Some (CStr s) => option_map Qabs (float_of_str s)
  end.

Definition order_sizes_of (filled_orders : list row) : list Q :=
  flat_map (fun o => match order_size o with
                     | Some size => if Qltb 0 size then [size] else []
                     | None => []
                     end) filled_orders.

Definition large_order_ratio (order_sizes : list Q) : Q :=
  qlen (filter (fun s => Qltb 10000 s) order_sizes) / qlen order_sizes * 100.

Definition risk_score_of (order_sizes : list Q) : Z :=
  clamp_score (py_int (large_order_ratio order_sizes / 5 + 3)).

(** The group computed at lines 114-133 from a non-empty [order_sizes],
    given as its head and tail. *)
Definition risk_preference_of (s : Q) (rest : list Q) : pyval :=
  let order_sizes := s :: rest in
  let avg_order_size := (qsum order_sizes / qlen order_sizes)%Q in
  let risk_score := risk_score_of order_sizes in
  VDict
    [ (KStr "avg_order_size", vfloat (py_round avg_order_size 2));
      (KStr "max_order_size", vfloat (qmax_from s rest));
      (KStr "min_order_size", vfloat (qmin_from s rest));
      (KStr "large_order_ratio",
        vfloat (py_round (large_order_ratio order_sizes) 2));
      (KStr "risk_score", VInt risk_score);
      (KStr "risk_level",
        VStr (level risk_score "High Risk" "Medium Risk" "Low Risk")) ].

Definition risk_analysis (filled_orders : list row) (p : profile) : profile :=
  match order_sizes_of filled_orders with
  | [] => p
  | s :: rest => pset "risk_preference" (risk_preference_of s rest) p
  end.

(** *** Trading frequency (lines 135-164) *)

(** The loop of lines 148-151 over a sorted list: gaps in minutes, those
    outside (0, 7 days) dropped. *)
Fixpoint intervals_of (sorted_ts : list datetime) : result (list Q) :=
  match sorted_ts with
  | a :: ((b :: _) as tl) =>
      d <- dt_sub b a ;;
      let interval := (inject_Z d / 60000000)%Q in
      rest <- intervals_of tl ;;
      Return (if Qltb 0 interval && Qltb interval (60 * 24 * 7)
              then interval :: rest else rest)
  | _ => Return []
  end.

Definition avg_interval_of (intervals : list Q) : pynum :=
  match intervals with
  | [] => NInt 0
  | _ :: _ => NFloat (qsum intervals / qlen intervals)
  end.

Definition frequency_score_of (daily_trades : Q) : Z :=
  clamp_score (py_int (daily_trades / 5)).

Definition trading_frequency_of (trading_days : Z) (daily_trades : Q)
  (avg_interval : pynum) : pyval :=
  let frequency_score := frequency_score_of daily_trades in
  VDict
    [ (KStr "total_trading_days", VInt trading_days);
      (KStr "daily_avg_trades", VDouble (f64_round (f64_of_Q daily_trades) 2));
      (KStr "avg_trade_interval_minutes", round_num avg_interval 2);
      (KStr "frequency_score", VInt frequency_score);
      (KStr "frequency_level",
        VStr (level frequency_score "High Frequency"
                "Medium Frequency" "Low Frequency")) ].

(** Returns the binding of the local [daily_trades] and the updated
    profile. *)
Definition frequency_analysis (timestamps : option (list datetime))
  (filled_orders : list row) (p : profile) : result (option Q * profile) :=
  ts <- read_local "timestamps" timestamps ;;
  if negb (Nat.eqb (length ts) 0) && (2 <=? Z.of_nat (length ts))
  then
    first_trade <- dt_min ts ;;
    last_trade <- dt_max ts ;;
    span <- dt_sub last_trade first_trade ;;
    let days := span / 86400000000 in
    let trading_days := if days =? 0 then 1 else days in
    let daily_trades := (qlen filled_orders / inject_Z trading_days)%Q in
    sorted_ts <- dt_sorted ts ;;
    intervals <- intervals_of sorted_ts ;;
    let avg_interval := avg_interval_of intervals in
    Return
      (Some daily_trades,
       pset "trading_frequency"
         (trading_frequency_of trading_days daily_trades avg_interval) p)
  else Return (None, p).

(** *** Discipline (lines 166-188) *)

(** [order_types.get(k, 0)] *)
Definition type_count (k : string) (order_types : list (pykey * Z)) : Z :=
  match dict_get pykey_eqb (KStr k) order_types with
  | Some n => n
  | None => 0
  end.

Definition limit_ratio_of (order_types : list (pykey * Z)) : pynum :=
  let limit_orders := type_count "Limit" order_types in
  let market_orders := type_count "Market" order_types in
  let total_lm := limit_orders + market_orders in
  if 0 <? total_lm
  then NFloat (inject_Z limit_orders / inject_Z total_lm * 100)
  else NInt 0.

Definition cancel_ratio_of (canceled total : nat) : pynum :=
  if 0 <? Z.of_nat total
  then NFloat (inject_Z (Z.of_nat canceled) / inject_Z (Z.of_nat total) * 100)
  else NInt 0.

Definition discipline_score_of (limit_ratio : pynum) : Z :=
  clamp_score (py_int (num_Q limit_ratio / 10)).

Definition patience_score_of (cancel_ratio : pynum) : Z :=
  clamp_score (py_int (10 - num_Q cancel_ratio / 5)).

Definition discipline_scores_of (orders : list row) : pyval :=
  let limit_ratio := limit_ratio_of (count_order_types orders) in
  let cancel_ratio :=
    cancel_ratio_of (length (filter is_canceled orders)) (length orders) in
  let discipline_score := discipline_score_of limit_ratio in
  let patience_score := patience_score_of cancel_ratio in
  VDict
    [ (KStr "limit_order_ratio", round_num limit_ratio 2);
      (KStr "cancel_ratio", round_num cancel_ratio 2);
      (KStr "discipline_score", VInt discipline_score);
      (KStr "patience_score", VInt patience_score);
      (KStr "discipline_level",
        VStr (level discipline_score "Highly Disciplined"
                "Moderately Disciplined" "Needs Improvement"));
      (KStr "patience_level",
        VStr (level patience_score "Very Patient" "Moderately Patient"
                "Impulsive")) ].

Definition discipline_analysis (orders : list row) (p : profile) : profile :=
  pset "discipline_scores" (discipline_scores_of orders) p.

(** *** PnL (lines 190-223) *)

Definition is_pnl (w : row) : bool := field_is "transactType" "RealisedPNL" w.

(** The body of the [try] at line 197: [float] gives the double nearest to
    the numeral read, and [/] divides it by the [int] 100000000. *)
Definition pnl_amount (entry : row) : option float64 :=
  match row_get "amount" entry with
  | None => Some (f64_div (f64_of_Z 0) (f64_of_Z 100000000))
  | Some CNone => None
  | Some (CStr s) =>
      option_map (fun a => f64_div (f64_of_Q a) (f64_of_Z 100000000))
        (float_of_str s)
  end.

Definition pnl_amounts_of (pnl_entries : list row) : list float64 :=
  flat_map (fun e => match pnl_amount e with
                     | Some a => [a]
                     | None => []
                     end) pnl_entries.

Definition winning_of (pnl_amounts : list float64) : list float64 :=
  filter (fun a => f64_ltb f64_zero a) pnl_amounts.

Definition losing_of (pnl_amounts : list float64) : list float64 :=
  filter (fun a => f64_ltb a f64_zero) pnl_amounts.

Definition avg_win_of (pnl_amounts : list float64) : avg :=
  match winning_of pnl_amounts with
  | [] => AInt 0
  | (_ :: _) as winning_trades =>
      AFloat (f64_div (f64_sum winning_trades)
                (f64_of_Z (Z.of_nat (length winning_trades))))
  end.

Definition avg_loss_of (pnl_amounts : list float64) : avg :=
  match losing_of pnl_amounts with
  | [] => AInt 0
  | (_ :: _) as losing_trades =>
      AFloat (f64_abs (f64_div (f64_sum losing_trades)
                         (f64_of_Z (Z.of_nat (length losing_trades)))))
  end.

(** Line 209. *)
Definition profit_factor_of (avg_win avg_loss : avg) : float64 :=
  if f64_ltb f64_zero (avg_f64 avg_loss)
  then f64_div (avg_f64 avg_win) (avg_f64 avg_loss)
  else f64_inf.

(** Line 222. *)
Definition profit_factor_value (profit_factor : float64) : pyval :=
  if f64_eqb profit_factor f64_inf
  then VStr inf_marker
  else VDouble (f64_round profit_factor 2).

(** The group computed at lines 203-223 from a non-empty [pnl_amounts].
    The win rate is a ratio of two counts and is kept as the number it
    stands for. *)
Definition pnl_analysis_of (pnl_amounts : list float64) : pyval :=
  let total_pnl := f64_sum pnl_amounts in
  let winning_trades := winning_of pnl_amounts in
  let losing_trades := losing_of pnl_amounts in
  let win_rate := (qlen winning_trades / qlen pnl_amounts * 100)%Q in
  let avg_win := avg_win_of pnl_amounts in
  let avg_loss := avg_loss_of pnl_amounts in
  let profit_factor := profit_factor_of avg_win avg_loss in
  VDict
    [ (KStr "total_pnl_btc", VDouble (f64_round total_pnl 8));
      (KStr "total_trades", VInt (Z.of_nat (length pnl_amounts)));
      (KStr "winning_trades", VInt (Z.of_nat (length winning_trades)));
      (KStr "losing_trades", VInt (Z.of_nat (length losing_trades)));
      (KStr "win_rate", vfloat (py_round win_rate 2));
      (KStr "avg_win_btc", round_avg avg_win 8);
      (KStr "avg_loss_btc", round_avg avg_loss 8);
      (KStr "profit_factor", profit_factor_value profit_factor) ].

Definition pnl_analysis (wallet_history : list row) (p : profile) : profile :=
  let pnl_entries := filter is_pnl wallet_history in
  match pnl_entries with
  | [] => p
  | _ :: _ =>
      let pnl_amounts := pnl_amounts_of pnl_entries in
      match pnl_amounts with
      | [] => p
      | _ :: _ => pset "pnl_analysis" (pnl_analysis_of pnl_amounts) p
      end
  end.

(** *** Summary (lines 225-261) *)

(** The [if]/[elif] chain of lines 230-242. *)
Definition trader_type_of (freq_level risk_level : string) : string :=
  if str_in "High" freq_level && str_in "High" risk_level
  then "Aggressive Day Trader"%string
  else if str_in "High" freq_level && str_in "Low" risk_level
  then "Conservative Day Trader"%string
  else if str_in "Low" freq_level && str_in "High" risk_level
  then "Bold Swing Trader"%string
  else if str_in "Low" freq_level && str_in "Low" risk_level
  then "Conservative Value Investor"%string
  else if str_in "Medium" freq_level
  then "Balanced Short-term Trader"%string
  else "Comprehensive Trader"%string.

(** The mapping assigned at lines 244-261. *)
Definition summary_of (trader_type risk_level freq_level : string)
  (discipline_level overall_score advice : pyval) : pyval :=
  VDict
    [ (KStr "trader_type", VStr trader_type);
      (KStr "risk_level", VStr risk_level);
      (KStr "frequency_level", VStr freq_level);
      (KStr "discipline_level", discipline_level);
      (KStr "overall_score", overall_score);
      (KStr "advice", advice) ].

Definition summary (limit_ratio : pynum) (daily_trades : option Q)
  (p : profile) : result profile :=
  risk_level_v <- get2 "risk_preference" "risk_level" (VStr "Unknown") p ;;
  freq_level_v <- get2 "trading_frequency" "frequency_level" (VStr "Unknown") p ;;
  discipline_level <-
    get2 "discipline_scores" "discipline_level" (VStr "Unknown") p ;;
  freq_level <- as_str freq_level_v ;;
  risk_level <- as_str risk_level_v ;;
  let trader_type := trader_type_of freq_level risk_level in
  v <- get2 "risk_preference" "risk_score" (VInt 5) p ;;
  risk_score <- as_num v ;;
  v <- get2 "trading_frequency" "frequency_score" (VInt 5) p ;;
  frequency_score <- as_num v ;;
  v <- get2 "discipline_scores" "discipline_score" (VInt 5) p ;;
  discipline_score <- as_num v ;;
  v <- get2 "discipline_scores" "patience_score" (VInt 5) p ;;
  patience_score <- as_num v ;;
  let overall_score :=
    py_round ((risk_score + frequency_score + discipline_score
               + patience_score) / 4)%Q 1 in
  let advice1 :=
    if Qltb 70 (num_Q limit_ratio)
    then "Continue maintaining limit order trading habits to improve execution efficiency"%string
    else "Consider increasing limit order usage to reduce slippage costs"%string in
  daily <- read_local "daily_trades" daily_trades ;;
  let advice2 :=
    if Qltb daily 50
    then "Trading rhythm is stable, maintain current strategy"%string
    else "Consider reducing trading frequency to improve quality per trade"%string in
  v <- get2 "risk_preference" "risk_score" (VInt 5) p ;;
  risk_score' <- as_num v ;;
  let advice3 :=
    if Qltb risk_score' 5
    then "Risk control is good"%string
    else "Pay attention to controlling position sizes and diversifying risk"%string in
  Return
    (pset "summary"
      (summary_of trader_type risk_level freq_level discipline_level
         (vfloat overall_score)
         (VList [VStr advice1; VStr advice2; VStr advice3]))
      p).

(** *** The function (lines 39-263) *)

Definition analyze_trader_profile
  (orders wallet_history executions : list row) : result profile :=
  let p := initial_profile in
  let filled_orders := filter is_filled orders in
  let p := pset "basic_stats" (basic_stats orders) p in
  ' (timestamps, p) <- time_analysis filled_orders p ;;
  let p := risk_analysis filled_orders p in
  ' (daily_trades, p) <- frequency_analysis timestamps filled_orders p ;;
  let p := discipline_analysis orders p in
  let p := pnl_analysis wallet_history p in
  summary (limit_ratio_of (count_order_types orders)) daily_trades p.
End Analysis.

(** ** Reference instances of the library functions

    Enough of [datetime.fromisoformat] and [float] to read the files the
    repository's generator writes: [YYYY-MM-DDTHH:MM:SS], optionally followed
    by [.ffffff] and by an offset [+HH:MM] or [-HH:MM]; and plain decimal
    numerals with an optional sign and fraction. *)

Module Reference.

Definition digit (c : ascii) : option Z :=
  let n := Z.of_nat (nat_of_ascii c) in
  if (48 <=? n) && (n <=? 57) then Some (n - 48) else None.

(** Reads exactly [n] digits. *)
Fixpoint digits (n : nat) (acc : Z) (s : string) : option (Z * string) :=
  match n with
  | O => Some (acc, s)
  | S n' =>
      match s with
      | String c s' =>
          match digit c with
          | Some d => digits n' (10 * acc + d) s'
          | None => None
          end
      | EmptyString => None
      end
  end.

Definition expect (c : ascii) (s : string) : option string :=
  match s with
  | String c' s' => if Ascii.eqb c c' then Some s' else None
  | EmptyString => None
  end.

Definition is_leap (y : Z) : bool :=
  (y mod 4 =? 0) && (negb (y mod 100 =? 0) || (y mod 400 =? 0)).

Definition days_in_month (y m : Z) : Z :=
  if m =? 2 then (if is_leap y then 29 else 28)
  else if (m =? 4) || (m =? 6) || (m =? 9) || (m =? 11) then 30 else 31.

Definition days_before_year (y : Z) : Z :=
  let y1 := y - 1 in y1 * 365 + y1 / 4 - y1 / 100 + y1 / 400.

Definition days_before_month (y m : Z) : Z :=
  fold_left (fun acc k => acc + days_in_month y k)
    (map Z.of_nat (seq 1 (Z.to_nat (m - 1)))) 0.

Definition opt_bind {A B : Type} (o : option A) (k : A -> option B) : option B :=
  match o with
  | Some a => k a
  | None => None
  end.

Notation "x <~ c ;; k" := (opt_bind c (fun x => k))
  (at level 61, c at next level, right associativity).
Notation "' pat <~ c ;; k" := (opt_bind c (fun x => match x with pat => k end))
  (at level 61, pat pattern, c at next level, right associativity).

Definition guard (b : bool) : option unit := if b then Some tt else None.

Definition offset (sign : Z) (s : string) : option (option Z) :=
  ' (h, s) <~ digits 2 0 s ;;
  s <~ expect ":" s ;;
  ' (m, s) <~ digits 2 0 s ;;
  _ <~ guard ((h <? 24) && (m <? 60)) ;;
  match s with
  | EmptyString => Some (Some (sign * (h * 3600000000 + m * 60000000)))
  | _ => None
  end.

Definition tail (s : string) : option (option Z) :=
  match s with
  | EmptyString => Some None
  | String c s' =>
      if Ascii.eqb c "+" then offset 1 s'
      else if Ascii.eqb c "-" then offset (-1) s'
      else None
  end.

Definition fromisoformat (s : string) : option datetime :=
  ' (y, s) <~ digits 4 0 s ;;
  s <~ expect "-" s ;;
  ' (m, s) <~ digits 2 0 s ;;
  s <~ expect "-" s ;;
  ' (d, s) <~ digits 2 0 s ;;
  s <~ expect "T" s ;;
  ' (hh, s) <~ digits 2 0 s ;;
  s <~ expect ":" s ;;
  ' (mm, s) <~ digits 2 0 s ;;
  s <~ expect ":" s ;;
  ' (ss, s) <~ digits 2 0 s ;;
  ' (us, s) <~ match expect "." s with
               | Some s' => digits 6 0 s'
               | None => Some (0, s)
               end ;;
  _ <~ guard ((1 <=? y) && (1 <=? m) && (m <=? 12) && (1 <=? d)
              && (d <=? days_in_month y m)
              && (hh <? 24) && (mm <? 60) && (ss <? 60)) ;;
  off <~ tail s ;;
  let day := days_before_year y + days_before_month y m + d - 1 in
  Some (mkdt (((day * 24 + hh) * 60 + mm) * 60000000 + ss * 1000000 + us)
             off).

(** Reads a maximal run of digits, returning its value and its length. *)
Fixpoint numeral (acc : Z) (len : nat) (s : string) : Z * nat * string :=
  match s with
  | String c s' =>
      match digit c with
      | Some d => numeral (10 * acc + d) (S len) s'
      | None => (acc, len, s)
      end
  | EmptyString => (acc, len, s)
  end.

Definition unsigned (s : string) : option Q :=
  let '(i, ni, s) := numeral 0 0 s in
  match s with
  | EmptyString =>
      if Nat.eqb ni 0 then None else Some (inject_Z i)
  | String c s' =>
      if Ascii.eqb c "." then
        let '(f, nf, s'') := numeral 0 0 s' in
        match s'' with
        | EmptyString =>
            if Nat.eqb (ni + nf) 0 then None
            else Some (Qred (inject_Z i
                             + Qmake f (Z.to_pos (Z.pow 10 (Z.of_nat nf)))))
        | _ => None
        end
      else None
  end.

Definition float_of_str (s : string) : option Q :=
  match s with
  | String c s' =>
      if Ascii.eqb c "-" then option_map Qopp (unsigned s')
      else if Ascii.eqb c "+" then unsigned s'
      else unsigned s
  | EmptyString => None
  end.

(** The function at the reference instances. *)
Definition analyze : list row -> list row -> list row -> result profile :=
  analyze_trader_profile fromisoformat float_of_str.

End Reference.

(** ** Vocabulary of the properties *)

(** The total of a counter. *)
Definition counts_total {K : Type} (d : list (K * Z)) : Z :=
  fold_right (fun kv acc => snd kv + acc) 0 d.

(** The sum of the values of a dictionary, when all of them are [int]s. *)
Definition int_values_sum (d : list (pykey * pyval)) : option Z :=
  fold_right (fun kv acc =>
                match snd kv, acc with
                | VInt z, Some s => Some (z + s)
                | _, _ => None
                end) (Some 0) d.

(** The decision table of the specification, section 4.7: rules over
    (frequency level, risk level), tried in order, the first that applies
    wins, with a final default. *)
Definition decision_table : list ((string -> string -> bool) * string) :=
  [ (fun freq risk => str_in "High" freq && str_in "High" risk,
     "Aggressive Day Trader"%string);
    (fun freq risk => str_in "High" freq && str_in "Low" risk,
     "Conservative Day Trader"%string);
    (fun freq risk => str_in "Low" freq && str_in "High" risk,
     "Bold Swing Trader"%string);
    (fun freq risk => str_in "Low" freq && str_in "Low" risk,
     "Conservative Value Investor"%string);
    (fun freq _ => str_in "Medium" freq,
     "Balanced Short-term Trader"%string) ].

Fixpoint first_match (rules : list ((string -> string -> bool) * string))
  (freq risk : string) : string :=
  match rules with
  | [] => "Comprehensive Trader"%string
  | (applies, label) :: rest =>
      if applies freq risk then label else first_match rest freq risk
  end.

Definition spec_trader_type (freq risk : string) : string :=
  first_match decision_table freq risk.

(** Where the four scores live in a profile. *)
Definition score_keys : list (string * string) :=
  [ ("risk_preference", "risk_score"); ("trading_frequency", "frequency_score");
    ("discipline_scores", "discipline_score");
    ("discipline_scores", "patience_score") ]%string.

(** ** Concrete inputs *)

Module Examples.
Definition order (ordType orderQty timestamp : string) : row :=
  [ ("ordStatus", CStr "Filled"); ("ordType", CStr ordType);
    ("orderQty", CStr orderQty); ("timestamp", CStr timestamp) ]%string.

(** Two filled orders ten minutes apart, one of them large. *)
Definition orders : list row :=
  [ order "Limit" "20000" "2024-01-01T10:00:00Z";
    order "Market" "500" "2024-01-01T10:10:00Z" ].

(** Two filled orders with parseable timestamps and no valid size. *)
Definition unsized_orders : list row :=
  [ order "Limit" "0" "2024-01-01T10:00:00Z";
    [ ("ordStatus", CStr "Filled"); ("ordType", CStr "Market");
      ("timestamp", CStr "2024-01-01T10:10:00Z") ]%string ].

Definition wallet_entry (transactType amount : string) : row :=
  [ ("transactType", CStr transactType); ("amount", CStr amount) ]%string.

(** One winning and one losing realised PnL entry, and a funding entry. *)
Definition wallet : list row :=
  [ wallet_entry "RealisedPNL" "300000000";
    wallet_entry "Funding" "-1200";
    wallet_entry "RealisedPNL" "-100000000" ].

(** A single realised PnL entry of amount zero. *)
Definition flat_wallet : list row := [ wallet_entry "RealisedPNL" "0" ].

(** A win of 1.015 BTC and a loss of 1 BTC. *)
Definition rounding_wallet : list row :=
  [ wallet_entry "RealisedPNL" "101500000";
    wallet_entry "RealisedPNL" "-100000000" ].

Fixpoint zeros (n : nat) : string :=
  match n with
  | O => EmptyString
  | S n' => String "0" (zeros n')
  end.

(** A win of 1e308 and a loss of 1e-300 satoshis, written out in digits. *)
Definition overflow_wallet : list row :=
  [ wallet_entry "RealisedPNL" (String "1" (zeros 308));
    wallet_entry "RealisedPNL"
      (String.append "-0." (String.append (zeros 299) "1")) ].

(** A win and a loss too large for a double: [float] reads an infinity. *)
Definition unbounded_wallet : list row :=
  [ wallet_entry "RealisedPNL" (String "1" (zeros 400));
    wallet_entry "RealisedPNL" (String "-" (String "1" (zeros 400))) ].

(** No realised PnL entry at all. *)
Definition funding_wallet : list row :=
  [ wallet_entry "Funding" "-1200"; wallet_entry "Deposit" "500000" ].

Definition returned (r : result profile) : profile :=
  match r with
  | Return p => p
  | Raise _ => []
  end.

Definition profile1 : profile :=
  Eval vm_compute in returned (Reference.analyze orders wallet []).

Definition profile2 : profile :=
  Eval vm_compute in returned (Reference.analyze unsized_orders flat_wallet []).

Definition profile3 : profile :=
  Eval vm_compute in returned (Reference.analyze orders funding_wallet []).

Definition profile4 : profile :=
  Eval vm_compute in returned (Reference.analyze orders overflow_wallet []).

Definition profile5 : profile :=
  Eval vm_compute in returned (Reference.analyze orders rounding_wallet []).

Definition profile6 : profile :=
  Eval vm_compute in returned (Reference.analyze orders unbounded_wallet []).

Definition group (k : string) (p : profile) : profile :=
  match pget k p with
  | Some (VDict g) => g
  | _ => []
  end.
End Examples.

(** ** Vocabulary of the further properties *)

(** Whether a datetime carries a UTC offset. *)
Definition aware (t : datetime) : bool :=
  match utcoffset t with Some _ => true | None => false end.

(** Both naive or both aware: what Python requires of two datetimes
    to order or subtract them. *)
Definition same_kind (a b : datetime) : bool := Bool.eqb (aware a) (aware b).

(** All the datetimes of a list are of the same kind. *)
Definition comparable (ts : list datetime) : bool :=
  match ts with
  | [] => true
  | t :: rest => forallb (same_kind t) rest
  end.

(** The point in time a datetime denotes, in microseconds: UTC for an
    aware one, the wall clock for a naive one. *)
Definition instant (t : datetime) : Z :=
  match utcoffset t with
  | Some off => wall t - off
  | None => wall t
  end.

(** How many elements of [ks] the test [eqb k] accepts. *)
Definition occurrences {K : Type} (eqb : K -> K -> bool) (k : K) (ks : list K)
  : Z :=
  Z.of_nat (length (filter (eqb k) ks)).

(** [d.get(k, 0)] on a counter. *)
Definition count_of {K : Type} (eqb : K -> K -> bool) (k : K)
  (d : list (K * Z)) : Z :=
  match dict_get eqb k d with
  | Some n => n
  | None => 0
  end.

(** The group assigned key by key at lines 97-100. *)
Definition trading_patterns_of (timestamps : list datetime)
  (most_active_hour : Z) (most_active_day : string) : pyval :=
  VDict
    [ (KStr "hour_distribution",
        int_dict (count_keys Z.eqb (map dt_hour timestamps)));
      (KStr "weekday_distribution",
        int_dict (count_keys Z.eqb (map dt_weekday timestamps)));
      (KStr "most_active_hour", VInt most_active_hour);
      (KStr "most_active_day", VStr most_active_day) ].

(** The distinct elements of a list, in order of first occurrence. *)
Definition first_seen {K : Type} (eqb : K -> K -> bool) (ks : list K) : list K :=
  fold_left (fun seen k => if existsb (eqb k) seen then seen else seen ++ [k])
    ks [].

(** The three pieces of advice of lines 257-259. *)
Definition advice_of (limit_ratio : pynum) (daily_trades risk_score : Q)
  : pyval :=
  VList
    [ VStr (if Qltb 70 (num_Q limit_ratio)
            then "Continue maintaining limit order trading habits to improve execution efficiency"
            else "Consider increasing limit order usage to reduce slippage costs");
      VStr (if Qltb daily_trades 50
            then "Trading rhythm is stable, maintain current strategy"
            else "Consider reducing trading frequency to improve quality per trade");
      VStr (if Qltb risk_score 5
            then "Risk control is good"
            else "Pay attention to controlling position sizes and diversifying risk") ].

(** What the summary reads for the risk score and the risk level: the
    defaults when no order size is valid. *)
Definition risk_score_read (order_sizes : list Q) : Z :=
  match order_sizes with
  | [] => 5
  | _ :: _ => risk_score_of order_sizes
  end.

Definition risk_level_read (order_sizes : list Q) : string :=
  match order_sizes with
  | [] => "Unknown"
  | _ :: _ => level (risk_score_of order_sizes)
                "High Risk" "Medium Risk" "Low Risk"
  end.

(** A value banded by two thresholds. *)
Definition banded (x high medium : Q) (h m l : string) : string :=
  if Qle_bool high x then h else if Qle_bool medium x then m else l.

(** [p[group][key]], when both are present. *)
Definition field (group key : string) (p : profile) : option pyval :=
  match pget group p with
  | Some (VDict g) => pget key g
  | _ => None
  end.

(** Where the percentages live in a profile. *)
Definition percentage_keys : list (string * string) :=
  [ ("basic_stats", "fill_rate"); ("risk_preference", "large_order_ratio");
    ("discipline_scores", "limit_order_ratio");
    ("discipline_scores", "cancel_ratio"); ("pnl_analysis", "win_rate") ]%string.

(** The trader type for each frequency level and risk level that can occur. *)
Definition trader_type_table : list (string * string * string) :=
  [ ("High Frequency", "High Risk", "Aggressive Day Trader");
    ("High Frequency", "Medium Risk", "Comprehensive Trader");
    ("High Frequency", "Low Risk", "Conservative Day Trader");
    ("High Frequency", "Unknown", "Comprehensive Trader");
    ("Medium Frequency", "High Risk", "Balanced Short-term Trader");
    ("Medium Frequency", "Medium Risk", "Balanced Short-term Trader");
    ("Medium Frequency", "Low Risk", "Balanced Short-term Trader");
    ("Medium Frequency", "Unknown", "Balanced Short-term Trader");
    ("Low Frequency", "High Risk", "Bold Swing Trader");
    ("Low Frequency", "Medium Risk", "Comprehensive Trader");
    ("Low Frequency", "Low Risk", "Conservative Value Investor");
    ("Low Frequency", "Unknown", "Comprehensive Trader") ]%string.


(** A percentage as the report shows it: the [int] 0 of a guarded
    division, or a [float] between 0 and 100. *)
Definition is_percentage (v : pyval) : Prop :=
  v = VInt 0 \/ exists q, v = VFloat q /\ (0 <= q)%Q /\ (q <= 100)%Q.

(** The keys of the profile the function starts from, in order. *)
Definition initial_keys : list pykey :=
  [ KStr "basic_stats"; KStr "risk_preference"; KStr "trading_frequency";
    KStr "discipline_scores"; KStr "trading_patterns"; KStr "summary" ].

(** A row whose timestamp column was normalised beforehand. *)
Definition with_timestamp (s : string) (o : row) : row :=
  ("timestamp"%string, CStr s) :: o.

(** The subscripts [main] applies to a returned profile without a default
    (lines 300-305, 338-346 and 356-365). *)
Definition main_subscripts : list (string * string) :=
  [ ("basic_stats", "total_orders"); ("basic_stats", "filled_orders");
    ("basic_stats", "canceled_orders"); ("basic_stats", "fill_rate");
    ("basic_stats", "order_types");
    ("pnl_analysis", "total_pnl_btc"); ("pnl_analysis", "total_trades");
    ("pnl_analysis", "winning_trades"); ("pnl_analysis", "losing_trades");
    ("pnl_analysis", "win_rate"); ("pnl_analysis", "avg_win_btc");
    ("pnl_analysis", "avg_loss_btc"); ("pnl_analysis", "profit_factor");
    ("summary", "trader_type"); ("summary", "overall_score");
    ("summary", "risk_level"); ("summary", "frequency_level");
    ("summary", "discipline_level"); ("summary", "advice") ]%string.

Module Cases.
(** Five orders over eight days: four filled, one canceled without a type;
    one timestamp carries an offset. *)
Definition week_orders : list row :=
  [ Examples.order "Limit" "20000" "2024-01-01T10:00:00Z";
    Examples.order "Market" "-500" "2024-01-03T23:30:00+02:00";
    Examples.order "Limit" "1500" "2024-01-01T10:45:00Z";
    [ ("ordStatus", CStr "Canceled"); ("orderQty", CStr "100") ]%string;
    Examples.order "Limit" "700" "2024-01-09T12:00:00Z" ].

Definition week_profile : profile :=
  Eval vm_compute in
    Examples.returned (Reference.analyze week_orders Examples.wallet []).

(** One aware and one naive timestamp. *)
Definition mixed_orders : list row :=
  [ Examples.order "Limit" "1" "2024-01-01T10:00:00Z";
    Examples.order "Limit" "1" "2024-01-01T10:10:00" ].

(** A single filled order. *)
Definition single_order : list row :=
  [ Examples.order "Limit" "1" "2024-01-01T10:00:00Z" ].

(** Three filled orders over forty days. *)
Definition sparse_orders : list row :=
  [ Examples.order "Limit" "100" "2024-01-01T10:00:00Z";
    Examples.order "Limit" "100" "2024-01-20T10:00:00Z";
    Examples.order "Market" "100" "2024-02-10T10:00:00Z" ].

Definition sparse_profile : profile :=
  Eval vm_compute in
    Examples.returned (Reference.analyze sparse_orders [] []).
End Cases.

(** Two orders that agree on the four columns the analysis reads. *)
Definition same_order_columns (o o' : row) : Prop :=
  row_get "ordStatus" o = row_get "ordStatus" o' /\
  row_get "ordType" o = row_get "ordType" o' /\
  row_get "orderQty" o = row_get "orderQty" o' /\
  row_get "timestamp" o = row_get "timestamp" o'.

(** Two wallet entries that agree on the two columns the analysis reads. *)
Definition same_wallet_columns (w w' : row) : Prop :=
  row_get "transactType" w = row_get "transactType" w' /\
  row_get "amount" w = row_get "amount" w'.

Module Variants.
(** The orders of [Cases.week_orders] as an export with more columns would
    give them: an identifier in front of each row, a side behind it. *)
Definition wide_orders : list row :=
  map (fun o => (("orderID", CStr "o-1") :: o ++ [("side", CStr "Buy")])%string)
    Cases.week_orders.

Definition wide_wallet : list row :=
  map (fun w => (("transactID", CStr "t-1") :: w)%string) Examples.wallet.

(** The same orders, latest first. *)
Definition latest_first : list row := rev Cases.week_orders.
End Variants.

(** * Properties *)

(** ** Dictionaries *)

Lemma pykey_eqb_eq (a b : pykey) : pykey_eqb a b = true <-> a = b.
Proof.
  destruct a, b; simpl; split; intro H;
    try discriminate; try reflexivity.
  - apply Z.eqb_eq in H. now subst.
  - injection H as ->. apply Z.eqb_refl.
  - apply String.eqb_eq in H. now subst.
  - injection H as ->. apply String.eqb_refl.
Qed.

Lemma pget_pset_same (k : string) (v : pyval) (d : profile) :
  pget k (pset k v d) = Some v.
Proof.
  unfold pget, pset.
  induction d as [| [k' v'] d IH]; cbn [dict_get dict_set].
  - simpl. now rewrite String.eqb_refl.
  - destruct (pykey_eqb (KStr k) k') eqn:E; cbn [dict_get]; rewrite E; auto.
Qed.

Lemma pget_pset_other (k k' : string) (v : pyval) (d : profile) :
  k <> k' -> pget k (pset k' v d) = pget k d.
Proof.
  intro Hne. unfold pget, pset.
  induction d as [| [k0 v0] d IH]; cbn [dict_get dict_set].
  - simpl. destruct (String.eqb k k') eqn:E; [|reflexivity].
    apply String.eqb_eq in E. contradiction.
  - destruct (pykey_eqb (KStr k') k0) eqn:E'; cbn [dict_get].
    + destruct (pykey_eqb (KStr k) k0) eqn:E; [|reflexivity].
      apply pykey_eqb_eq in E, E'. congruence.
    + now rewrite IH.
Qed.

Lemma pset2_frame (group key : string) (v : pyval) (p p' : profile) :
  pset2 group key v p = Return p' ->
  forall k, k <> group -> pget k p' = pget k p.
Proof.
  unfold pset2. intros H k Hk.
  destruct (pget group p) as [[]|]; try discriminate.
  injection H as <-. now apply pget_pset_other.
Qed.

Lemma get2_pset_other (group key k : string) (dflt v : pyval) (p : profile) :
  group <> k -> get2 group key dflt (pset k v p) = get2 group key dflt p.
Proof.
  intro H. unfold get2. now rewrite pget_pset_other.
Qed.

(** Splitting a successful sequence. *)
Lemma bind_Return {A B : Type} (c : result A) (k : A -> result B) (b : B) :
  bind c k = Return b -> exists a, c = Return a /\ k a = Return b.
Proof.
  destruct c as [a|]; simpl; [eauto | discriminate].
Qed.

Ltac inv_bind H :=
  let a := fresh "a" in
  let Ha := fresh "Ha" in
  apply bind_Return in H; destruct H as (a & Ha & H).

(** ** Counters *)

Section Counters.
Context {K : Type} (eqb : K -> K -> bool).

Lemma dict_set_total (k : K) (n : Z) (d : list (K * Z)) :
  counts_total (dict_set eqb k n d)
  = counts_total d + n
    - match dict_get eqb k d with Some m => m | None => 0 end.
Proof.
  induction d as [| [k' m] d IH]; cbn [dict_set dict_get counts_total fold_right snd].
  - lia.
  - destruct (eqb k k'); cbn [counts_total fold_right snd].
    + lia.
    + fold (counts_total (dict_set eqb k n d)). fold (counts_total d).
      rewrite IH. lia.
Qed.

Lemma incr_total (k : K) (d : list (K * Z)) :
  counts_total (incr eqb k d) = counts_total d + 1.
Proof. unfold incr. rewrite dict_set_total. lia. Qed.

Lemma count_keys_total (ks : list K) :
  counts_total (count_keys eqb ks) = Z.of_nat (length ks).
Proof.
  unfold count_keys.
  assert (G : forall d, counts_total (fold_left (fun d k => incr eqb k d) ks d)
                        = counts_total d + Z.of_nat (length ks)).
  { induction ks as [| k ks IH]; intro d; cbn [fold_left length].
    - lia.
    - rewrite IH, incr_total. lia. }
  rewrite G. reflexivity.
Qed.

Lemma dict_set_keys (k : K) (n : Z) (d : list (K * Z)) (k' : K) :
  In k' (map fst (dict_set eqb k n d)) -> k' = k \/ In k' (map fst d).
Proof.
  induction d as [| [k0 m] d IH]; cbn [dict_set map fst In].
  - intros [<- | []]. now left.
  - destruct (eqb k k0); cbn [map fst In]; intuition.
Qed.

Lemma dict_set_nonempty (k : K) (n : Z) (d : list (K * Z)) :
  dict_set eqb k n d <> [].
Proof. destruct d as [| [k0 m] d]; simpl; [|destruct (eqb k k0)]; discriminate. Qed.

Lemma count_keys_keys (ks : list K) (k : K) :
  In k (map fst (count_keys eqb ks)) -> In k ks.
Proof.
  unfold count_keys.
  assert (G : forall d, In k (map fst (fold_left (fun d k => incr eqb k d) ks d))
                        -> In k ks \/ In k (map fst d)).
  { induction ks as [| k0 ks IH]; intros d H; cbn [fold_left] in H.
    - now right.
    - apply IH in H as [H | H]; [left; now right|].
      apply dict_set_keys in H as [-> | H]; [left; now left | now right]. }
  intro H. apply G in H as [H | []]. exact H.
Qed.

Lemma count_keys_nonempty (k : K) (ks : list K) :
  count_keys eqb (k :: ks) <> [].
Proof.
  unfold count_keys.
  assert (G : forall l d, d <> [] -> fold_left (fun d k => incr eqb k d) l d <> []).
  { induction l as [| k0 l IH]; intros d Hd; cbn [fold_left]; [exact Hd|].
    apply IH, dict_set_nonempty. }
  cbn [fold_left]. apply G, dict_set_nonempty.
Qed.

Lemma max_from_in (cur : K * Z) (d : list (K * Z)) :
  In (max_from cur d) (fst cur :: map fst d).
Proof.
  revert cur. induction d as [| kv d IH]; intro cur; cbn [max_from map].
  - now left.
  - specialize (IH (if snd cur <? snd kv then kv else cur)).
    destruct (snd cur <? snd kv); cbn [In] in *; intuition.
Qed.

Lemma max_by_count_in (k : K) (ks : list K) :
  exists m, max_by_count (count_keys eqb (k :: ks)) = Return m /\ In m (k :: ks).
Proof.
  pose proof (count_keys_nonempty k ks) as Hne.
  pose proof (count_keys_keys (k :: ks)) as Hk.
  destruct (count_keys eqb (k :: ks)) as [| kv d]; [contradiction|].
  exists (max_from kv d). split; [reflexivity|].
  apply Hk. apply (max_from_in kv d).
Qed.
End Counters.

Lemma int_values_sum_counts (d : list (pykey * Z)) :
  int_values_sum (map (fun kv => (fst kv, VInt (snd kv))) d)
  = Some (counts_total d).
Proof.
  induction d as [| [k n] d IH]; [reflexivity|].
  cbn [map int_values_sum fold_right fst snd counts_total].
  fold (int_values_sum (map (fun kv => (fst kv, VInt (snd kv))) d)).
  fold (counts_total d).
  now rewrite IH.
Qed.

Lemma filled_not_canceled (o : row) : is_filled o && is_canceled o = false.
Proof.
  unfold is_filled, is_canceled, field_is.
  destruct (row_get "ordStatus" o) as [[| t]|]; try reflexivity.
  destruct (String.eqb t "Filled") eqn:E; [|reflexivity].
  apply String.eqb_eq in E. now subst.
Qed.

Lemma filled_canceled_le (orders : list row) :
  (length (filter is_filled orders) + length (filter is_canceled orders)
   <= length orders)%nat.
Proof.
  induction orders as [| o orders IH]; [reflexivity|].
  pose proof (filled_not_canceled o) as H.
  cbn [filter]. destruct (is_filled o), (is_canceled o);
    try discriminate; cbn [length]; lia.
Qed.

Lemma clamp_score_range (z : Z) : 1 <= clamp_score z <= 10.
Proof. unfold clamp_score. lia. Qed.

Lemma trader_type_of_spec (freq risk : string) :
  trader_type_of freq risk = spec_trader_type freq risk.
Proof. reflexivity. Qed.

Lemma filter_none {A : Type} (f : A -> bool) (l : list A) :
  (forall x, In x l -> f x = false) -> filter f l = [].
Proof.
  induction l as [| x l IH]; intro H; [reflexivity|].
  cbn [filter]. rewrite (H x) by now left.
  apply IH. intros y Hy. apply H. now right.
Qed.

Lemma as_str_Return (v : pyval) (s : string) :
  as_str v = Return s -> v = VStr s.
Proof. destruct v; simpl; intro H; now inversion H. Qed.

(** Comparisons of doubles with zero and with infinity. *)
Lemma f64_sign_exclusive (a : float64) :
  f64_ltb f64_zero a = true -> f64_ltb a f64_zero = true -> False.
Proof.
  intros H1 H2.
  destruct a as [[] | [] | | [] m e]; cbv in H1, H2; discriminate.
Qed.

Lemma f64_eqb_inf (x : float64) : f64_eqb x f64_inf = true <-> x = f64_inf.
Proof.
  destruct x as [[] | [] | | [] m e]; cbv; split; intro H;
    try discriminate; reflexivity.
Qed.

Lemma dt_sub_opp (a b : datetime) (d : Z) :
  dt_sub a b = Return d -> dt_sub b a = Return (- d).
Proof.
  unfold dt_sub. destruct (utcoffset a), (utcoffset b); intro H;
    inversion H; f_equal; lia.
Qed.

Lemma list_index_weekday (t : datetime) :
  exists s, list_index weekday_names (dt_weekday t) = Return s.
Proof.
  unfold dt_weekday.
  pose proof (Z.mod_pos_bound (wall t / 86400000000) 7 ltac:(lia)) as H.
  set (d := (wall t / 86400000000) mod 7) in *.
  assert (E : d = 0 \/ d = 1 \/ d = 2 \/ d = 3 \/ d = 4 \/ d = 5 \/ d = 6) by lia.
  destruct E as [-> | [-> | [-> | [-> | [-> | [-> | ->]]]]]];
    eexists; reflexivity.
Qed.

(** ** What each block touches *)

Section Frames.
Variable fromisoformat : string -> option datetime.
Variable float_of_str : string -> option Q.


Lemma trading_patterns_frame (ts : list datetime) (p p' : profile) :
  trading_patterns ts p = Return p' ->
  forall k, k <> "trading_patterns"%string -> pget k p' = pget k p.
Proof.
  unfold trading_patterns. intros H k Hk.
  repeat inv_bind H.
  rewrite (pset2_frame _ _ _ _ _ H k Hk).
  rewrite (pset2_frame _ _ _ _ _ Ha3 k Hk).
  rewrite (pset2_frame _ _ _ _ _ Ha2 k Hk).
  now rewrite (pset2_frame _ _ _ _ _ Ha1 k Hk).
Qed.

Lemma time_analysis_frame (filled : list row) (p p' : profile)
  (ts : option (list datetime)) :
  time_analysis fromisoformat filled p = Return (ts, p') ->
  forall k, k <> "trading_patterns"%string -> pget k p' = pget k p.
Proof.
  unfold time_analysis. intros H k Hk.
  destruct filled as [| o filled]; [now inversion H|].
  destruct (parse_timestamps fromisoformat (o :: filled)); [now inversion H|].
  inv_bind H. inversion H; subst.
  eapply trading_patterns_frame; eauto.
Qed.

Lemma time_analysis_timestamps (filled : list row) (p p' : profile)
  (ts : option (list datetime)) :
  time_analysis fromisoformat filled p = Return (ts, p') ->
  ts = match filled with
       | [] => None
       | _ :: _ => Some (parse_timestamps fromisoformat filled)
       end.
Proof.
  unfold time_analysis. intros H.
  destruct filled as [| o filled]; [now inversion H|].
  destruct (parse_timestamps fromisoformat (o :: filled)); [now inversion H|].
  inv_bind H. now inversion H.
Qed.

Lemma risk_analysis_frame (filled : list row) (p : profile) (k : string) :
  k <> "risk_preference"%string ->
  pget k (risk_analysis float_of_str filled p) = pget k p.
Proof.
  intro Hk. unfold risk_analysis.
  destruct (order_sizes_of float_of_str filled); [reflexivity|].
  now apply pget_pset_other.
Qed.

Lemma risk_analysis_group (filled : list row) (p : profile) :
  pget "risk_preference" p = Some (VDict []) ->
  pget "risk_preference" (risk_analysis float_of_str filled p)
  = Some (match order_sizes_of float_of_str filled with
          | [] => VDict []
          | s :: rest => risk_preference_of s rest
          end).
Proof.
  intro H. unfold risk_analysis.
  destruct (order_sizes_of float_of_str filled); [exact H|].
  apply pget_pset_same.
Qed.

(** What a successful frequency block leaves behind. *)
Lemma frequency_analysis_inv (timestamps : option (list datetime))
  (filled : list row) (p p' : profile) (daily_trades : option Q) :
  frequency_analysis timestamps filled p = Return (daily_trades, p') ->
  exists ts, timestamps = Some ts /\
    ((daily_trades = None /\ p' = p /\ (length ts < 2)%nat) \/
     (exists days daily avg,
        daily_trades = Some daily /\ (2 <= length ts)%nat /\
        p' = pset "trading_frequency" (trading_frequency_of days daily avg) p)).
Proof.
  unfold frequency_analysis. intro H.
  inv_bind H. destruct timestamps as [ts|]; [|discriminate].
  injection Ha as <-. exists ts. split; [reflexivity|].
  destruct (negb (length ts =? 0)%nat && (2 <=? Z.of_nat (length ts))) eqn:E.
  - right. apply andb_prop in E as [_ E]. apply Z.leb_le in E.
    repeat inv_bind H. injection H as <- <-.
    eexists _, _, _. split; [reflexivity | split; [lia | reflexivity]].
  - left. injection H as <- <-. split; [reflexivity | split; [reflexivity |]].
    apply andb_false_iff in E as [E|E].
    + apply negb_false_iff, Nat.eqb_eq in E. lia.
    + apply Z.leb_gt in E. lia.
Qed.

Lemma discipline_analysis_frame (orders : list row) (p : profile) (k : string) :
  k <> "discipline_scores"%string ->
  pget k (discipline_analysis orders p) = pget k p.
Proof. intro. now apply pget_pset_other. Qed.

Lemma pnl_analysis_frame (wallet : list row) (p : profile) (k : string) :
  k <> "pnl_analysis"%string ->
  pget k (pnl_analysis float_of_str wallet p) = pget k p.
Proof.
  intro Hk. unfold pnl_analysis.
  destruct (filter is_pnl wallet); [reflexivity|].
  destruct (pnl_amounts_of float_of_str (r :: l)); [reflexivity|].
  now apply pget_pset_other.
Qed.

Lemma pnl_analysis_group (wallet : list row) (p : profile) :
  pget "pnl_analysis" p = None ->
  pget "pnl_analysis" (pnl_analysis float_of_str wallet p)
  = match pnl_amounts_of float_of_str (filter is_pnl wallet) with
    | [] => None
    | a :: rest => Some (pnl_analysis_of (a :: rest))
    end.
Proof.
  intro H. unfold pnl_analysis.
  destruct (filter is_pnl wallet) as [| e es]; [exact H|].
  destruct (pnl_amounts_of float_of_str (e :: es)); [exact H|].
  apply pget_pset_same.
Qed.
End Frames.

(** ** Shape of a returned profile *)

Section Inversion.
Variable fromisoformat : string -> option datetime.
Variable float_of_str : string -> option Q.

Lemma summary_inv (limit_ratio : pynum) (daily_trades : option Q)
  (p p' : profile) :
  summary limit_ratio daily_trades p = Return p' ->
  exists daily risk_level freq_level dl os adv,
    daily_trades = Some daily /\
    get2 "risk_preference" "risk_level" (VStr "Unknown") p
    = Return (VStr risk_level) /\
    get2 "trading_frequency" "frequency_level" (VStr "Unknown") p
    = Return (VStr freq_level) /\
    p' = pset "summary" (summary_of (trader_type_of freq_level risk_level) risk_level freq_level dl os adv) p.
Proof.
  unfold summary. intro H.
  repeat inv_bind H.
  apply as_str_Return in Ha2, Ha3. subst.
  destruct daily_trades as [daily|]; [|discriminate].
  injection H as <-.
  eexists daily, _, _, _, _, _.
  repeat (split; [eassumption || reflexivity|]). reflexivity.
Qed.

Lemma analyze_returns_inv (orders wallet executions : list row) (p : profile) :
  analyze_trader_profile fromisoformat float_of_str orders wallet executions = Return p ->
  (2 <= length (parse_timestamps fromisoformat (filter is_filled orders)))%nat /\
  pget "basic_stats" p = Some (basic_stats orders) /\
  pget "risk_preference" p
  = Some (match order_sizes_of float_of_str (filter is_filled orders) with
          | [] => VDict []
          | s :: rest => risk_preference_of s rest
          end) /\
  (exists days daily avg,
     pget "trading_frequency" p = Some (trading_frequency_of days daily avg)) /\
  pget "discipline_scores" p = Some (discipline_scores_of orders) /\
  pget "pnl_analysis" p
  = match pnl_amounts_of float_of_str (filter is_pnl wallet) with
    | [] => None
    | a :: rest => Some (pnl_analysis_of (a :: rest))
    end /\
  (exists risk_level freq_level dl os adv,
     get2 "risk_preference" "risk_level" (VStr "Unknown") p
     = Return (VStr risk_level) /\
     get2 "trading_frequency" "frequency_level" (VStr "Unknown") p
     = Return (VStr freq_level) /\
     pget "summary" p
     = Some (summary_of (trader_type_of freq_level risk_level) risk_level freq_level dl os adv)).
Proof.
  unfold analyze_trader_profile. intro H.
  inv_bind H. destruct a as [timestamps p1].
  inv_bind H. destruct a as [daily_trades p3].
  apply summary_inv in H
    as (daily & rl & fl & dl & os & adv & -> & Hrl & Hfl & ->).
  pose proof (time_analysis_frame _ _ _ _ _ Ha) as F1.
  apply time_analysis_timestamps in Ha as Hts.
  apply frequency_analysis_inv in Ha0
    as (ts & -> & [(Hd & _) | (days & daily' & avg & _ & Hlen & ->)]);
    [discriminate|].
  assert (Hne : forall a b : string, String.eqb a b = false -> a <> b)
    by (intros a b E; now apply String.eqb_neq).
  repeat split.
  - destruct (filter is_filled orders); [discriminate|].
    now injection Hts as ->.
  - rewrite pget_pset_other, pnl_analysis_frame, discipline_analysis_frame,
      pget_pset_other, risk_analysis_frame, F1 by (now apply Hne).
    reflexivity.
  - rewrite pget_pset_other, pnl_analysis_frame, discipline_analysis_frame,
      pget_pset_other by (now apply Hne).
    apply risk_analysis_group. rewrite F1 by (now apply Hne). reflexivity.
  - exists days, daily', avg.
    rewrite pget_pset_other, pnl_analysis_frame, discipline_analysis_frame
      by (now apply Hne).
    apply pget_pset_same.
  - rewrite pget_pset_other, pnl_analysis_frame by (now apply Hne).
    apply pget_pset_same.
  - rewrite pget_pset_other by (now apply Hne).
    apply pnl_analysis_group.
    rewrite discipline_analysis_frame, pget_pset_other, risk_analysis_frame,
      F1 by (now apply Hne).
    reflexivity.
  - exists rl, fl, dl, os, adv.
    rewrite !get2_pset_other by (now apply Hne).
    repeat split; try assumption. apply pget_pset_same.
Qed.
End Inversion.

(** ** Blocks that cannot raise *)

Lemma trading_patterns_returns (t : datetime) (ts : list datetime)
  (p : profile) (g : profile) :
  pget "trading_patterns" p = Some (VDict g) ->
  exists p', trading_patterns (t :: ts) p = Return p'.
Proof.
  intro Hg. unfold trading_patterns. cbn [map].
  destruct (max_by_count_in Z.eqb (dt_hour t) (map dt_hour ts))
    as (h & -> & _).
  destruct (max_by_count_in Z.eqb (dt_weekday t) (map dt_weekday ts))
    as (d & -> & Hd).
  change (In d (map dt_weekday (t :: ts))) in Hd.
  apply in_map_iff in Hd as (t' & <- & _).
  destruct (list_index_weekday t') as (s & Hs).
  cbn [bind]. unfold pset2 at 1. rewrite Hg. cbn [bind].
  unfold pset2 at 1. rewrite pget_pset_same. cbn [bind].
  unfold pset2 at 1. rewrite pget_pset_same. cbn [bind].
  rewrite Hs. cbn [bind].
  unfold pset2. rewrite pget_pset_same. eexists; reflexivity.
Qed.

Lemma summary_returns (limit_ratio : pynum) (daily : Q) (p : profile)
  (rp : pyval) (days : Z) (d : Q) (avg : pynum) (orders : list row) :
  pget "risk_preference" p = Some rp ->
  rp = VDict [] \/ (exists s rest, rp = risk_preference_of s rest) ->
  pget "trading_frequency" p = Some (trading_frequency_of days d avg) ->
  pget "discipline_scores" p = Some (discipline_scores_of orders) ->
  exists p', summary limit_ratio (Some daily) p = Return p'.
Proof.
  intros Hr Hrp Hf Hd. unfold summary, get2. rewrite Hr, Hf, Hd.
  destruct Hrp as [-> | (s & rest & ->)]; eexists; reflexivity.
Qed.

Lemma frequency_two (t1 t2 : datetime) (filled : list row) (p : profile) :
  dt_sub t2 t1 = Return 600000000 \/ dt_sub t1 t2 = Return 600000000 ->
  frequency_analysis (Some [t1; t2]) filled p
  = Return
      (Some (qlen filled / inject_Z 1)%Q,
       pset "trading_frequency"
         (trading_frequency_of 1 (qlen filled / inject_Z 1)
            (avg_interval_of [(inject_Z 600000000 / 60000000)%Q]))
         p).
Proof.
  intros [H | H]; pose proof (dt_sub_opp _ _ _ H) as H';
    unfold frequency_analysis, dt_min, dt_max, dt_sorted, dt_lt;
    cbn [read_local bind length Nat.eqb negb andb fold_left
         dt_min_from dt_max_from dt_insert intervals_of];
    repeat first
      [ rewrite H | rewrite H' | progress unfold dt_lt
      | progress cbn [bind intervals_of]
      | progress change (600000000 <? 0) with false
      | progress change (- (600000000) <? 0) with true
      | progress change (2 <=? Z.of_nat 2) with true
      | progress change (600000000 / 86400000000 =? 0) with true
      | progress cbv iota ];
    reflexivity.
Qed.

Section Claims.
Variable fromisoformat : string -> option datetime.
Variable float_of_str : string -> option Q.

(** ** Fewer than two timestamps: the function does not return *)

(** With fewer than two parsed timestamps among the filled orders one of
    the locals [timestamps] (no filled order) or [daily_trades] is unbound
    when it is read, and the function raises. *)
Lemma returns_need_two_timestamps (orders wallet executions : list row) :
  (length (parse_timestamps fromisoformat (filter is_filled orders)) < 2)%nat ->
  exists e, analyze_trader_profile fromisoformat float_of_str
              orders wallet executions = Raise e.
Proof.
  intro Hlt.
  destruct (analyze_trader_profile fromisoformat float_of_str
              orders wallet executions) as [p | e] eqn:E; [|now exists e].
  apply analyze_returns_inv in E as [Hlen _]. lia.
Qed.

(** ** The claims *)

(** C1 (the code departs from the claim).  The claim promises a returned
    profile on every input, the empty orders list in particular.  On the
    empty orders list the assignment of [timestamps] at line 74 is skipped
    and the test at line 136 reads it unbound: the function raises
    [UnboundLocalError] and returns no profile, whatever the wallet history
    and the executions are. *)
Theorem empty_orders_raise (wallet executions : list row) :
  analyze_trader_profile fromisoformat float_of_str [] wallet executions
  = Raise (UnboundLocalError "timestamps").
Proof. reflexivity. Qed.

(** C2, amended.  On every input for which a profile is returned and no
    filled order has a valid order size, the key [risk_preference] is
    present in the profile and maps to the empty mapping: the group holds no
    metric at all, neither a zero nor a placeholder. *)
Theorem unsized_risk_preference_empty
  (orders wallet executions : list row) (p : profile) :
  analyze_trader_profile fromisoformat float_of_str orders wallet executions
  = Return p ->
  order_sizes_of float_of_str (filter is_filled orders) = [] ->
  pget "risk_preference" p = Some (VDict []).
Proof.
  intros H Hs. apply analyze_returns_inv in H as (_ & _ & H & _).
  now rewrite Hs in H.
Qed.

(** C3 (the code departs from the claim).  On the empty orders list the
    statistics assigned to [basic_stats] are the ones the claim lists
    (all three counts 0, fill rate 0, no order type), but the profile
    holding them is never returned: the function raises at line 136. *)
Theorem empty_orders_stats_not_returned :
  basic_stats []
  = VDict [ (KStr "total_orders", VInt 0); (KStr "filled_orders", VInt 0);
            (KStr "canceled_orders", VInt 0); (KStr "fill_rate", VInt 0);
            (KStr "order_types", VDict []) ]
  /\ forall wallet executions,
       analyze_trader_profile fromisoformat float_of_str [] wallet executions
       = Raise (UnboundLocalError "timestamps").
Proof. split; reflexivity. Qed.

(** C4.  In every returned profile, each of [risk_score],
    [frequency_score], [discipline_score] and [patience_score] that is
    present in its group is an [int] between 1 and 10. *)
Theorem scores_in_range (orders wallet executions : list row) (p : profile) :
  analyze_trader_profile fromisoformat float_of_str orders wallet executions
  = Return p ->
  forall group key, In (group, key) score_keys ->
  forall g v, pget group p = Some (VDict g) -> pget key g = Some v ->
  exists z, v = VInt z /\ 1 <= z <= 10.
Proof.
  intros H group key Hin g v Hg Hv.
  apply analyze_returns_inv in H
    as (_ & _ & Hr & (days & daily & avg & Hf) & Hd & _).
  cbn [score_keys In] in Hin.
  destruct Hin as [E | [E | [E | [E | []]]]]; injection E as <- <-.
  - rewrite Hr in Hg.
    destruct (order_sizes_of float_of_str (filter is_filled orders));
      injection Hg as <-; [discriminate|].
    injection Hv as <-. eexists. split; [reflexivity|apply clamp_score_range].
  - rewrite Hf in Hg. injection Hg as <-. injection Hv as <-.
    eexists. split; [reflexivity|apply clamp_score_range].
  - rewrite Hd in Hg. injection Hg as <-. injection Hv as <-.
    eexists. split; [reflexivity|apply clamp_score_range].
  - rewrite Hd in Hg. injection Hg as <-. injection Hv as <-.
    eexists. split; [reflexivity|apply clamp_score_range].
Qed.

(** C5.  In every returned profile, [summary.trader_type] is the label the
    decision table of the specification gives, first matching rule winning,
    for the frequency level and the risk level read from the profile, each
    defaulting to "Unknown" when its group holds no level. *)
Theorem trader_type_decision_table
  (orders wallet executions : list row) (p : profile) :
  analyze_trader_profile fromisoformat float_of_str orders wallet executions
  = Return p ->
  exists freq_level risk_level s,
    get2 "trading_frequency" "frequency_level" (VStr "Unknown") p
    = Return (VStr freq_level) /\
    get2 "risk_preference" "risk_level" (VStr "Unknown") p
    = Return (VStr risk_level) /\
    pget "summary" p = Some (VDict s) /\
    pget "trader_type" s = Some (VStr (spec_trader_type freq_level risk_level)).
Proof.
  intro H.
  apply analyze_returns_inv in H
    as (_ & _ & _ & _ & _ & _ & (rl & fl & dl & os & adv & Hrl & Hfl & Hs)).
  exists fl, rl. eexists. repeat split; try eassumption.
  cbn. now rewrite trader_type_of_spec.
Qed.

(** C6, amended.  Whenever the group [pnl_analysis] is present in a returned
    profile, [profit_factor] is the marker string exactly when the average
    loss is not greater than 0 (it computed to 0, whatever the average win
    is) or the quotient of the average win by the average loss is infinite
    in double arithmetic; otherwise it is that quotient rounded to two
    decimals. *)
Theorem profit_factor_marker
  (orders wallet executions : list row) (p g : profile) :
  analyze_trader_profile fromisoformat float_of_str orders wallet executions
  = Return p ->
  pget "pnl_analysis" p = Some (VDict g) ->
  let pnl_amounts := pnl_amounts_of float_of_str (filter is_pnl wallet) in
  let avg_win := avg_f64 (avg_win_of pnl_amounts) in
  let avg_loss := avg_f64 (avg_loss_of pnl_amounts) in
  let quotient := f64_div avg_win avg_loss in
  (pget "profit_factor" g = Some (VStr inf_marker)
   <-> f64_ltb f64_zero avg_loss = false \/ quotient = f64_inf) /\
  (f64_ltb f64_zero avg_loss = true -> quotient <> f64_inf ->
   pget "profit_factor" g = Some (VDouble (f64_round quotient 2))).
Proof.
  intros H Hg pnl_amounts avg_win avg_loss quotient.
  apply analyze_returns_inv in H as (_ & _ & _ & _ & _ & H & _).
  fold pnl_amounts in H. rewrite Hg in H.
  assert (E : pget "profit_factor" g
              = Some (profit_factor_value
                        (profit_factor_of (avg_win_of pnl_amounts)
                                          (avg_loss_of pnl_amounts)))).
  { destruct pnl_amounts; [discriminate|]. now injection H as ->. }
  rewrite E. unfold profit_factor_of. fold avg_loss avg_win quotient.
  destruct (f64_ltb f64_zero avg_loss).
  - unfold profit_factor_value.
    pose proof (f64_eqb_inf quotient) as Hi.
    destruct (f64_eqb quotient f64_inf).
    + assert (Hq : quotient = f64_inf) by now apply Hi.
      split; [split; [intros _; now right | reflexivity]|].
      intros _ Hn. now elim Hn.
    + assert (Hq : quotient <> f64_inf)
        by (intro Hq; apply Hi in Hq; discriminate).
      split; [|reflexivity].
      split; [discriminate|]. intros [Hf | Hq']; [discriminate | now elim Hq].
  - split; [split; [intros _; now left | reflexivity]|].
    discriminate.
Qed.

(** C7.  When the wallet history holds no entry whose [transactType] is
    'RealisedPNL', the key [pnl_analysis] is absent from every returned
    profile. *)
Theorem no_realised_pnl_no_group
  (orders wallet executions : list row) (p : profile) :
  (forall entry, In entry wallet -> is_pnl entry = false) ->
  analyze_trader_profile fromisoformat float_of_str orders wallet executions
  = Return p ->
  pget "pnl_analysis" p = None.
Proof.
  intros Hw H.
  apply analyze_returns_inv in H as (_ & _ & _ & _ & _ & H & _).
  now rewrite (filter_none is_pnl wallet Hw) in H.
Qed.

(** C8.  When the filled orders are exactly two, their timestamps parse and
    are ten minutes apart (in either order), the function returns a profile
    whose [trading_frequency] group has [total_trading_days] equal to 1 and
    [avg_trade_interval_minutes] equal to 10. *)
Theorem two_fills_ten_minutes_apart
  (orders wallet executions : list row) (o1 o2 : row) (t1 t2 : datetime) :
  filter is_filled orders = [o1; o2] ->
  parse_timestamp fromisoformat o1 = Some t1 ->
  parse_timestamp fromisoformat o2 = Some t2 ->
  dt_sub t2 t1 = Return 600000000 \/ dt_sub t1 t2 = Return 600000000 ->
  exists p g,
    analyze_trader_profile fromisoformat float_of_str orders wallet executions
    = Return p /\
    pget "trading_frequency" p = Some (VDict g) /\
    pget "total_trading_days" g = Some (VInt 1) /\
    pget "avg_trade_interval_minutes" g = Some (VFloat 10).
Proof.
  intros Hfilled H1 H2 Hgap.
  unfold analyze_trader_profile. rewrite Hfilled.
  set (p0 := pset "basic_stats" (basic_stats orders) initial_profile).
  assert (Hts : parse_timestamps fromisoformat [o1; o2] = [t1; t2]).
  { unfold parse_timestamps. cbn [flat_map]. now rewrite H1, H2. }
  destruct (trading_patterns_returns t1 [t2] p0 [] eq_refl) as (p1 & Hp1).
  assert (Ht : time_analysis fromisoformat [o1; o2] p0
               = Return (Some [t1; t2], p1)).
  { unfold time_analysis. rewrite Hts, Hp1. reflexivity. }
  pose proof (time_analysis_frame _ _ _ _ _ Ht) as F1.
  rewrite Ht. cbn [bind].
  rewrite (frequency_two t1 t2 _ _ Hgap). cbn [bind].
  set (tf := trading_frequency_of _ _ _).
  set (p2 := risk_analysis float_of_str [o1; o2] p1).
  assert (Hne : forall a b : string, String.eqb a b = false -> a <> b)
    by (intros a b E; now apply String.eqb_neq).
  assert (Hr : pget "risk_preference" p2
               = Some (match order_sizes_of float_of_str [o1; o2] with
                       | [] => VDict []
                       | s :: rest => risk_preference_of s rest
                       end)).
  { apply risk_analysis_group. rewrite F1 by (now apply Hne). reflexivity. }
  set (p5 := pnl_analysis float_of_str wallet
               (discipline_analysis orders (pset "trading_frequency" tf p2))).
  assert (exists p, summary (limit_ratio_of (count_order_types orders))
                      (Some (qlen [o1; o2] / inject_Z 1)%Q) p5 = Return p)
    as (p & Hp).
  { eapply summary_returns with (orders := orders).
    - unfold p5.
      rewrite pnl_analysis_frame, discipline_analysis_frame, pget_pset_other
        by (now apply Hne).
      exact Hr.
    - destruct (order_sizes_of float_of_str [o1; o2]); eauto.
    - unfold p5.
      rewrite pnl_analysis_frame, discipline_analysis_frame
        by (now apply Hne).
      apply pget_pset_same.
    - unfold p5. rewrite pnl_analysis_frame by (now apply Hne).
      apply pget_pset_same. }
  exists p. eexists. split; [exact Hp|].
  destruct (summary_inv _ _ _ _ Hp)
    as (daily & rl & fl & dl & os & adv & _ & _ & _ & Hpeq).
  rewrite Hpeq, pget_pset_other by (now apply Hne).
  unfold p5.
  rewrite pnl_analysis_frame, discipline_analysis_frame by (now apply Hne).
  rewrite pget_pset_same.
  split; [reflexivity|]. split; reflexivity.
Qed.

(** C10.  In every returned profile the counts in [basic_stats.order_types]
    are [int]s that add up to [total_orders], and [filled_orders] plus
    [canceled_orders] is at most [total_orders]. *)
Theorem order_counts_consistent
  (orders wallet executions : list row) (p : profile) :
  analyze_trader_profile fromisoformat float_of_str orders wallet executions
  = Return p ->
  exists stats types total filled canceled,
    pget "basic_stats" p = Some (VDict stats) /\
    pget "order_types" stats = Some (VDict types) /\
    pget "total_orders" stats = Some (VInt total) /\
    pget "filled_orders" stats = Some (VInt filled) /\
    pget "canceled_orders" stats = Some (VInt canceled) /\
    int_values_sum types = Some total /\
    filled + canceled <= total.
Proof.
  intro H. apply analyze_returns_inv in H as (_ & H & _).
  unfold basic_stats in H.
  eexists _, _, _, _, _. split; [exact H|].
  repeat (split; [reflexivity|]). split.
  - rewrite int_values_sum_counts. unfold count_order_types.
    now rewrite count_keys_total, length_map.
  - pose proof (filled_canceled_le orders). lia.
Qed.
End Claims.

(** ** The claims at concrete inputs *)

(** C2 as stated fails: two filled orders with parseable timestamps and no
    valid size give a returned profile in which the key [risk_preference]
    is present. *)
Lemma unsized_risk_preference_present :
  order_sizes_of Reference.float_of_str
    (filter is_filled Examples.unsized_orders) = []
  /\ Reference.analyze Examples.unsized_orders Examples.flat_wallet []
     = Return Examples.profile2
  /\ pget "risk_preference" Examples.profile2 = Some (VDict [])
  /\ pget "risk_preference" Examples.profile2 <> None.
Proof.
  split; [vm_compute; reflexivity|].
  split; [vm_compute; reflexivity|].
  split; [vm_compute; reflexivity | vm_compute; discriminate].
Qed.

(** C2, amended, on the same input. *)
Lemma unsized_risk_preference_empty_witness :
  Reference.analyze Examples.unsized_orders Examples.flat_wallet []
  = Return Examples.profile2
  /\ order_sizes_of Reference.float_of_str
       (filter is_filled Examples.unsized_orders) = []
  /\ pget "risk_preference" Examples.profile2 = Some (VDict []).
Proof.
  assert (H1 : Reference.analyze Examples.unsized_orders Examples.flat_wallet []
               = Return Examples.profile2) by (vm_compute; reflexivity).
  assert (H2 : order_sizes_of Reference.float_of_str
                 (filter is_filled Examples.unsized_orders) = [])
    by (vm_compute; reflexivity).
  split; [exact H1 | split; [exact H2 |]].
  exact (unsized_risk_preference_empty Reference.fromisoformat
           Reference.float_of_str Examples.unsized_orders Examples.flat_wallet
           [] Examples.profile2 H1 H2).
Defined.

(** C4 on the discipline score of the first example. *)
Lemma scores_in_range_witness :
  Reference.analyze Examples.orders Examples.wallet [] = Return Examples.profile1
  /\ exists z, VInt 5 = VInt z /\ 1 <= z <= 10.
Proof.
  assert (H1 : Reference.analyze Examples.orders Examples.wallet []
               = Return Examples.profile1) by (vm_compute; reflexivity).
  split; [exact H1 |].
  apply (scores_in_range Reference.fromisoformat Reference.float_of_str
           Examples.orders Examples.wallet [] Examples.profile1 H1
           "discipline_scores" "discipline_score")
    with (g := Examples.group "discipline_scores" Examples.profile1).
  - vm_compute. right. right. left. reflexivity.
  - vm_compute. reflexivity.
  - vm_compute. reflexivity.
Defined.

(** C5 on the first example, a "Bold Swing Trader". *)
Lemma trader_type_decision_table_witness :
  Reference.analyze Examples.orders Examples.wallet [] = Return Examples.profile1
  /\ exists freq_level risk_level s,
       get2 "trading_frequency" "frequency_level" (VStr "Unknown")
         Examples.profile1 = Return (VStr freq_level) /\
       get2 "risk_preference" "risk_level" (VStr "Unknown")
         Examples.profile1 = Return (VStr risk_level) /\
       pget "summary" Examples.profile1 = Some (VDict s) /\
       pget "trader_type" s
       = Some (VStr (spec_trader_type freq_level risk_level)).
Proof.
  assert (H1 : Reference.analyze Examples.orders Examples.wallet []
               = Return Examples.profile1) by (vm_compute; reflexivity).
  split; [exact H1 |].
  exact (trader_type_decision_table Reference.fromisoformat
           Reference.float_of_str Examples.orders Examples.wallet []
           Examples.profile1 H1).
Defined.

(** C6 as stated fails in both directions.  With a single realised PnL
    entry of amount zero the average loss is the [int] 0 and [profit_factor]
    is the marker, although the average win is not positive.  With a win of
    1e308 and a loss of 1e-300 satoshis the average loss is positive and not
    0, and the marker is written all the same: the quotient of the averages
    overflows.  With a win and a loss that [float] reads as infinities both
    averages are infinite and [profit_factor] is NaN, neither the marker nor
    a finite ratio. *)
Lemma flat_wallet_profit_factor_marker :
  (Reference.analyze Examples.unsized_orders Examples.flat_wallet []
   = Return Examples.profile2
   /\ pget "pnl_analysis" Examples.profile2
      = Some (VDict (Examples.group "pnl_analysis" Examples.profile2))
   /\ pget "profit_factor" (Examples.group "pnl_analysis" Examples.profile2)
      = Some (VStr inf_marker)
   /\ avg_loss_of (pnl_amounts_of Reference.float_of_str
                     (filter is_pnl Examples.flat_wallet)) = AInt 0
   /\ f64_ltb f64_zero
        (avg_f64 (avg_win_of (pnl_amounts_of Reference.float_of_str
                                (filter is_pnl Examples.flat_wallet))))
      = false)
  /\
  (Reference.analyze Examples.orders Examples.overflow_wallet []
   = Return Examples.profile4
   /\ pget "pnl_analysis" Examples.profile4
      = Some (VDict (Examples.group "pnl_analysis" Examples.profile4))
   /\ pget "profit_factor" (Examples.group "pnl_analysis" Examples.profile4)
      = Some (VStr inf_marker)
   /\ f64_ltb f64_zero
        (avg_f64 (avg_loss_of (pnl_amounts_of Reference.float_of_str
                                 (filter is_pnl Examples.overflow_wallet))))
      = true
   /\ f64_eqb
        (avg_f64 (avg_loss_of (pnl_amounts_of Reference.float_of_str
                                 (filter is_pnl Examples.overflow_wallet))))
        f64_zero
      = false)
  /\
  (Reference.analyze Examples.orders Examples.unbounded_wallet []
   = Return Examples.profile6
   /\ pget "pnl_analysis" Examples.profile6
      = Some (VDict (Examples.group "pnl_analysis" Examples.profile6))
   /\ pget "profit_factor" (Examples.group "pnl_analysis" Examples.profile6)
      = Some (VDouble S754_nan)).
Proof.
  repeat split; vm_compute; reflexivity.
Qed.

(** C6, amended, on a wallet with one win of 1.015 BTC and one loss of
    1 BTC: the quotient is the double 1.015, which lies below the decimal
    1.015 and rounds to 1.01. *)
Lemma profit_factor_marker_witness :
  Reference.analyze Examples.orders Examples.rounding_wallet []
  = Return Examples.profile5
  /\ pget "pnl_analysis" Examples.profile5
     = Some (VDict (Examples.group "pnl_analysis" Examples.profile5))
  /\ pget "profit_factor" (Examples.group "pnl_analysis" Examples.profile5)
     = Some (VDouble (f64_of_Q (101 # 100))).
Proof.
  assert (H1 : Reference.analyze Examples.orders Examples.rounding_wallet []
               = Return Examples.profile5) by (vm_compute; reflexivity).
  assert (H2 : pget "pnl_analysis" Examples.profile5
               = Some (VDict (Examples.group "pnl_analysis" Examples.profile5)))
    by (vm_compute; reflexivity).
  split; [exact H1 | split; [exact H2 |]].
  pose proof (profit_factor_marker Reference.fromisoformat
                Reference.float_of_str Examples.orders Examples.rounding_wallet
                [] Examples.profile5 _ H1 H2) as [_ H].
  rewrite H.
  - vm_compute. reflexivity.
  - vm_compute. reflexivity.
  - vm_compute. discriminate.
Defined.

(** C7 on a wallet with funding and deposit entries only. *)
Lemma no_realised_pnl_no_group_witness :
  (forall entry, In entry Examples.funding_wallet -> is_pnl entry = false)
  /\ Reference.analyze Examples.orders Examples.funding_wallet []
     = Return Examples.profile3
  /\ pget "pnl_analysis" Examples.profile3 = None.
Proof.
  assert (H0 : forall entry, In entry Examples.funding_wallet ->
                             is_pnl entry = false)
    by (intros entry [<- | [<- | []]]; reflexivity).
  assert (H1 : Reference.analyze Examples.orders Examples.funding_wallet []
               = Return Examples.profile3) by (vm_compute; reflexivity).
  split; [exact H0 | split; [exact H1 |]].
  exact (no_realised_pnl_no_group Reference.fromisoformat
           Reference.float_of_str Examples.orders Examples.funding_wallet []
           Examples.profile3 H0 H1).
Defined.

(** C8 on two fills at 10:00 and 10:10 UTC of 2024-01-01. *)
Lemma two_fills_ten_minutes_apart_witness :
  exists p g,
    Reference.analyze Examples.orders Examples.wallet [] = Return p /\
    pget "trading_frequency" p = Some (VDict g) /\
    pget "total_trading_days" g = Some (VInt 1) /\
    pget "avg_trade_interval_minutes" g = Some (VFloat 10).
Proof.
  apply (two_fills_ten_minutes_apart Reference.fromisoformat
           Reference.float_of_str Examples.orders Examples.wallet []
           (Examples.order "Limit" "20000" "2024-01-01T10:00:00Z")
           (Examples.order "Market" "500" "2024-01-01T10:10:00Z")
           (mkdt 63839700000000000 (Some 0))
           (mkdt 63839700600000000 (Some 0))).
  - vm_compute. reflexivity.
  - vm_compute. reflexivity.
  - vm_compute. reflexivity.
  - left. vm_compute. reflexivity.
Defined.

(** C10 on the first example. *)
Lemma order_counts_consistent_witness :
  Reference.analyze Examples.orders Examples.wallet [] = Return Examples.profile1
  /\ exists stats types total filled canceled,
       pget "basic_stats" Examples.profile1 = Some (VDict stats) /\
       pget "order_types" stats = Some (VDict types) /\
       pget "total_orders" stats = Some (VInt total) /\
       pget "filled_orders" stats = Some (VInt filled) /\
       pget "canceled_orders" stats = Some (VInt canceled) /\
       int_values_sum types = Some total /\
       filled + canceled <= total.
Proof.
  assert (H1 : Reference.analyze Examples.orders Examples.wallet []
               = Return Examples.profile1) by (vm_compute; reflexivity).
  split; [exact H1 |].
  exact (order_counts_consistent Reference.fromisoformat
           Reference.float_of_str Examples.orders Examples.wallet []
           Examples.profile1 H1).
Defined.

(** * Further properties *)

Lemma same_kind_refl (a : datetime) : same_kind a a = true.
Proof. unfold same_kind. apply Bool.eqb_reflx. Qed.

Lemma same_kind_trans (a b c : datetime) :
  same_kind a b = true -> same_kind b c = true -> same_kind a c = true.
Proof.
  unfold same_kind. intros H1 H2.
  apply Bool.eqb_prop in H1, H2. rewrite H1, H2. apply Bool.eqb_reflx.
Qed.

Lemma same_kind_sym (a b : datetime) : same_kind a b = same_kind b a.
Proof. unfold same_kind. destruct (aware a), (aware b); reflexivity. Qed.

Lemma dt_sub_same (a b : datetime) :
  same_kind a b = true -> dt_sub a b = Return (instant a - instant b).
Proof.
  unfold same_kind, aware, dt_sub, instant.
  destruct (utcoffset a), (utcoffset b); simpl; intro H;
    try discriminate; reflexivity.
Qed.

Lemma dt_sub_mixed (a b : datetime) :
  same_kind a b = false -> dt_sub a b = Raise TypeError.
Proof.
  unfold same_kind, aware, dt_sub.
  destruct (utcoffset a), (utcoffset b); simpl; intro H;
    try discriminate; reflexivity.
Qed.

Lemma dt_lt_same (a b : datetime) :
  same_kind a b = true -> dt_lt a b = Return (instant a <? instant b).
Proof.
  intro H. unfold dt_lt. rewrite (dt_sub_same a b H). cbn [bind].
  f_equal. destruct (Z.ltb_spec (instant a - instant b) 0);
    destruct (Z.ltb_spec (instant a) (instant b)); try reflexivity; lia.
Qed.

Lemma dt_lt_mixed (a b : datetime) :
  same_kind a b = false -> dt_lt a b = Raise TypeError.
Proof. intro H. unfold dt_lt. now rewrite (dt_sub_mixed a b H). Qed.

(** [min]: on comparable datetimes the earliest element, the first of them
    on ties. *)
Lemma dt_min_from_comparable (cur : datetime) (l : list datetime) :
  forallb (same_kind cur) l = true ->
  exists m, dt_min_from cur l = Return m /\ In m (cur :: l) /\
            same_kind cur m = true /\
            forall x, In x (cur :: l) -> instant m <= instant x.
Proof.
  revert cur. induction l as [| x l IH]; intros cur H.
  - exists cur. cbn. repeat split; auto using same_kind_refl.
    intros x [<- | []]. lia.
  - cbn [forallb] in H. apply andb_prop in H as [Hx Hl].
    cbn [dt_min_from]. rewrite dt_lt_same by (now rewrite same_kind_sym).
    cbn [bind].
    destruct (Z.ltb_spec (instant x) (instant cur)) as [Hlt | Hge].
    + destruct (IH x) as (m & Hm & Hin & Hk & Hmin).
      { apply forallb_forall. intros y Hy.
        rewrite forallb_forall in Hl.
        apply same_kind_trans with cur; [now rewrite same_kind_sym | auto]. }
      exists m. split; [exact Hm|]. split; [now right|].
      split; [now apply same_kind_trans with x|].
      intros y [<- | Hy]; [|now apply Hmin].
      specialize (Hmin x (or_introl eq_refl)). lia.
    + destruct (IH cur Hl) as (m & Hm & Hin & Hk & Hmin).
      exists m. split; [exact Hm|]. split.
      { destruct Hin as [<- | Hin]; [now left | now right; right]. }
      split; [exact Hk|].
      intros y [<- | [<- | Hy]].
      * apply Hmin. now left.
      * specialize (Hmin cur (or_introl eq_refl)). lia.
      * apply Hmin. now right.
Qed.

Lemma dt_max_from_comparable (cur : datetime) (l : list datetime) :
  forallb (same_kind cur) l = true ->
  exists m, dt_max_from cur l = Return m /\ In m (cur :: l) /\
            same_kind cur m = true /\
            forall x, In x (cur :: l) -> instant x <= instant m.
Proof.
  revert cur. induction l as [| x l IH]; intros cur H.
  - exists cur. cbn. repeat split; auto using same_kind_refl.
    intros x [<- | []]. lia.
  - cbn [forallb] in H. apply andb_prop in H as [Hx Hl].
    cbn [dt_max_from]. rewrite dt_lt_same by assumption.
    cbn [bind].
    destruct (Z.ltb_spec (instant cur) (instant x)) as [Hlt | Hge].
    + destruct (IH x) as (m & Hm & Hin & Hk & Hmax).
      { apply forallb_forall. intros y Hy.
        rewrite forallb_forall in Hl.
        apply same_kind_trans with cur; [now rewrite same_kind_sym | auto]. }
      exists m. split; [exact Hm|]. split; [now right|].
      split; [now apply same_kind_trans with x|].
      intros y [<- | Hy]; [|now apply Hmax].
      specialize (Hmax x (or_introl eq_refl)). lia.
    + destruct (IH cur Hl) as (m & Hm & Hin & Hk & Hmax).
      exists m. split; [exact Hm|]. split.
      { destruct Hin as [<- | Hin]; [now left | now right; right]. }
      split; [exact Hk|].
      intros y [<- | [<- | Hy]].
      * apply Hmax. now left.
      * specialize (Hmax cur (or_introl eq_refl)). lia.
      * apply Hmax. now right.
Qed.

(** Mixing naive and aware datetimes makes [min] raise. *)
Lemma dt_min_from_mixed (cur : datetime) (l : list datetime) :
  forallb (same_kind cur) l = false -> dt_min_from cur l = Raise TypeError.
Proof.
  revert cur. induction l as [| x l IH]; intros cur H; [discriminate|].
  cbn [forallb] in H. cbn [dt_min_from].
  destruct (same_kind cur x) eqn:Hx.
  - rewrite dt_lt_same by (now rewrite same_kind_sym). cbn [bind].
    cbn [andb] in H.
    destruct (instant x <? instant cur); [|now apply IH].
    apply IH. rewrite <- H. clear -Hx.
    induction l as [| y l IHl]; [reflexivity|].
    cbn [forallb]. rewrite IHl. f_equal.
    unfold same_kind in *. apply Bool.eqb_prop in Hx. now rewrite Hx.
  - rewrite dt_lt_mixed by (now rewrite same_kind_sym). reflexivity.
Qed.

Lemma dt_insert_comparable (t x : datetime) (l : list datetime) :
  same_kind t x = true -> forallb (same_kind t) l = true ->
  exists l', dt_insert x l = Return l' /\ forallb (same_kind t) l' = true /\
             length l' = S (length l).
Proof.
  intros Hx. induction l as [| y l IH]; intro Hl.
  - exists [x]. cbn. now rewrite Hx.
  - cbn [forallb] in Hl. apply andb_prop in Hl as [Hy Hl].
    cbn [dt_insert]. rewrite dt_lt_same.
    2:{ apply same_kind_trans with t; [now rewrite same_kind_sym | auto]. }
    cbn [bind]. destruct (instant x <? instant y).
    + eexists. split; [reflexivity|]. cbn [forallb length].
      now rewrite Hx, Hy, Hl.
    + destruct (IH Hl) as (l' & -> & Hk & Hlen). cbn [bind].
      eexists. split; [reflexivity|]. cbn [forallb length].
      now rewrite Hy, Hk, Hlen.
Qed.

Lemma dt_sorted_comparable (t : datetime) (l : list datetime) :
  forallb (same_kind t) l = true ->
  exists l', dt_sorted l = Return l' /\ forallb (same_kind t) l' = true /\
             length l' = length l.
Proof.
  unfold dt_sorted.
  assert (G : forall l acc, forallb (same_kind t) l = true ->
            forallb (same_kind t) acc = true ->
            exists l', fold_left (fun a x => a0 <- a ;; dt_insert x a0) l
                         (Return acc) = Return l' /\
                       forallb (same_kind t) l' = true /\
                       length l' = (length acc + length l)%nat).
  { clear l. induction l as [| x l IH]; intros acc Hl Hacc.
    - exists acc. cbn. repeat split; auto.
    - cbn [forallb] in Hl. apply andb_prop in Hl as [Hx Hl].
      destruct (dt_insert_comparable t x acc Hx Hacc) as (a' & Ha & Hk & Hlen).
      cbn [fold_left bind]. rewrite Ha.
      destruct (IH a' Hl Hk) as (l' & Hl' & Hk' & Hlen').
      exists l'. repeat split; auto. cbn [length]. lia. }
  intro H. destruct (G l [] H eq_refl) as (l' & ? & ? & ?).
  exists l'. repeat split; auto.
Qed.

Lemma intervals_of_comparable (t : datetime) (l : list datetime) :
  forallb (same_kind t) l = true ->
  exists iv, intervals_of l = Return iv.
Proof.
  induction l as [| a l IH]; intro H; [eexists; reflexivity|].
  destruct l as [| b l]; [eexists; reflexivity|].
  cbn [forallb] in H. apply andb_prop in H as [Ha H].
  destruct (IH H) as (iv & Hiv).
  cbn [forallb] in H. apply andb_prop in H as [Hb _].
  cbn [intervals_of]. rewrite dt_sub_same.
  2:{ apply same_kind_trans with t; [now rewrite same_kind_sym | auto]. }
  cbn [bind]. cbn [intervals_of] in Hiv. rewrite Hiv. cbn [bind].
  eexists; reflexivity.
Qed.

Lemma neq_of_eqb_false : forall a b : string, String.eqb a b = false -> a <> b.
Proof. intros a b E. now apply String.eqb_neq. Qed.

Lemma summary_unbound (limit_ratio : pynum) (p : profile)
  (rp tf : pyval) (orders : list row) :
  pget "risk_preference" p = Some rp ->
  rp = VDict [] \/ (exists s rest, rp = risk_preference_of s rest) ->
  pget "trading_frequency" p = Some tf ->
  tf = VDict [] \/ (exists days d avg, tf = trading_frequency_of days d avg) ->
  pget "discipline_scores" p = Some (discipline_scores_of orders) ->
  summary limit_ratio None p = Raise (UnboundLocalError "daily_trades").
Proof.
  intros Hr Hrp Hf Htf Hd. unfold summary, get2. rewrite Hr, Hf, Hd.
  destruct Hrp as [-> | (s & rest & ->)];
    destruct Htf as [-> | (days & d & avg & ->)]; reflexivity.
Qed.

Section Outcome.
Variable fromisoformat : string -> option datetime.
Variable float_of_str : string -> option Q.

Lemma time_analysis_returns (filled : list row) (p : profile) (g : profile) :
  pget "trading_patterns" p = Some (VDict g) ->
  exists p',
    time_analysis fromisoformat filled p
    = Return (match filled with
              | [] => None
              | _ :: _ => Some (parse_timestamps fromisoformat filled)
              end, p').
Proof.
  intro Hg. unfold time_analysis.
  destruct filled as [| o filled]; [eexists; reflexivity|].
  destruct (parse_timestamps fromisoformat (o :: filled)) as [| t ts];
    [eexists; reflexivity|].
  destruct (trading_patterns_returns t ts p g Hg) as (p' & ->).
  eexists; reflexivity.
Qed.

Lemma frequency_analysis_few (ts : list datetime) (filled : list row)
  (p : profile) :
  (length ts < 2)%nat ->
  frequency_analysis (Some ts) filled p = Return (None, p).
Proof.
  intro H. unfold frequency_analysis. cbn [read_local bind].
  destruct ts as [| a [| b ts]]; cbn in *; try reflexivity. lia.
Qed.

Lemma frequency_analysis_mixed (ts : list datetime) (filled : list row)
  (p : profile) :
  (2 <= length ts)%nat -> comparable ts = false ->
  frequency_analysis (Some ts) filled p = Raise TypeError.
Proof.
  intros Hlen Hc. unfold frequency_analysis. cbn [read_local bind].
  destruct ts as [| t rest]; [discriminate|].
  replace (negb (length (t :: rest) =? 0)%nat
           && (2 <=? Z.of_nat (length (t :: rest)))) with true.
  2:{ symmetry. apply andb_true_intro. split; [reflexivity|].
      apply Z.leb_le. lia. }
  cbn [dt_min]. cbn [comparable] in Hc.
  now rewrite (dt_min_from_mixed t rest Hc).
Qed.

(** The frequency block on two or more comparable timestamps. *)
Lemma frequency_analysis_comparable (ts : list datetime) (filled : list row)
  (p : profile) :
  (2 <= length ts)%nat -> comparable ts = true ->
  exists first last avg,
    In first ts /\ In last ts /\
    (forall x, In x ts -> instant first <= instant x <= instant last) /\
    let days := Z.max 1 ((instant last - instant first) / 86400000000) in
    let daily := (qlen filled / inject_Z days)%Q in
    frequency_analysis (Some ts) filled p
    = Return (Some daily,
              pset "trading_frequency" (trading_frequency_of days daily avg) p).
Proof.
  intros Hlen Hc. unfold frequency_analysis. cbn [read_local bind].
  destruct ts as [| t rest]; [cbn in Hlen; lia|].
  replace (negb (length (t :: rest) =? 0)%nat
           && (2 <=? Z.of_nat (length (t :: rest)))) with true.
  2:{ symmetry. apply andb_true_intro. split; [reflexivity|].
      apply Z.leb_le. lia. }
  cbn [comparable] in Hc.
  destruct (dt_min_from_comparable t rest Hc) as (m & Hm & Hmin & Hmk & Hmle).
  destruct (dt_max_from_comparable t rest Hc) as (M & HM & HMin & HMk & HMle).
  assert (Hall : forallb (same_kind t) (t :: rest) = true).
  { cbn [forallb]. now rewrite same_kind_refl. }
  destruct (dt_sorted_comparable t (t :: rest) Hall) as (s & Hs & Hsk & _).
  destruct (intervals_of_comparable t s Hsk) as (iv & Hiv).
  exists m, M, (avg_interval_of iv).
  split; [exact Hmin|]. split; [exact HMin|]. split.
  { intros x Hx. split; [now apply Hmle | now apply HMle]. }
  cbn [dt_min dt_max]. rewrite Hm, HM. cbn [bind].
  rewrite dt_sub_same.
  2:{ apply same_kind_trans with t; [now rewrite same_kind_sym | auto]. }
  cbn [bind]. rewrite Hs. cbn [bind]. rewrite Hiv. cbn [bind].
  assert (Hspan : 0 <= (instant M - instant m) / 86400000000).
  { apply Z.div_pos; [|lia].
    specialize (Hmle t (or_introl eq_refl)).
    specialize (HMle t (or_introl eq_refl)). lia. }
  replace (if (instant M - instant m) / 86400000000 =? 0 then 1
           else (instant M - instant m) / 86400000000)
    with (Z.max 1 ((instant M - instant m) / 86400000000)).
  2:{ destruct (Z.eqb_spec ((instant M - instant m) / 86400000000) 0); lia. }
  reflexivity.
Qed.

(** The groups the summary reads, after the risk and frequency blocks. *)
Lemma groups_before_summary (orders wallet : list row) (p1 : profile)
  (tf : option pyval) :
  pget "risk_preference" p1 = Some (VDict []) ->
  pget "trading_frequency" p1 = Some (VDict []) ->
  let p2 := risk_analysis float_of_str (filter is_filled orders) p1 in
  let p3 := match tf with
            | Some v => pset "trading_frequency" v p2
            | None => p2
            end in
  let p5 := pnl_analysis float_of_str wallet (discipline_analysis orders p3) in
  (exists rp, pget "risk_preference" p5 = Some rp /\
     (rp = VDict [] \/ exists s rest, rp = risk_preference_of s rest)) /\
  pget "trading_frequency" p5
  = Some (match tf with Some v => v | None => VDict [] end) /\
  pget "discipline_scores" p5 = Some (discipline_scores_of orders).
Proof.
  intros Hr Hf p2 p3 p5.
  assert (Hr2 : exists rp, pget "risk_preference" p2 = Some rp /\
            (rp = VDict [] \/ exists s rest, rp = risk_preference_of s rest)).
  { unfold p2. rewrite (risk_analysis_group float_of_str _ _ Hr).
    eexists. split; [reflexivity|].
    destruct (order_sizes_of float_of_str (filter is_filled orders)); eauto. }
  assert (Hf2 : pget "trading_frequency" p2 = Some (VDict [])).
  { unfold p2. rewrite risk_analysis_frame by (now apply neq_of_eqb_false). exact Hf. }
  split; [|split].
  - unfold p5. rewrite pnl_analysis_frame, discipline_analysis_frame
      by (now apply neq_of_eqb_false).
    unfold p3. destruct tf; [rewrite pget_pset_other by (now apply neq_of_eqb_false)|];
      exact Hr2.
  - unfold p5. rewrite pnl_analysis_frame, discipline_analysis_frame
      by (now apply neq_of_eqb_false).
    unfold p3. destruct tf; [apply pget_pset_same | exact Hf2].
  - unfold p5. rewrite pnl_analysis_frame by (now apply neq_of_eqb_false).
    apply pget_pset_same.
Qed.

(** The outcome of a run, by cases on the filled orders and their parsed
    timestamps. *)
Lemma analyze_outcome (orders wallet executions : list row) :
  let ts := parse_timestamps fromisoformat (filter is_filled orders) in
  let run := analyze_trader_profile fromisoformat float_of_str
               orders wallet executions in
  match filter is_filled orders with
  | [] => run = Raise (UnboundLocalError "timestamps")
  | _ :: _ =>
      if (length ts <? 2)%nat
      then run = Raise (UnboundLocalError "daily_trades")
      else if comparable ts
           then exists p, run = Return p
           else run = Raise TypeError
  end.
Proof.
  intros ts run. unfold run, analyze_trader_profile. fold ts.
  set (p0 := pset "basic_stats" (basic_stats orders) initial_profile).
  destruct (time_analysis_returns (filter is_filled orders) p0 [] eq_refl)
    as (p1 & Ht).
  pose proof (time_analysis_frame _ _ _ _ _ Ht) as F1.
  rewrite Ht. cbn [bind]. fold ts.
  destruct (filter is_filled orders) as [| o filled] eqn:Hfilled;
    [reflexivity|].
  rewrite <- Hfilled in *.
  assert (Hr : pget "risk_preference" p1 = Some (VDict []))
    by (rewrite F1 by (now apply neq_of_eqb_false); reflexivity).
  assert (Hf : pget "trading_frequency" p1 = Some (VDict []))
    by (rewrite F1 by (now apply neq_of_eqb_false); reflexivity).
  destruct (Nat.ltb_spec (length ts) 2) as [Hlt | Hge].
  - rewrite frequency_analysis_few by exact Hlt. cbn [bind].
    destruct (groups_before_summary orders wallet p1 None Hr Hf)
      as ((rp & Hrp & Hrp') & Htf & Hd).
    eapply summary_unbound; eauto.
  - destruct (comparable ts) eqn:Hc.
    + destruct (frequency_analysis_comparable ts (filter is_filled orders)
                  (risk_analysis float_of_str (filter is_filled orders) p1)
                  Hge Hc)
        as (first & last & avg & _ & _ & _ & Hfa).
      cbv zeta in Hfa. rewrite Hfa. cbn [bind].
      epose proof (groups_before_summary orders wallet p1 (Some _) Hr Hf)
        as G.
      cbv zeta in G. destruct G as ((rp & Hrp & Hrp') & Htf & Hd).
      eapply summary_returns; eauto.
    + rewrite frequency_analysis_mixed by assumption. reflexivity.
Qed.
End Outcome.

Section CounterLookup.
Context {K : Type} (eqb : K -> K -> bool).
Hypothesis eqb_eq : forall a b, eqb a b = true <-> a = b.

Lemma eqb_refl' (a : K) : eqb a a = true.
Proof. now apply eqb_eq. Qed.

Lemma dict_get_set_same (k : K) (n : Z) (d : list (K * Z)) :
  dict_get eqb k (dict_set eqb k n d) = Some n.
Proof.
  induction d as [| [k' m] d IH]; cbn [dict_set dict_get].
  - now rewrite eqb_refl'.
  - destruct (eqb k k') eqn:E; cbn [dict_get]; rewrite E; auto.
Qed.

Lemma dict_get_set_other (k k' : K) (n : Z) (d : list (K * Z)) :
  k <> k' -> dict_get eqb k (dict_set eqb k' n d) = dict_get eqb k d.
Proof.
  intro Hne. induction d as [| [k0 m] d IH]; cbn [dict_set dict_get].
  - destruct (eqb k k') eqn:E; [|reflexivity].
    apply eqb_eq in E. contradiction.
  - destruct (eqb k' k0) eqn:E'; cbn [dict_get].
    + destruct (eqb k k0) eqn:E; [|reflexivity].
      apply eqb_eq in E, E'. congruence.
    + now rewrite IH.
Qed.

Lemma count_of_incr (k k' : K) (d : list (K * Z)) :
  count_of eqb k (incr eqb k' d)
  = count_of eqb k d + (if eqb k k' then 1 else 0).
Proof.
  unfold count_of, incr. destruct (eqb k k') eqn:E.
  - apply eqb_eq in E. subst k'. rewrite dict_get_set_same. reflexivity.
  - rewrite dict_get_set_other.
    + lia.
    + intros ->. rewrite eqb_refl' in E. discriminate.
Qed.

(** A counter holds, for each key, the number of times it was counted. *)
Lemma count_of_count_keys (k : K) (ks : list K) :
  count_of eqb k (count_keys eqb ks) = occurrences eqb k ks.
Proof.
  unfold count_keys, occurrences.
  assert (G : forall d,
            count_of eqb k (fold_left (fun d k => incr eqb k d) ks d)
            = count_of eqb k d + Z.of_nat (length (filter (eqb k) ks))).
  { induction ks as [| k' ks IH]; intro d; cbn [fold_left filter].
    - cbn. lia.
    - rewrite IH, count_of_incr. destruct (eqb k k'); cbn [length]; lia. }
  rewrite G. reflexivity.
Qed.

Lemma dict_set_keys_grow (k k' : K) (n : Z) (d : list (K * Z)) :
  In k (map fst d) -> In k (map fst (dict_set eqb k' n d)).
Proof.
  induction d as [| [k0 m] d IH]; cbn [dict_set map fst In]; [tauto|].
  destruct (eqb k' k0); cbn [map fst In]; tauto.
Qed.

Lemma dict_set_key_in (k : K) (n : Z) (d : list (K * Z)) :
  In k (map fst (dict_set eqb k n d)).
Proof.
  induction d as [| [k0 m] d IH]; cbn [dict_set map fst In]; [tauto|].
  destruct (eqb k k0) eqn:E; cbn [map fst In]; [|tauto].
  apply eqb_eq in E. now left.
Qed.

Lemma count_keys_has (k : K) (ks : list K) :
  In k ks -> In k (map fst (count_keys eqb ks)).
Proof.
  unfold count_keys.
  assert (G : forall d, In k ks \/ In k (map fst d) ->
            In k (map fst (fold_left (fun d k => incr eqb k d) ks d))).
  { induction ks as [| k' ks IH]; intros d H; cbn [fold_left].
    - destruct H as [[] | H]. exact H.
    - apply IH. destruct H as [[<- | H] | H].
      + right. apply dict_set_key_in.
      + now left.
      + right. now apply dict_set_keys_grow. }
  intro H. apply G. now left.
Qed.

Lemma dict_get_in (k : K) (d : list (K * Z)) :
  In k (map fst d) -> exists n, dict_get eqb k d = Some n.
Proof.
  induction d as [| [k0 m] d IH]; cbn [map fst In dict_get]; [intros []|].
  intros [-> | H].
  - rewrite eqb_refl'. eauto.
  - destruct (eqb k k0); eauto.
Qed.

Lemma dict_get_not_in (k : K) (d : list (K * Z)) :
  ~ In k (map fst d) -> dict_get eqb k d = None.
Proof.
  induction d as [| [k0 m] d IH]; cbn [map fst In dict_get]; [reflexivity|].
  intro H. destruct (eqb k k0) eqn:E.
  - apply eqb_eq in E. subst. tauto.
  - apply IH. tauto.
Qed.

(** Looking a key up in a counter: its number of occurrences when it
    occurs, nothing when it does not. *)
Lemma dict_get_count_keys (k : K) (ks : list K) :
  dict_get eqb k (count_keys eqb ks)
  = if existsb (eqb k) ks then Some (occurrences eqb k ks) else None.
Proof.
  destruct (existsb (eqb k) ks) eqn:E.
  - apply existsb_exists in E as (x & Hin & Hx). apply eqb_eq in Hx. subst x.
    destruct (dict_get_in k _ (count_keys_has k ks Hin)) as (n & Hn).
    pose proof (count_of_count_keys k ks) as H. unfold count_of in H.
    rewrite Hn in H. now rewrite Hn, H.
  - apply dict_get_not_in. intro H. apply count_keys_keys in H.
    assert (existsb (eqb k) ks = true); [|congruence].
    apply existsb_exists. exists k. split; [exact H | apply eqb_refl'].
Qed.

(** The keys of a dictionary built by assignments are pairwise distinct. *)
Lemma dict_set_NoDup (k : K) (n : Z) (d : list (K * Z)) :
  NoDup (map fst d) -> NoDup (map fst (dict_set eqb k n d)).
Proof.
  induction d as [| [k0 m] d IH]; cbn [dict_set map fst]; intro H.
  - constructor; [intros [] | constructor].
  - destruct (eqb k k0) eqn:E; cbn [map fst]; [exact H|].
    inversion H as [| ? ? Hnin Hnd]; subst. constructor; [|now apply IH].
    intro Hin. apply dict_set_keys in Hin as [-> | Hin]; [|contradiction].
    rewrite eqb_refl' in E. discriminate.
Qed.

Lemma count_keys_NoDup (ks : list K) : NoDup (map fst (count_keys eqb ks)).
Proof.
  unfold count_keys.
  assert (G : forall d, NoDup (map fst d) ->
            NoDup (map fst (fold_left (fun d k => incr eqb k d) ks d))).
  { induction ks as [| k ks IH]; intros d H; cbn [fold_left]; [exact H|].
    apply IH. now apply dict_set_NoDup. }
  apply G. constructor.
Qed.
End CounterLookup.

(** [max(d, key=d.get)] returns an entry with the largest count, and every
    entry inserted before it has a strictly smaller count. *)
Lemma max_from_spec {K : Type} (cur : K * Z) (d : list (K * Z)) :
  exists before n after,
    cur :: d = before ++ (max_from cur d, n) :: after /\
    (forall kv, In kv before -> snd kv < n) /\
    (forall kv, In kv after -> snd kv <= n).
Proof.
  assert (G : forall d (cur : K * Z) (b a : list (K * Z)),
            (forall kv, In kv b -> snd kv < snd cur) ->
            (forall kv, In kv a -> snd kv <= snd cur) ->
            exists before n after,
              (b ++ cur :: a) ++ d = before ++ (max_from cur d, n) :: after /\
              (forall kv, In kv before -> snd kv < n) /\
              (forall kv, In kv after -> snd kv <= n)).
  { clear. induction d as [| kv d IH]; intros cur b a Hb Ha.
    - exists b, (snd cur), a. rewrite app_nil_r. cbn [max_from].
      rewrite <- surjective_pairing. auto.
    - cbn [max_from]. destruct (Z.ltb_spec (snd cur) (snd kv)) as [Hlt | Hge].
      + destruct (IH kv (b ++ cur :: a) []) as (bf & n & af & E & H1 & H2).
        * intros x Hx. apply in_app_or in Hx as [Hx | [<- | Hx]].
          -- specialize (Hb x Hx). lia.
          -- exact Hlt.
          -- specialize (Ha x Hx). lia.
        * intros x [].
        * exists bf, n, af. split; [|auto].
          rewrite <- E. rewrite <- !app_assoc. reflexivity.
      + destruct (IH cur b (a ++ [kv])) as (bf & n & af & E & H1 & H2).
        * exact Hb.
        * intros x Hx. apply in_app_or in Hx as [Hx | [<- | []]]; auto.
        * exists bf, n, af. split; [|auto].
          rewrite <- E. rewrite <- !app_assoc. cbn. rewrite <- app_assoc.
          reflexivity. }
  destruct (G d cur [] []) as (bf & n & af & E & H1 & H2).
  - intros x [].
  - intros x [].
  - exists bf, n, af. auto.
Qed.

(** ** Rounding and truncation *)

Lemma round_half_even_bounds (a b : Z) (q : Q) :
  (inject_Z a <= q)%Q -> (q <= inject_Z b)%Q ->
  a <= round_half_even q <= b.
Proof.
  intros Ha Hb. unfold round_half_even.
  assert (Hfa : a <= Qfloor q).
  { rewrite <- (Qfloor_Z a). now apply Qfloor_resp_le. }
  assert (Hfb : Qfloor q <= b).
  { rewrite <- (Qfloor_Z b). now apply Qfloor_resp_le. }
  assert (Hup : (inject_Z (Qfloor q) < q)%Q -> Qfloor q + 1 <= b).
  { intro Hlt. assert (Qfloor q < b); [|lia].
    rewrite Zlt_Qlt. eapply Qlt_le_trans; eauto. }
  destruct (Qcompare (q - inject_Z (Qfloor q)) (1 # 2)) eqn:E.
  - apply Qeq_alt in E.
    assert (Hlt : (inject_Z (Qfloor q) < q)%Q).
    { apply Qlt_minus_iff. unfold Qminus in E. rewrite E. reflexivity. }
    destruct (Z.even (Qfloor q)); [lia|]. specialize (Hup Hlt). lia.
  - lia.
  - apply Qgt_alt in E.
    assert (Hlt : (inject_Z (Qfloor q) < q)%Q).
    { apply Qlt_minus_iff. unfold Qminus in E.
      eapply Qlt_trans; [|exact E]. reflexivity. }
    specialize (Hup Hlt). lia.
Qed.

(** [round(x, n)] never leaves an interval with integer ends. *)
Lemma py_round_bounds (a b : Z) (q : Q) (n : nat) :
  (inject_Z a <= q)%Q -> (q <= inject_Z b)%Q ->
  (inject_Z a <= py_round q n)%Q /\ (py_round q n <= inject_Z b)%Q.
Proof.
  intros Ha Hb. unfold py_round.
  set (s := 10 ^ Z.of_nat n).
  assert (Hs : 0 < s) by (apply Z.pow_pos_nonneg; lia).
  assert (Hs' : (0 <= inject_Z s)%Q)
    by (change 0%Q with (inject_Z 0); rewrite <- Zle_Qle; lia).
  destruct (round_half_even_bounds (a * s) (b * s) (q * inject_Z s)) as [H1 H2].
  { rewrite inject_Z_mult. now apply Qmult_le_compat_r. }
  { rewrite inject_Z_mult. now apply Qmult_le_compat_r. }
  rewrite Qred_correct. unfold Qle. cbn [Qnum Qden inject_Z].
  rewrite Z2Pos.id by exact Hs. lia.
Qed.

(** [int(x)] reaches a positive integer exactly when [x] does. *)
Lemma py_int_ge (n : Z) (q : Q) :
  1 <= n -> n <= py_int q <-> (inject_Z n <= q)%Q.
Proof.
  intro Hn. unfold py_int, Qle. destruct q as [num den].
  cbn [Qnum Qden inject_Z]. rewrite Z.mul_1_r.
  destruct (Z.le_gt_cases 0 num) as [Hpos | Hneg].
  - rewrite Z.quot_div_nonneg by lia. split; intro H.
    + pose proof (Z.mul_div_le num (Z.pos den) ltac:(lia)). nia.
    + apply Z.div_le_lower_bound; lia.
  - split; intro H.
    + pose proof (Z.quot_opp_l (- num) (Z.pos den) ltac:(lia)) as E.
      rewrite Z.opp_involutive in E.
      pose proof (Z.quot_pos (- num) (Z.pos den) ltac:(lia) ltac:(lia)). lia.
    + nia.
Qed.

Lemma clamp_score_ge (n z : Z) :
  1 < n <= 10 -> n <= clamp_score z <-> n <= z.
Proof. unfold clamp_score. lia. Qed.

(** A ratio of counts scaled to a percentage. *)
Lemma percentage_range (a b : Z) :
  0 <= a <= b -> 0 < b ->
  (inject_Z 0 <= inject_Z a / inject_Z b * 100)%Q /\
  (inject_Z a / inject_Z b * 100 <= inject_Z 100)%Q.
Proof.
  intros Ha Hb.
  assert (Hb' : (0 < inject_Z b)%Q)
    by (change 0%Q with (inject_Z 0); rewrite <- Zlt_Qlt; exact Hb).
  assert (H0 : (0 <= inject_Z a / inject_Z b)%Q).
  { apply Qle_shift_div_l; [exact Hb'|]. rewrite Qmult_0_l.
    change 0%Q with (inject_Z 0). rewrite <- Zle_Qle. lia. }
  assert (H1 : (inject_Z a / inject_Z b <= 1)%Q).
  { apply Qle_shift_div_r; [exact Hb'|]. rewrite Qmult_1_l.
    rewrite <- Zle_Qle. lia. }
  split.
  - change (inject_Z 0) with (0 * 100)%Q. apply Qmult_le_compat_r; [exact H0|].
    discriminate.
  - change (inject_Z 100) with (1 * 100)%Q. apply Qmult_le_compat_r; [exact H1|].
    discriminate.
Qed.

Lemma pset2_inv (group key : string) (v : pyval) (p p' g : profile) :
  pget group p = Some (VDict g) ->
  pset2 group key v p = Return p' ->
  p' = pset group (VDict (pset key v g)) p.
Proof. unfold pset2. intros -> H. now injection H as <-. Qed.

Lemma trading_patterns_inv (ts : list datetime) (p p' : profile) :
  pget "trading_patterns" p = Some (VDict []) ->
  trading_patterns ts p = Return p' ->
  exists h d name,
    max_by_count (count_keys Z.eqb (map dt_hour ts)) = Return h /\
    max_by_count (count_keys Z.eqb (map dt_weekday ts)) = Return d /\
    list_index weekday_names d = Return name /\
    pget "trading_patterns" p' = Some (trading_patterns_of ts h name).
Proof.
  intros Hg H. unfold trading_patterns in H.
  inv_bind H. rename a into h. inv_bind H. rename a into d.
  inv_bind H. apply (pset2_inv _ _ _ _ _ _ Hg) in Ha1. subst a.
  inv_bind H.
  apply (pset2_inv _ _ _ _ _ _ (pget_pset_same _ _ _)) in Ha1. subst a.
  inv_bind H.
  apply (pset2_inv _ _ _ _ _ _ (pget_pset_same _ _ _)) in Ha1. subst a.
  inv_bind H. rename a into name.
  apply (pset2_inv _ _ _ _ _ _ (pget_pset_same _ _ _)) in H. subst p'.
  exists h, d, name. repeat split; try assumption.
  rewrite pget_pset_same. reflexivity.
Qed.

Section Inversion2.
Variable fromisoformat : string -> option datetime.
Variable float_of_str : string -> option Q.

(** The time-dependent groups of a returned profile. *)
Lemma analyze_returns_time (orders wallet executions : list row) (p : profile) :
  analyze_trader_profile fromisoformat float_of_str orders wallet executions
  = Return p ->
  let filled := filter is_filled orders in
  let ts := parse_timestamps fromisoformat filled in
  (2 <= length ts)%nat /\ comparable ts = true /\
  (exists first last avg,
     In first ts /\ In last ts /\
     (forall x, In x ts -> instant first <= instant x <= instant last) /\
     let days := Z.max 1 ((instant last - instant first) / 86400000000) in
     pget "trading_frequency" p
     = Some (trading_frequency_of days (qlen filled / inject_Z days) avg)) /\
  (exists h d name,
     max_by_count (count_keys Z.eqb (map dt_hour ts)) = Return h /\
     max_by_count (count_keys Z.eqb (map dt_weekday ts)) = Return d /\
     list_index weekday_names d = Return name /\
     pget "trading_patterns" p = Some (trading_patterns_of ts h name)).
Proof.
  intros H filled ts.
  pose proof (analyze_returns_inv _ _ _ _ _ _ H) as (Hlen & _).
  fold filled ts in Hlen.
  unfold analyze_trader_profile in H. fold filled in H.
  set (p0 := pset "basic_stats" (basic_stats orders) initial_profile) in H.
  inv_bind H. destruct a as [timestamps p1].
  inv_bind H. destruct a as [daily_trades p3].
  apply summary_inv in H
    as (daily & rl & fl & dl & os & adv & -> & _ & _ & ->).
  pose proof (time_analysis_timestamps _ _ _ _ _ Ha) as Hts.
  assert (Hfne : filled <> []).
  { intro E. unfold ts in Hlen. rewrite E in Hlen. cbn in Hlen. lia. }
  destruct filled as [| o rest] eqn:Ef; [contradiction|]. subst timestamps.
  fold ts in Ha0.
  assert (Hc : comparable ts = true).
  { destruct (comparable ts) eqn:Hc; [reflexivity|].
    rewrite frequency_analysis_mixed in Ha0 by assumption. discriminate. }
  split; [exact Hlen|]. split; [exact Hc|]. split.
  - destruct (frequency_analysis_comparable ts (o :: rest)
                (risk_analysis float_of_str (o :: rest) p1) Hlen Hc)
      as (first & last & avg & Hf & Hl & Hb & Hfa).
    cbv zeta in Hfa. rewrite Hfa in Ha0. injection Ha0 as _ <-.
    exists first, last, avg. repeat split; try assumption; try apply Hb; auto.
    cbv zeta.
    rewrite pget_pset_other, pnl_analysis_frame, discipline_analysis_frame
      by (now apply neq_of_eqb_false).
    apply pget_pset_same.
  - unfold time_analysis in Ha. fold ts in Ha.
    destruct ts as [| t ts'] eqn:Ets; [cbn in Hlen; lia|].
    inv_bind Ha. injection Ha as <-.
    destruct (trading_patterns_inv (t :: ts') p0 a eq_refl Ha1)
      as (h & d & name & Hh & Hd & Hn & Hg).
    exists h, d, name. repeat split; try assumption.
    apply frequency_analysis_inv in Ha0
      as (ts0 & _ & [(Hd0 & _) | (days & daily' & avg & _ & _ & ->)]);
      [discriminate|].
    rewrite pget_pset_other, pnl_analysis_frame, discipline_analysis_frame,
      pget_pset_other, risk_analysis_frame by (now apply neq_of_eqb_false).
    exact Hg.
Qed.
End Inversion2.

Section OutcomeTheorems.
Variable fromisoformat : string -> option datetime.
Variable float_of_str : string -> option Q.

Lemma analyze_cases (orders wallet executions : list row) :
  let filled := filter is_filled orders in
  let ts := parse_timestamps fromisoformat filled in
  let run := analyze_trader_profile fromisoformat float_of_str
               orders wallet executions in
  (filled = [] /\ run = Raise (UnboundLocalError "timestamps")) \/
  (filled <> [] /\ (length ts < 2)%nat /\
   run = Raise (UnboundLocalError "daily_trades")) \/
  ((2 <= length ts)%nat /\ comparable ts = true /\ exists p, run = Return p) \/
  ((2 <= length ts)%nat /\ comparable ts = false /\ run = Raise TypeError).
Proof.
  intros filled ts run.
  pose proof (analyze_outcome fromisoformat float_of_str
                orders wallet executions) as H.
  cbv zeta in H. fold filled ts run in H.
  destruct filled as [| o rest] eqn:Ef; [left; auto|].
  destruct (Nat.ltb_spec (length ts) 2) as [Hlt | Hge].
  - right; left. repeat split; [discriminate | exact Hlt | exact H].
  - destruct (comparable ts) eqn:Hc.
    + right; right; left. auto.
    + right; right; right. auto.
Qed.

(** X1.  The function returns a profile exactly when the filled orders
    yield at least two parsed timestamps and these are all naive or all
    aware. *)
Theorem returns_iff_two_comparable_timestamps
  (orders wallet executions : list row) :
  let ts := parse_timestamps fromisoformat (filter is_filled orders) in
  (exists p, analyze_trader_profile fromisoformat float_of_str
               orders wallet executions = Return p)
  <-> (2 <= length ts)%nat /\ comparable ts = true.
Proof.
  intro ts. split.
  - intros (p & H).
    apply analyze_returns_time in H as (Hlen & Hc & _). auto.
  - intros (Hlen & Hc).
    destruct (analyze_cases orders wallet executions)
      as [(Hf & _) | [(_ & Hlt & _) | [(_ & _ & H) | (_ & Hc' & _)]]].
    + exfalso. unfold ts in Hlen. rewrite Hf in Hlen. cbn in Hlen. lia.
    + exfalso. fold ts in Hlt. lia.
    + exact H.
    + fold ts in Hc'. congruence.
Qed.

(** X2.  The run ends in [UnboundLocalError] on [timestamps] exactly
    when no order is filled (the empty orders list included). *)
Theorem timestamps_unbound_iff_no_filled_order
  (orders wallet executions : list row) :
  analyze_trader_profile fromisoformat float_of_str orders wallet executions
  = Raise (UnboundLocalError "timestamps")
  <-> filter is_filled orders = [].
Proof.
  destruct (analyze_cases orders wallet executions)
    as [(Hf & H) | [(Hf & _ & H) | [(Hlen & _ & (p & H)) | (Hlen & _ & H)]]];
    split; intro G; try (rewrite H in G; discriminate); auto.
  - contradiction.
  - rewrite G in Hlen. cbn in Hlen. lia.
  - rewrite G in Hlen. cbn in Hlen. lia.
Qed.

(** X3.  The run ends in [UnboundLocalError] on [daily_trades] exactly
    when some order is filled and fewer than two timestamps of filled orders
    parse. *)
Theorem daily_trades_unbound_iff_few_timestamps
  (orders wallet executions : list row) :
  let filled := filter is_filled orders in
  analyze_trader_profile fromisoformat float_of_str orders wallet executions
  = Raise (UnboundLocalError "daily_trades")
  <-> filled <> [] /\
      (length (parse_timestamps fromisoformat filled) < 2)%nat.
Proof.
  cbv zeta.
  destruct (analyze_cases orders wallet executions)
    as [(Hf & H) | [(Hf & Hlt & H) | [(Hlen & _ & (p & H)) | (Hlen & _ & H)]]];
    split; intro G; try (rewrite H in G; discriminate); auto.
  - destruct G as [G _]. contradiction.
  - destruct G as [_ G]. lia.
  - destruct G as [_ G]. lia.
Qed.

(** X4.  The run ends in [TypeError] exactly when at least two
    timestamps of filled orders parse and naive and aware ones are mixed. *)
Theorem type_error_iff_mixed_timestamps
  (orders wallet executions : list row) :
  let ts := parse_timestamps fromisoformat (filter is_filled orders) in
  analyze_trader_profile fromisoformat float_of_str orders wallet executions
  = Raise TypeError
  <-> (2 <= length ts)%nat /\ comparable ts = false.
Proof.
  cbv zeta.
  destruct (analyze_cases orders wallet executions)
    as [(Hf & H) | [(Hf & Hlt & H) | [(Hlen & Hc & (p & H)) | (Hlen & Hc & H)]]];
    split; intro G; try (rewrite H in G; discriminate); auto.
  - destruct G as [G _]. rewrite Hf in G. cbn in G. lia.
  - destruct G as [G _]. lia.
  - destruct G as [_ G]. congruence.
Qed.

(** X5.  Whatever the input, the only errors the function raises are the
    two unbound locals and the [TypeError] of mixed timestamps; it never
    raises [ValueError] or [IndexError]. *)
Theorem raised_errors (orders wallet executions : list row) (e : exn) :
  analyze_trader_profile fromisoformat float_of_str orders wallet executions
  = Raise e ->
  e = UnboundLocalError "timestamps" \/ e = UnboundLocalError "daily_trades"
  \/ e = TypeError.
Proof.
  intro G.
  destruct (analyze_cases orders wallet executions)
    as [(_ & H) | [(_ & _ & H) | [(_ & _ & (p & H)) | (_ & _ & H)]]];
    rewrite H in G; try discriminate; injection G as <-; auto.
Qed.
End OutcomeTheorems.

Section Modes.
Context {K : Type} (eqb : K -> K -> bool).
Hypothesis eqb_eq : forall a b, eqb a b = true <-> a = b.

Lemma dict_set_keys_eq {V : Type} (eqv : K -> K -> bool) (k : K) (v : V)
  (d : list (K * V)) :
  map fst (dict_set eqv k v d)
  = if existsb (eqv k) (map fst d) then map fst d else map fst d ++ [k].
Proof.
  induction d as [| [k0 v0] d IH]; cbn [dict_set map fst existsb app];
    [reflexivity|].
  destruct (eqv k k0); cbn [map fst orb]; [reflexivity|].
  rewrite IH. destruct (existsb (eqv k) (map fst d)); reflexivity.
Qed.

Lemma count_keys_first_seen (ks : list K) :
  map fst (count_keys eqb ks) = first_seen eqb ks.
Proof.
  unfold count_keys, first_seen.
  assert (G : forall d,
            map fst (fold_left (fun d k => incr eqb k d) ks d)
            = fold_left (fun seen k => if existsb (eqb k) seen then seen
                                       else seen ++ [k]) ks (map fst d)).
  { induction ks as [| k ks IH]; intro d; cbn [fold_left]; [reflexivity|].
    rewrite IH. unfold incr. now rewrite dict_set_keys_eq. }
  apply G.
Qed.

Lemma In_dict_get (k : K) (m : Z) (d : list (K * Z)) :
  NoDup (map fst d) -> In (k, m) d -> dict_get eqb k d = Some m.
Proof.
  induction d as [| [k0 m0] d IH]; cbn [map fst In dict_get]; [intros _ []|].
  intros Hnd [E | Hin].
  - injection E as -> ->. now rewrite (eqb_refl' eqb eqb_eq).
  - inversion Hnd as [| ? ? Hnin Hnd']; subst.
    destruct (eqb k k0) eqn:E.
    + apply eqb_eq in E. subst k0. exfalso. apply Hnin.
      apply in_map_iff. now exists (k, m).
    + now apply IH.
Qed.

Lemma count_keys_entry (k : K) (m : Z) (ks : list K) :
  In (k, m) (count_keys eqb ks) -> m = occurrences eqb k ks /\ In k ks.
Proof.
  intro H.
  pose proof (In_dict_get k m _ (count_keys_NoDup eqb eqb_eq ks) H) as E.
  assert (Hk : In k ks).
  { apply (count_keys_keys eqb). apply in_map_iff. now exists (k, m). }
  split; [|exact Hk].
  rewrite (dict_get_count_keys eqb eqb_eq) in E.
  destruct (existsb (eqb k) ks); congruence.
Qed.

Lemma occurrences_pos (k : K) (ks : list K) :
  In k ks -> 0 < occurrences eqb k ks.
Proof.
  intro H. unfold occurrences.
  assert (In k (filter (eqb k) ks)).
  { apply filter_In. split; [exact H | apply (eqb_refl' eqb eqb_eq)]. }
  destruct (filter (eqb k) ks); [contradiction | cbn [length]; lia].
Qed.

Lemma occurrences_zero (k : K) (ks : list K) :
  ~ In k ks -> occurrences eqb k ks = 0.
Proof.
  intro H. unfold occurrences.
  destruct (filter (eqb k) ks) as [| x l] eqn:E; [reflexivity|].
  exfalso. apply H.
  assert (Hx : In x (filter (eqb k) ks)) by (rewrite E; now left).
  apply filter_In in Hx as [Hx Hk]. apply eqb_eq in Hk. now subst.
Qed.

(** [max(d, key=d.get)] on a counter is a mode of the counted list: no
    element occurs more often, and every distinct element seen earlier
    occurs strictly less often. *)
Lemma max_by_count_mode (ks : list K) (m : K) :
  (forall a b : K, {a = b} + {a <> b}) ->
  max_by_count (count_keys eqb ks) = Return m ->
  In m ks /\
  (forall k, occurrences eqb k ks <= occurrences eqb m ks) /\
  exists before after,
    first_seen eqb ks = before ++ m :: after /\
    forall k, In k before -> occurrences eqb k ks < occurrences eqb m ks.
Proof.
  intros dec H. unfold max_by_count in H.
  destruct (count_keys eqb ks) as [| kv d] eqn:Ec; [discriminate|].
  injection H as <-.
  destruct (max_from_spec kv d) as (bf & n & af & E & Hbf & Haf).
  set (m := max_from kv d) in *.
  assert (Hin : forall x, In x (bf ++ (m, n) :: af) ->
                          In x (count_keys eqb ks)).
  { intros x Hx. rewrite Ec, E. exact Hx. }
  assert (Hm : n = occurrences eqb m ks /\ In m ks).
  { apply count_keys_entry. apply Hin. apply in_or_app. right. now left. }
  destruct Hm as [Hn Hm]. split; [exact Hm|]. split.
  - intro k. destruct (in_dec dec k ks) as [Hk | Hk].
    + pose proof (count_keys_has eqb eqb_eq k ks Hk) as Hkey.
      apply in_map_iff in Hkey as ([k' c] & Ek & Hkc). cbn in Ek. subst k'.
      pose proof (count_keys_entry k c ks Hkc) as [Hc _].
      rewrite Ec, E in Hkc. apply in_app_or in Hkc as [Hb | [Ecur | Ha]].
      * specialize (Hbf _ Hb). cbn in Hbf. lia.
      * injection Ecur as <- <-. lia.
      * specialize (Haf _ Ha). cbn in Haf. lia.
    + rewrite (occurrences_zero k ks Hk).
      pose proof (occurrences_pos m ks Hm). lia.
  - exists (map fst bf), (map fst af). split.
    + rewrite <- count_keys_first_seen, Ec, E.
      rewrite map_app. reflexivity.
    + intros k Hk. apply in_map_iff in Hk as ([k' c] & Ek & Hkc).
      cbn in Ek. subst k'.
      assert (Hc : c = occurrences eqb k ks).
      { apply count_keys_entry. apply Hin. apply in_or_app. now left. }
      specialize (Hbf _ Hkc). cbn in Hbf. lia.
Qed.
End Modes.

Lemma int_dict_get (k : Z) (d : list (Z * Z)) :
  match int_dict d with
  | VDict h => dict_get pykey_eqb (KInt k) h
  | _ => None
  end = option_map VInt (dict_get Z.eqb k d).
Proof.
  cbn [int_dict].
  induction d as [| [k0 n] d IH]; cbn [map dict_get fst snd pykey_eqb];
    [reflexivity|].
  destruct (k =? k0); [reflexivity | exact IH].
Qed.

Lemma int_dict_sum (d : list (Z * Z)) :
  match int_dict d with
  | VDict h => int_values_sum h
  | _ => None
  end = Some (counts_total d).
Proof.
  cbn [int_dict].
  induction d as [| [k n] d IH]; [reflexivity|].
  cbn [map int_values_sum fold_right fst snd counts_total].
  fold (int_values_sum (map (fun kv => (KInt (fst kv), VInt (snd kv))) d)).
  fold (counts_total d).
  now rewrite IH.
Qed.

Lemma dt_hour_range (t : datetime) : 0 <= dt_hour t < 24.
Proof. unfold dt_hour. apply Z.mod_pos_bound. lia. Qed.

Lemma dt_weekday_range (t : datetime) : 0 <= dt_weekday t < 7.
Proof. unfold dt_weekday. apply Z.mod_pos_bound. lia. Qed.

Section TimeTheorems.
Variable fromisoformat : string -> option datetime.
Variable float_of_str : string -> option Q.

(** X6.  In every returned profile [total_trading_days] is the number of
    whole days between the earliest and the latest parsed timestamp, and 1
    when that is 0; [daily_avg_trades] is the double quotient of the number
    of filled orders (with or without a parsed timestamp) by it, rounded to
    two decimals as a double is. *)
Theorem trading_days_span (orders wallet executions : list row) (p : profile) :
  analyze_trader_profile fromisoformat float_of_str orders wallet executions
  = Return p ->
  let filled := filter is_filled orders in
  let ts := parse_timestamps fromisoformat filled in
  exists g first last,
    pget "trading_frequency" p = Some (VDict g) /\
    In first ts /\ In last ts /\
    (forall x, In x ts -> instant first <= instant x <= instant last) /\
    let days := Z.max 1 ((instant last - instant first) / 86400000000) in
    pget "total_trading_days" g = Some (VInt days) /\
    pget "daily_avg_trades" g
    = Some (VDouble (f64_round (f64_of_Q (qlen filled / inject_Z days)) 2)).
Proof.
  intros H filled ts.
  apply analyze_returns_time in H
    as (_ & _ & (first & last & avg & Hf & Hl & Hb & Hg) & _).
  fold filled ts in Hf, Hl, Hb, Hg. cbv zeta in Hg.
  eexists _, first, last. split; [exact Hg|].
  repeat split; try assumption; apply Hb; assumption.
Qed.

(** X7.  In every returned profile [hour_distribution] and
    [weekday_distribution] map each hour (weekday) that occurs to the number
    of parsed timestamps falling in it and hold no other hour (weekday); the counts of
    each add up to the number of parsed timestamps. *)
Theorem histograms_count_timestamps
  (orders wallet executions : list row) (p : profile) :
  analyze_trader_profile fromisoformat float_of_str orders wallet executions
  = Return p ->
  let ts := parse_timestamps fromisoformat (filter is_filled orders) in
  exists g hours days,
    pget "trading_patterns" p = Some (VDict g) /\
    pget "hour_distribution" g = Some (VDict hours) /\
    pget "weekday_distribution" g = Some (VDict days) /\
    (forall k,
       dict_get pykey_eqb (KInt k) hours
       = if existsb (Z.eqb k) (map dt_hour ts)
         then Some (VInt (occurrences Z.eqb k (map dt_hour ts))) else None) /\
    (forall k,
       dict_get pykey_eqb (KInt k) days
       = if existsb (Z.eqb k) (map dt_weekday ts)
         then Some (VInt (occurrences Z.eqb k (map dt_weekday ts)))
         else None) /\
    int_values_sum hours = Some (Z.of_nat (length ts)) /\
    int_values_sum days = Some (Z.of_nat (length ts)).
Proof.
  intros H ts.
  apply analyze_returns_time in H
    as (_ & _ & _ & (h & d & name & _ & _ & _ & Hg)).
  fold ts in Hg.
  eexists _, _, _. split; [exact Hg|].
  split; [reflexivity|]. split; [reflexivity|].
  split; [|split; [|split]].
  - intro k.
    pose proof (int_dict_get k (count_keys Z.eqb (map dt_hour ts))) as E.
    cbn [int_dict] in E. rewrite E.
    rewrite (dict_get_count_keys Z.eqb Z.eqb_eq).
    destruct (existsb (Z.eqb k) (map dt_hour ts)); reflexivity.
  - intro k.
    pose proof (int_dict_get k (count_keys Z.eqb (map dt_weekday ts))) as E.
    cbn [int_dict] in E. rewrite E.
    rewrite (dict_get_count_keys Z.eqb Z.eqb_eq).
    destruct (existsb (Z.eqb k) (map dt_weekday ts)); reflexivity.
  - pose proof (int_dict_sum (count_keys Z.eqb (map dt_hour ts))) as E.
    cbn [int_dict] in E. rewrite E.
    now rewrite count_keys_total, length_map.
  - pose proof (int_dict_sum (count_keys Z.eqb (map dt_weekday ts))) as E.
    cbn [int_dict] in E. rewrite E.
    now rewrite count_keys_total, length_map.
Qed.

(** X8.  In every returned profile [most_active_hour] is an hour between
    0 and 23 in which the most parsed timestamps fall, and among such hours
    the one seen first: every hour seen before it occurs strictly less
    often. *)
Theorem most_active_hour_is_mode
  (orders wallet executions : list row) (p : profile) :
  analyze_trader_profile fromisoformat float_of_str orders wallet executions
  = Return p ->
  let hours := map dt_hour
                 (parse_timestamps fromisoformat (filter is_filled orders)) in
  exists g h,
    pget "trading_patterns" p = Some (VDict g) /\
    pget "most_active_hour" g = Some (VInt h) /\
    0 <= h < 24 /\
    (forall k, occurrences Z.eqb k hours <= occurrences Z.eqb h hours) /\
    exists before after,
      first_seen Z.eqb hours = before ++ h :: after /\
      forall k, In k before ->
                occurrences Z.eqb k hours < occurrences Z.eqb h hours.
Proof.
  intros H hours.
  apply analyze_returns_time in H
    as (_ & _ & _ & (h & d & name & Hh & _ & _ & Hg)).
  fold hours in Hh.
  destruct (max_by_count_mode Z.eqb Z.eqb_eq hours h Z.eq_dec Hh)
    as (Hin & Hmax & Htie).
  eexists _, h. split; [exact Hg|]. split; [reflexivity|].
  split; [|split; assumption].
  apply in_map_iff in Hin as (t & <- & _). apply dt_hour_range.
Qed.

(** X9.  In every returned profile [most_active_day] is the name, from
    Mon to Sun, of a weekday on which the most parsed timestamps fall, the
    first seen among such weekdays. *)
Theorem most_active_day_is_mode
  (orders wallet executions : list row) (p : profile) :
  analyze_trader_profile fromisoformat float_of_str orders wallet executions
  = Return p ->
  let days := map dt_weekday
                (parse_timestamps fromisoformat (filter is_filled orders)) in
  exists g d name,
    pget "trading_patterns" p = Some (VDict g) /\
    pget "most_active_day" g = Some (VStr name) /\
    nth_error weekday_names (Z.to_nat d) = Some name /\
    0 <= d < 7 /\
    (forall k, occurrences Z.eqb k days <= occurrences Z.eqb d days) /\
    exists before after,
      first_seen Z.eqb days = before ++ d :: after /\
      forall k, In k before ->
                occurrences Z.eqb k days < occurrences Z.eqb d days.
Proof.
  intros H days.
  apply analyze_returns_time in H
    as (_ & _ & _ & (h & d & name & _ & Hd & Hn & Hg)).
  fold days in Hd.
  destruct (max_by_count_mode Z.eqb Z.eqb_eq days d Z.eq_dec Hd)
    as (Hin & Hmax & Htie).
  eexists _, d, name. split; [exact Hg|]. split; [reflexivity|].
  split; [|split; [|split; assumption]].
  - unfold list_index in Hn.
    destruct (nth_error weekday_names (Z.to_nat d)); now inversion Hn.
  - apply in_map_iff in Hin as (t & <- & _). apply dt_weekday_range.
Qed.
End TimeTheorems.

Lemma as_num_VInt (z : Z) (q : Q) :
  as_num (VInt z) = Return q -> q = inject_Z z.
Proof. intro H. now injection H as <-. Qed.

(** Everything the summary block computes, from the scores and levels it
    reads. *)
Lemma summary_inv_full (limit_ratio : pynum) (daily_trades : option Q)
  (p p' : profile) (rs fs ds ps : Z) (risk_level freq_level : string)
  (dl : pyval) :
  get2 "risk_preference" "risk_level" (VStr "Unknown") p
  = Return (VStr risk_level) ->
  get2 "trading_frequency" "frequency_level" (VStr "Unknown") p
  = Return (VStr freq_level) ->
  get2 "discipline_scores" "discipline_level" (VStr "Unknown") p = Return dl ->
  get2 "risk_preference" "risk_score" (VInt 5) p = Return (VInt rs) ->
  get2 "trading_frequency" "frequency_score" (VInt 5) p = Return (VInt fs) ->
  get2 "discipline_scores" "discipline_score" (VInt 5) p = Return (VInt ds) ->
  get2 "discipline_scores" "patience_score" (VInt 5) p = Return (VInt ps) ->
  summary limit_ratio daily_trades p = Return p' ->
  exists daily,
    daily_trades = Some daily /\
    p' = pset "summary"
           (summary_of (trader_type_of freq_level risk_level)
              risk_level freq_level dl
              (vfloat (py_round ((inject_Z rs + inject_Z fs + inject_Z ds
                                  + inject_Z ps) / 4) 1))
              (advice_of limit_ratio daily (inject_Z rs)))
           p.
Proof.
  intros Hrl Hfl Hdl Hrs Hfs Hds Hps H. unfold summary in H.
  rewrite Hrl, Hfl, Hdl, Hrs, Hfs, Hds, Hps in H.
  cbn [bind as_str as_num] in H.
  destruct daily_trades as [daily|]; [|discriminate].
  cbn [bind read_local as_num] in H. injection H as <-.
  exists daily. split; reflexivity.
Qed.

Section Inversion3.
Variable fromisoformat : string -> option datetime.
Variable float_of_str : string -> option Q.

(** The summary of a returned profile, in terms of the inputs. *)
Lemma analyze_returns_summary (orders wallet executions : list row)
  (p : profile) :
  analyze_trader_profile fromisoformat float_of_str orders wallet executions
  = Return p ->
  let filled := filter is_filled orders in
  let ts := parse_timestamps fromisoformat filled in
  let sizes := order_sizes_of float_of_str filled in
  let limit_ratio := limit_ratio_of (count_order_types orders) in
  let cancel_ratio :=
    cancel_ratio_of (length (filter is_canceled orders)) (length orders) in
  exists first last,
    In first ts /\ In last ts /\
    (forall x, In x ts -> instant first <= instant x <= instant last) /\
    let days := Z.max 1 ((instant last - instant first) / 86400000000) in
    let daily := (qlen filled / inject_Z days)%Q in
    let rs := risk_score_read sizes in
    let fs := frequency_score_of daily in
    let ds := discipline_score_of limit_ratio in
    let ps := patience_score_of cancel_ratio in
    let freq_level :=
      level fs "High Frequency" "Medium Frequency" "Low Frequency" in
    pget "summary" p
    = Some (summary_of (trader_type_of freq_level (risk_level_read sizes))
              (risk_level_read sizes) freq_level
              (VStr (level ds "Highly Disciplined" "Moderately Disciplined"
                       "Needs Improvement"))
              (vfloat (py_round ((inject_Z rs + inject_Z fs + inject_Z ds
                                  + inject_Z ps) / 4) 1))
              (advice_of limit_ratio daily (inject_Z rs))).
Proof.
  intros H filled ts sizes limit_ratio cancel_ratio.
  pose proof (analyze_returns_time _ _ _ _ _ _ H) as (Hlen & Hc & _ & _).
  fold filled ts in Hlen, Hc.
  unfold analyze_trader_profile in H. fold filled limit_ratio in H.
  set (p0 := pset "basic_stats" (basic_stats orders) initial_profile) in H.
  inv_bind H. destruct a as [timestamps p1].
  inv_bind H. destruct a as [daily_trades p3].
  pose proof (time_analysis_frame _ _ _ _ _ Ha) as F1.
  pose proof (time_analysis_timestamps _ _ _ _ _ Ha) as Hts.
  destruct filled as [| o rest] eqn:Ef;
    [unfold ts in Hlen; cbn in Hlen; lia|].
  subst timestamps. fold ts in Ha0.
  destruct (frequency_analysis_comparable ts (o :: rest)
              (risk_analysis float_of_str (o :: rest) p1) Hlen Hc)
    as (first & last & avg & Hf & Hl & Hb & Hfa).
  cbv zeta in Hfa. rewrite Hfa in Ha0. injection Ha0 as <- <-.
  exists first, last. split; [exact Hf|]. split; [exact Hl|].
  split; [exact Hb|]. cbv zeta.
  set (days := Z.max 1 ((instant last - instant first) / 86400000000)) in *.
  set (daily := (qlen (o :: rest) / inject_Z days)%Q) in *.
  set (p5 := pnl_analysis float_of_str wallet
               (discipline_analysis orders
                  (pset "trading_frequency"
                     (trading_frequency_of days daily avg)
                     (risk_analysis float_of_str (o :: rest) p1)))) in H.
  assert (Hr : pget "risk_preference" p5
               = Some (match sizes with
                       | [] => VDict []
                       | s :: r => risk_preference_of s r
                       end)).
  { unfold p5.
    rewrite pnl_analysis_frame, discipline_analysis_frame, pget_pset_other
      by (now apply neq_of_eqb_false).
    apply risk_analysis_group. rewrite F1 by (now apply neq_of_eqb_false). reflexivity. }
  assert (Htf : pget "trading_frequency" p5
                = Some (trading_frequency_of days daily avg)).
  { unfold p5.
    rewrite pnl_analysis_frame, discipline_analysis_frame by (now apply neq_of_eqb_false).
    apply pget_pset_same. }
  assert (Hd : pget "discipline_scores" p5 = Some (discipline_scores_of orders)).
  { unfold p5. rewrite pnl_analysis_frame by (now apply neq_of_eqb_false).
    apply pget_pset_same. }
  eapply summary_inv_full with
    (rs := risk_score_read sizes) (risk_level := risk_level_read sizes) in H.
  - destruct H as (daily' & E & ->). injection E as <-.
    rewrite pget_pset_same. reflexivity.
  - unfold get2. rewrite Hr. destruct sizes; reflexivity.
  - unfold get2. rewrite Htf. reflexivity.
  - unfold get2. rewrite Hd. reflexivity.
  - unfold get2. rewrite Hr. destruct sizes; reflexivity.
  - unfold get2. rewrite Htf. reflexivity.
  - unfold get2. rewrite Hd. reflexivity.
  - unfold get2. rewrite Hd. reflexivity.
Qed.
End Inversion3.

Lemma Qdiv_5 (x : Q) : (x / 5 == x * (1 # 5))%Q.
Proof. field. Qed.

Lemma Qdiv_10 (x : Q) : (x / 10 == x * (1 # 10))%Q.
Proof. field. Qed.

Ltac qlra :=
  intros;
  repeat match goal with
         | H : context [(_ / 5)%Q] |- _ => rewrite Qdiv_5 in H
         | H : context [(_ / 10)%Q] |- _ => rewrite Qdiv_10 in H
         end;
  rewrite ?Qdiv_5, ?Qdiv_10; lra.

Lemma level_py_int (x : Q) (h m l : string) :
  level (clamp_score (py_int x)) h m l = banded x 7 4 h m l.
Proof.
  unfold level, banded.
  assert (G : forall n, 1 < n <= 10 ->
            (n <=? clamp_score (py_int x)) = Qle_bool (inject_Z n) x).
  { intros n Hn. apply eq_true_iff_eq.
    rewrite Z.leb_le, Qle_bool_iff, clamp_score_ge by exact Hn.
    apply py_int_ge. lia. }
  rewrite (G 7), (G 4) by lia. reflexivity.
Qed.

Lemma Qle_bool_ext (a b c d : Q) :
  ((a <= b)%Q <-> (c <= d)%Q) -> Qle_bool a b = Qle_bool c d.
Proof. intro H. apply eq_true_iff_eq. now rewrite !Qle_bool_iff. Qed.

Lemma qlen_nonneg {A : Type} (l : list A) : (0 <= qlen l)%Q.
Proof.
  unfold qlen. change 0%Q with (inject_Z 0). rewrite <- Zle_Qle. lia.
Qed.

Lemma qlen_pos {A : Type} (x : A) (l : list A) : (0 < qlen (x :: l))%Q.
Proof.
  unfold qlen. change 0%Q with (inject_Z 0). rewrite <- Zlt_Qlt.
  cbn [length]. lia.
Qed.

Lemma large_order_ratio_nonneg (s : Q) (rest : list Q) :
  (0 <= large_order_ratio (s :: rest))%Q.
Proof.
  unfold large_order_ratio.
  apply Qmult_le_0_compat; [|discriminate].
  apply Qle_shift_div_l; [apply qlen_pos|].
  rewrite Qmult_0_l. apply qlen_nonneg.
Qed.

Lemma risk_score_bounds (s : Q) (rest : list Q) :
  3 <= risk_score_of (s :: rest) <= 10.
Proof.
  unfold risk_score_of. split; [|apply clamp_score_range].
  apply clamp_score_ge; [lia|]. apply py_int_ge; [lia|].
  pose proof (large_order_ratio_nonneg s rest) as H.
  change (inject_Z 3) with 3%Q.
  set (r := large_order_ratio (s :: rest)) in *. qlra.
Qed.

Lemma risk_level_banded (sizes : list Q) :
  level (risk_score_of sizes) "High Risk" "Medium Risk" "Low Risk"
  = banded (large_order_ratio sizes) 20 5
      "High Risk" "Medium Risk" "Low Risk".
Proof.
  unfold risk_score_of. rewrite level_py_int. unfold banded.
  rewrite (Qle_bool_ext 7 (large_order_ratio sizes / 5 + 3)
             20 (large_order_ratio sizes)) by (split; qlra).
  rewrite (Qle_bool_ext 4 (large_order_ratio sizes / 5 + 3)
             5 (large_order_ratio sizes)) by (split; qlra).
  reflexivity.
Qed.

Lemma frequency_level_banded (daily : Q) :
  level (frequency_score_of daily)
    "High Frequency" "Medium Frequency" "Low Frequency"
  = banded daily 35 20 "High Frequency" "Medium Frequency" "Low Frequency".
Proof.
  unfold frequency_score_of. rewrite level_py_int. unfold banded.
  rewrite (Qle_bool_ext 7 (daily / 5) 35 daily) by (split; qlra).
  rewrite (Qle_bool_ext 4 (daily / 5) 20 daily) by (split; qlra).
  reflexivity.
Qed.

Lemma discipline_level_banded (limit_ratio : pynum) :
  level (discipline_score_of limit_ratio)
    "Highly Disciplined" "Moderately Disciplined" "Needs Improvement"
  = banded (num_Q limit_ratio) 70 40
      "Highly Disciplined" "Moderately Disciplined" "Needs Improvement".
Proof.
  unfold discipline_score_of. rewrite level_py_int. unfold banded.
  rewrite (Qle_bool_ext 7 (num_Q limit_ratio / 10) 70 (num_Q limit_ratio))
    by (split; qlra).
  rewrite (Qle_bool_ext 4 (num_Q limit_ratio / 10) 40 (num_Q limit_ratio))
    by (split; qlra).
  reflexivity.
Qed.

(** Patience runs the other way: the fewer cancellations, the higher. *)
Lemma patience_level_banded (cancel_ratio : pynum) :
  level (patience_score_of cancel_ratio)
    "Very Patient" "Moderately Patient" "Impulsive"
  = if Qle_bool (num_Q cancel_ratio) 15 then "Very Patient"%string
    else if Qle_bool (num_Q cancel_ratio) 30 then "Moderately Patient"%string
    else "Impulsive"%string.
Proof.
  unfold patience_score_of. rewrite level_py_int. unfold banded.
  rewrite (Qle_bool_ext 7 (10 - num_Q cancel_ratio / 5)
             (num_Q cancel_ratio) 15) by (split; qlra).
  rewrite (Qle_bool_ext 4 (10 - num_Q cancel_ratio / 5)
             (num_Q cancel_ratio) 30) by (split; qlra).
  reflexivity.
Qed.

Lemma percentage_value (a b : Z) :
  0 <= a <= b -> 0 < b ->
  is_percentage (vfloat (py_round (inject_Z a / inject_Z b * 100) 2)).
Proof.
  intros Ha Hb. right. eexists. split; [reflexivity|].
  destruct (percentage_range a b Ha Hb) as [H0 H1].
  destruct (py_round_bounds 0 100 _ 2 H0 H1) as [G0 G1].
  rewrite Qred_correct. split; assumption.
Qed.

Lemma filter_length_le {A : Type} (f : A -> bool) (l : list A) :
  (length (filter f l) <= length l)%nat.
Proof.
  induction l as [| x l IH]; [reflexivity|].
  cbn [filter]. destruct (f x); cbn [length]; lia.
Qed.

Lemma type_count_nonneg (k : string) (orders : list row) :
  0 <= type_count k (count_order_types orders).
Proof.
  unfold type_count, count_order_types.
  change (0 <= count_of pykey_eqb (KStr k)
                 (count_keys pykey_eqb (map order_type_key orders))).
  rewrite (count_of_count_keys pykey_eqb pykey_eqb_eq).
  unfold occurrences. lia.
Qed.

Lemma fill_rate_percentage (orders : list row) :
  is_percentage
    (round_num (fill_rate (length (filter is_filled orders)) (length orders)) 2).
Proof.
  unfold fill_rate.
  destruct (Z.ltb_spec 0 (Z.of_nat (length orders))); [|now left].
  apply percentage_value; [|assumption].
  pose proof (filter_length_le is_filled orders). lia.
Qed.

Lemma cancel_ratio_percentage (orders : list row) :
  is_percentage
    (round_num (cancel_ratio_of (length (filter is_canceled orders))
                  (length orders)) 2).
Proof.
  unfold cancel_ratio_of.
  destruct (Z.ltb_spec 0 (Z.of_nat (length orders))); [|now left].
  apply percentage_value; [|assumption].
  pose proof (filter_length_le is_canceled orders). lia.
Qed.

Lemma limit_ratio_percentage (orders : list row) :
  is_percentage (round_num (limit_ratio_of (count_order_types orders)) 2).
Proof.
  unfold limit_ratio_of.
  pose proof (type_count_nonneg "Limit" orders).
  pose proof (type_count_nonneg "Market" orders).
  destruct (Z.ltb_spec 0 (type_count "Limit" (count_order_types orders)
                          + type_count "Market" (count_order_types orders)));
    [|now left].
  apply percentage_value; lia.
Qed.

Lemma large_order_ratio_percentage (s : Q) (rest : list Q) :
  is_percentage (vfloat (py_round (large_order_ratio (s :: rest)) 2)).
Proof.
  unfold large_order_ratio, qlen. apply percentage_value.
  - pose proof (filter_length_le (fun x => Qltb 10000 x) (s :: rest)). lia.
  - cbn [length]. lia.
Qed.

Lemma win_rate_percentage (a : float64) (rest : list float64) :
  is_percentage
    (vfloat (py_round (qlen (winning_of (a :: rest)) / qlen (a :: rest) * 100) 2)).
Proof.
  unfold qlen. apply percentage_value.
  - pose proof (filter_length_le (fun x => f64_ltb f64_zero x) (a :: rest)).
    unfold winning_of. lia.
  - cbn [length]. lia.
Qed.

Section NumericTheorems.
Variable fromisoformat : string -> option datetime.
Variable float_of_str : string -> option Q.

(** X10.  In every returned profile each of [fill_rate],
    [large_order_ratio], [limit_order_ratio], [cancel_ratio] and [win_rate]
    that is present is the [int] 0 or a [float] between 0 and 100. *)
Theorem percentages_in_range
  (orders wallet executions : list row) (p : profile) :
  analyze_trader_profile fromisoformat float_of_str orders wallet executions
  = Return p ->
  forall group key, In (group, key) percentage_keys ->
  forall v, field group key p = Some v ->
  v = VInt 0 \/ exists q, v = VFloat q /\ (0 <= q)%Q /\ (q <= 100)%Q.
Proof.
  intros H group key Hin v Hv.
  apply analyze_returns_inv in H as (_ & Hb & Hr & _ & Hd & Hp & _).
  unfold field in Hv. cbn [percentage_keys In] in Hin.
  destruct Hin as [E | [E | [E | [E | [E | []]]]]]; injection E as <- <-.
  - rewrite Hb in Hv. injection Hv as <-. apply fill_rate_percentage.
  - rewrite Hr in Hv.
    destruct (order_sizes_of float_of_str (filter is_filled orders));
      [discriminate|].
    injection Hv as <-. apply large_order_ratio_percentage.
  - rewrite Hd in Hv. injection Hv as <-. apply limit_ratio_percentage.
  - rewrite Hd in Hv. injection Hv as <-. apply cancel_ratio_percentage.
  - rewrite Hp in Hv.
    destruct (pnl_amounts_of float_of_str (filter is_pnl wallet));
      [discriminate|].
    injection Hv as <-. apply win_rate_percentage.
Qed.
End NumericTheorems.

Lemma inject_Z_range (a z b : Z) :
  a <= z <= b -> (inject_Z a <= inject_Z z)%Q /\ (inject_Z z <= inject_Z b)%Q.
Proof. intros [H1 H2]. split; rewrite <- Zle_Qle; assumption. Qed.

Lemma risk_score_read_range (sizes : list Q) :
  1 <= risk_score_read sizes <= 10.
Proof.
  destruct sizes as [| s rest]; cbn [risk_score_read]; [lia|].
  pose proof (risk_score_bounds s rest). lia.
Qed.

Lemma mean_of_scores_range (a b c d : Z) :
  1 <= a <= 10 -> 1 <= b <= 10 -> 1 <= c <= 10 -> 1 <= d <= 10 ->
  (inject_Z 1 <= (inject_Z a + inject_Z b + inject_Z c + inject_Z d) / 4)%Q /\
  ((inject_Z a + inject_Z b + inject_Z c + inject_Z d) / 4 <= inject_Z 10)%Q.
Proof.
  intros Ha Hb Hc Hd.
  apply inject_Z_range in Ha as [Ha1 Ha2], Hb as [Hb1 Hb2],
    Hc as [Hc1 Hc2], Hd as [Hd1 Hd2].
  change (inject_Z 1) with 1%Q in *. change (inject_Z 10) with 10%Q in *.
  set (x := (inject_Z a + inject_Z b + inject_Z c + inject_Z d)%Q).
  assert (E : (x / 4 == x * (1 # 4))%Q) by field.
  rewrite E. unfold x. split; lra.
Qed.

Section SummaryTheorems.
Variable fromisoformat : string -> option datetime.
Variable float_of_str : string -> option Q.

(** X11.  In every returned profile [summary.overall_score] is a [float]
    between 1 and 10. *)
Theorem overall_score_in_range
  (orders wallet executions : list row) (p : profile) :
  analyze_trader_profile fromisoformat float_of_str orders wallet executions
  = Return p ->
  exists q, field "summary" "overall_score" p = Some (VFloat q) /\
            (1 <= q)%Q /\ (q <= 10)%Q.
Proof.
  intro H.
  apply analyze_returns_summary in H as (first & last & _ & _ & _ & H).
  cbv zeta in H. unfold field. rewrite H. cbn [summary_of].
  eexists. split; [reflexivity|].
  rewrite Qred_correct.
  apply (py_round_bounds 1 10).
  - apply mean_of_scores_range;
      try apply clamp_score_range; apply risk_score_read_range.
  - apply mean_of_scores_range;
      try apply clamp_score_range; apply risk_score_read_range.
Qed.

(** X12.  In every returned profile the frequency level is one of three
    labels, the risk level one of four ("Unknown" included), and the trader
    type is the entry of a fixed twelve-row table for this pair; in
    particular "Medium Risk" and "Unknown" never give one of the four named
    day-trader or investor types. *)
Theorem trader_type_from_table
  (orders wallet executions : list row) (p : profile) :
  analyze_trader_profile fromisoformat float_of_str orders wallet executions
  = Return p ->
  exists freq_level risk_level trader_type,
    field "summary" "frequency_level" p = Some (VStr freq_level) /\
    field "summary" "risk_level" p = Some (VStr risk_level) /\
    field "summary" "trader_type" p = Some (VStr trader_type) /\
    In (freq_level, risk_level, trader_type) trader_type_table.
Proof.
  intro H.
  apply analyze_returns_summary in H as (first & last & _ & _ & _ & H).
  cbv zeta in H. unfold field. rewrite H. cbn [summary_of].
  eexists _, _, _. split; [reflexivity|]. split; [reflexivity|].
  split; [reflexivity|].
  unfold level, risk_level_read.
  destruct (order_sizes_of float_of_str (filter is_filled orders)) as [| s r];
    [| unfold level; destruct (7 <=? risk_score_of (s :: r));
       [| destruct (4 <=? risk_score_of (s :: r))]];
    (destruct (7 <=? frequency_score_of _);
     [| destruct (4 <=? frequency_score_of _)]);
    vm_compute; tauto.
Qed.

(** X13.  In every returned profile [summary.risk_level] is "Unknown"
    exactly when no filled order has a valid order size. *)
Theorem risk_level_unknown_iff_no_valid_size
  (orders wallet executions : list row) (p : profile) :
  analyze_trader_profile fromisoformat float_of_str orders wallet executions
  = Return p ->
  field "summary" "risk_level" p = Some (VStr "Unknown")
  <-> order_sizes_of float_of_str (filter is_filled orders) = [].
Proof.
  intro H.
  apply analyze_returns_summary in H as (first & last & _ & _ & _ & H).
  cbv zeta in H. unfold field. rewrite H. cbn [summary_of].
  change (pget "risk_level" _)
    with (Some (VStr (risk_level_read
                        (order_sizes_of float_of_str
                           (filter is_filled orders))))).
  destruct (order_sizes_of float_of_str (filter is_filled orders)) as [| s r].
  - split; reflexivity.
  - cbn [risk_level_read]. unfold level. split; [|discriminate].
    destruct (7 <=? risk_score_of (s :: r));
      [| destruct (4 <=? risk_score_of (s :: r))]; discriminate.
Qed.
End SummaryTheorems.

Lemma py_int_nonneg (q : Q) : (0 <= q)%Q -> 0 <= py_int q.
Proof.
  unfold Qle, py_int. destruct q as [num den]. cbn [Qnum Qden].
  intro H. apply Z.quot_pos; lia.
Qed.

Lemma Qle_div_Z (n c b : Z) :
  0 < b -> (inject_Z n <= inject_Z c / inject_Z b)%Q <-> n <= c / b.
Proof.
  intro Hb. destruct b as [| pb | pb]; try lia.
  unfold Qle, Qdiv, Qmult, Qinv, inject_Z. cbn [Qnum Qden].
  rewrite !Z.mul_1_r, Pos.mul_1_l. split; intro H.
  - apply Z.div_le_lower_bound; lia.
  - pose proof (Z.mul_div_le c (Z.pos pb) ltac:(lia)). nia.
Qed.

(** Truncating ten times a share of counts is an integer division. *)
Lemma py_int_tenths (a b : Z) :
  0 <= a -> 0 < b ->
  py_int (inject_Z a / inject_Z b * 100 / 10) = (10 * a) / b.
Proof.
  intros Ha Hb.
  set (q := (inject_Z a / inject_Z b * 100 / 10)%Q).
  assert (Hb' : (0 < inject_Z b)%Q)
    by (change 0%Q with (inject_Z 0); rewrite <- Zlt_Qlt; exact Hb).
  assert (Eq : (q == inject_Z (10 * a) / inject_Z b)%Q).
  { unfold q. rewrite inject_Z_mult. field.
    intro E. rewrite E in Hb'. discriminate. }
  assert (Hq : (0 <= q)%Q).
  { rewrite Eq. apply Qle_shift_div_l; [exact Hb'|]. rewrite Qmult_0_l.
    change 0%Q with (inject_Z 0). rewrite <- Zle_Qle. lia. }
  assert (G : forall n, 1 <= n -> n <= py_int q <-> n <= (10 * a) / b).
  { intros n Hn. rewrite (py_int_ge n q Hn), Eq. now apply Qle_div_Z. }
  pose proof (py_int_nonneg q Hq) as H0.
  assert (H1 : 0 <= (10 * a) / b) by (apply Z.div_pos; lia).
  destruct (Z.lt_trichotomy (py_int q) ((10 * a) / b)) as [Hlt | [E | Hgt]].
  - pose proof (proj2 (G ((10 * a) / b) ltac:(lia)) ltac:(lia)). lia.
  - exact E.
  - pose proof (proj1 (G (py_int q) ltac:(lia)) ltac:(lia)). lia.
Qed.

Section LevelTheorems.
Variable fromisoformat : string -> option datetime.
Variable float_of_str : string -> option Q.

(** X14.  When some filled order has a valid size, [risk_score] lies
    between 3 and 10 and [risk_level] is "High Risk" when at least 20 percent
    of the valid sizes exceed 10000, "Medium Risk" from 5 percent on, and "Low
    Risk" below. *)
Theorem risk_level_by_large_order_share
  (orders wallet executions : list row) (p : profile) (s : Q) (rest : list Q) :
  analyze_trader_profile fromisoformat float_of_str orders wallet executions
  = Return p ->
  order_sizes_of float_of_str (filter is_filled orders) = s :: rest ->
  let ratio := large_order_ratio (s :: rest) in
  exists score,
    field "risk_preference" "risk_score" p = Some (VInt score) /\
    3 <= score <= 10 /\
    field "risk_preference" "risk_level" p
    = Some (VStr (if Qle_bool 20 ratio then "High Risk"
                  else if Qle_bool 5 ratio then "Medium Risk"
                  else "Low Risk")).
Proof.
  intros H Hs ratio.
  apply analyze_returns_inv in H as (_ & _ & Hr & _).
  rewrite Hs in Hr. unfold field. rewrite Hr. cbn [risk_preference_of].
  eexists. split; [reflexivity|]. split; [apply risk_score_bounds|].
  change (pget "risk_level" _)
    with (Some (VStr (level (risk_score_of (s :: rest))
                        "High Risk" "Medium Risk" "Low Risk"))).
  now rewrite risk_level_banded.
Qed.

(** X15.  In every returned profile [total_trading_days] is at least 1
    and [frequency_level] is "High Frequency" from 35 filled orders per
    trading day on, "Medium Frequency" from 20 on, and "Low Frequency"
    below. *)
Theorem frequency_level_by_daily_trades
  (orders wallet executions : list row) (p : profile) :
  analyze_trader_profile fromisoformat float_of_str orders wallet executions
  = Return p ->
  exists days,
    field "trading_frequency" "total_trading_days" p = Some (VInt days) /\
    1 <= days /\
    let daily := (qlen (filter is_filled orders) / inject_Z days)%Q in
    field "trading_frequency" "frequency_level" p
    = Some (VStr (if Qle_bool 35 daily then "High Frequency"
                  else if Qle_bool 20 daily then "Medium Frequency"
                  else "Low Frequency")).
Proof.
  intro H.
  apply analyze_returns_time in H
    as (_ & _ & (first & last & avg & _ & _ & _ & Hg) & _).
  cbv zeta in Hg. unfold field. rewrite Hg. cbn [trading_frequency_of].
  eexists. split; [reflexivity|]. split; [lia|]. cbv zeta.
  match goal with
  | |- pget "frequency_level" _ = _ =>
      change (pget "frequency_level" _)
        with (Some (VStr (level (frequency_score_of
                            (qlen (filter is_filled orders)
                             / inject_Z (Z.max 1 ((instant last - instant first)
                                                   / 86400000000))))
                            "High Frequency" "Medium Frequency"
                            "Low Frequency")))
  end.
  now rewrite frequency_level_banded.
Qed.

(** X16.  In every returned profile [discipline_score] is the integer
    quotient of ten times the number of Limit orders by the number of Limit
    and Market orders, clamped to 1..10, and 1 when there is no such order;
    nine Limit orders for one Market order give 9. *)
Theorem discipline_score_by_limit_share
  (orders wallet executions : list row) (p : profile) :
  analyze_trader_profile fromisoformat float_of_str orders wallet executions
  = Return p ->
  let types := map order_type_key orders in
  let limit := occurrences pykey_eqb (KStr "Limit") types in
  let market := occurrences pykey_eqb (KStr "Market") types in
  field "discipline_scores" "discipline_score" p
  = Some (VInt (if 0 <? limit + market
                then clamp_score ((10 * limit) / (limit + market))
                else 1)).
Proof.
  intros H types limit market.
  apply analyze_returns_inv in H as (_ & _ & _ & _ & Hd & _).
  unfold field. rewrite Hd. cbn [discipline_scores_of].
  change (pget "discipline_score" _)
    with (Some (VInt (discipline_score_of
                        (limit_ratio_of (count_order_types orders))))).
  do 2 f_equal.
  unfold discipline_score_of, limit_ratio_of, type_count, count_order_types.
  fold types.
  change (match dict_get pykey_eqb (KStr "Limit") (count_keys pykey_eqb types)
          with Some n => n | None => 0 end)
    with (count_of pykey_eqb (KStr "Limit") (count_keys pykey_eqb types)).
  change (match dict_get pykey_eqb (KStr "Market") (count_keys pykey_eqb types)
          with Some n => n | None => 0 end)
    with (count_of pykey_eqb (KStr "Market") (count_keys pykey_eqb types)).
  rewrite !(count_of_count_keys pykey_eqb pykey_eqb_eq).
  fold limit market.
  destruct (Z.ltb_spec 0 (limit + market)) as [Hpos | Hz];
    [|reflexivity].
  cbn [num_Q]. rewrite py_int_tenths; [reflexivity | | exact Hpos].
  unfold limit, occurrences. lia.
Qed.

(** X17.  In every returned profile [discipline_level] is "Highly
    Disciplined" from a limit ratio of 70 on and "Moderately Disciplined" from
    40 on; [patience_level] is "Very Patient" up to a cancel ratio of 15,
    "Moderately Patient" up to 30 and "Impulsive" above. *)
Theorem discipline_and_patience_levels
  (orders wallet executions : list row) (p : profile) :
  analyze_trader_profile fromisoformat float_of_str orders wallet executions
  = Return p ->
  let limit_ratio := num_Q (limit_ratio_of (count_order_types orders)) in
  let cancel_ratio :=
    num_Q (cancel_ratio_of (length (filter is_canceled orders))
             (length orders)) in
  field "discipline_scores" "discipline_level" p
  = Some (VStr (if Qle_bool 70 limit_ratio then "Highly Disciplined"
                else if Qle_bool 40 limit_ratio then "Moderately Disciplined"
                else "Needs Improvement")) /\
  field "discipline_scores" "patience_level" p
  = Some (VStr (if Qle_bool cancel_ratio 15 then "Very Patient"
                else if Qle_bool cancel_ratio 30 then "Moderately Patient"
                else "Impulsive")).
Proof.
  intros H limit_ratio cancel_ratio.
  apply analyze_returns_inv in H as (_ & _ & _ & _ & Hd & _).
  unfold field. rewrite Hd. cbn [discipline_scores_of]. split.
  - change (pget "discipline_level" _)
      with (Some (VStr (level (discipline_score_of
                                 (limit_ratio_of (count_order_types orders)))
                          "Highly Disciplined" "Moderately Disciplined"
                          "Needs Improvement"))).
    now rewrite discipline_level_banded.
  - change (pget "patience_level" _)
      with (Some (VStr (level (patience_score_of
                                 (cancel_ratio_of
                                    (length (filter is_canceled orders))
                                    (length orders)))
                          "Very Patient" "Moderately Patient" "Impulsive"))).
    now rewrite patience_level_banded.
Qed.
End LevelTheorems.

Lemma Qltb_true (a b : Q) : Qltb a b = true <-> (a < b)%Q.
Proof.
  unfold Qltb. rewrite negb_true_iff. split; intro H.
  - apply Qnot_le_lt. intro G. apply Qle_bool_iff in G. congruence.
  - destruct (Qle_bool b a) eqn:E; [|reflexivity].
    apply Qle_bool_iff in E. exfalso. now apply (Qlt_not_le a b).
Qed.

Lemma qsum_acc (l : list Q) (acc : Q) :
  (fold_left Qplus l acc == acc + qsum l)%Q.
Proof.
  unfold qsum. revert acc. induction l as [| x l IH]; intro acc; cbn [fold_left].
  - ring.
  - rewrite IH, (IH (0 + x)%Q). ring.
Qed.

Lemma qsum_cons (x : Q) (l : list Q) : (qsum (x :: l) == x + qsum l)%Q.
Proof. unfold qsum at 1. cbn [fold_left]. rewrite qsum_acc. ring. Qed.

Lemma round_half_even_lower (a : Z) (q : Q) :
  (inject_Z a <= q)%Q -> a <= round_half_even q.
Proof.
  intro Ha. unfold round_half_even.
  assert (Hfa : a <= Qfloor q).
  { rewrite <- (Qfloor_Z a). now apply Qfloor_resp_le. }
  destruct (Qcompare (q - inject_Z (Qfloor q)) (1 # 2));
    [destruct (Z.even (Qfloor q))| |]; lia.
Qed.

Lemma py_round_lower (a : Z) (q : Q) (n : nat) :
  (inject_Z a <= q)%Q -> (inject_Z a <= py_round q n)%Q.
Proof.
  intro Ha. unfold py_round.
  set (s := 10 ^ Z.of_nat n).
  assert (Hs : 0 < s) by (apply Z.pow_pos_nonneg; lia).
  assert (Hs' : (0 <= inject_Z s)%Q)
    by (change 0%Q with (inject_Z 0); rewrite <- Zle_Qle; lia).
  pose proof (round_half_even_lower (a * s) (q * inject_Z s)) as H1.
  rewrite Qred_correct. unfold Qle. cbn [Qnum Qden inject_Z].
  rewrite Z2Pos.id by exact Hs.
  assert (a * s <= round_half_even (q * inject_Z s)); [|lia].
  apply H1. rewrite inject_Z_mult. now apply Qmult_le_compat_r.
Qed.

Lemma qsum_nonneg (l : list Q) :
  (forall y, In y l -> (0 <= y)%Q) -> (0 <= qsum l)%Q.
Proof.
  induction l as [| x l IH]; intro H.
  - apply Qle_refl.
  - rewrite qsum_cons.
    assert (Hl : (0 <= qsum l)%Q) by (apply IH; intros y Hy; apply H; now right).
    specialize (H x (or_introl eq_refl)). lra.
Qed.

Lemma winning_losing_le (l : list float64) :
  (length (winning_of l) + length (losing_of l) <= length l)%nat.
Proof.
  unfold winning_of, losing_of.
  induction l as [| x l IH]; [reflexivity|].
  cbn [filter].
  destruct (f64_ltb f64_zero x) eqn:Ew, (f64_ltb x f64_zero) eqn:El;
    cbn [length]; try lia.
  elim (f64_sign_exclusive x Ew El).
Qed.

Lemma pnl_amounts_le (float_of_str : string -> option Q) (entries : list row) :
  (length (pnl_amounts_of float_of_str entries) <= length entries)%nat.
Proof.
  induction entries as [| e es IH]; [reflexivity|].
  cbn [pnl_amounts_of flat_map].
  fold (pnl_amounts_of float_of_str es).
  rewrite length_app. destruct (pnl_amount float_of_str e); cbn [length]; lia.
Qed.

Section PnlTheorems.
Variable fromisoformat : string -> option datetime.
Variable float_of_str : string -> option Q.

(** X18.  When [pnl_analysis] is present, [total_trades] is at least 1 and
    at most the number of RealisedPNL entries, and [winning_trades] plus
    [losing_trades] is at most [total_trades] (amounts equal to zero count in
    neither). *)
Theorem pnl_trade_counts (orders wallet executions : list row) (p : profile)
  (g : profile) :
  analyze_trader_profile fromisoformat float_of_str orders wallet executions
  = Return p ->
  pget "pnl_analysis" p = Some (VDict g) ->
  exists total winning losing,
    pget "total_trades" g = Some (VInt total) /\
    pget "winning_trades" g = Some (VInt winning) /\
    pget "losing_trades" g = Some (VInt losing) /\
    0 <= winning /\ 0 <= losing /\ winning + losing <= total /\
    1 <= total <= Z.of_nat (length (filter is_pnl wallet)).
Proof.
  intros H Hg.
  apply analyze_returns_inv in H as (_ & _ & _ & _ & _ & H & _).
  rewrite Hg in H.
  destruct (pnl_amounts_of float_of_str (filter is_pnl wallet))
    as [| a rest] eqn:E; [discriminate|].
  injection H as ->.
  pose proof (winning_losing_le (a :: rest)) as Hwl.
  pose proof (pnl_amounts_le float_of_str (filter is_pnl wallet)) as Hle.
  rewrite E in Hle.
  assert (Hpos : (1 <= length (a :: rest))%nat) by (cbn [length]; lia).
  set (amounts := a :: rest) in *.
  exists (Z.of_nat (length amounts)), (Z.of_nat (length (winning_of amounts))),
    (Z.of_nat (length (losing_of amounts))).
  repeat (split; [reflexivity|]). lia.
Qed.

(** X19.  When [pnl_analysis] is present and [losing_trades] is 0, the
    average loss is the [int] 0 and [profit_factor] is the marker string,
    with or without a winning trade. *)
Theorem no_losing_trade_profit_factor_marker
  (orders wallet executions : list row) (p : profile) (g : profile) :
  analyze_trader_profile fromisoformat float_of_str orders wallet executions
  = Return p ->
  pget "pnl_analysis" p = Some (VDict g) ->
  pget "losing_trades" g = Some (VInt 0) ->
  pget "avg_loss_btc" g = Some (VInt 0) /\
  pget "profit_factor" g = Some (VStr inf_marker).
Proof.
  intros H Hg.
  apply analyze_returns_inv in H as (_ & _ & _ & _ & _ & H & _).
  rewrite Hg in H.
  destruct (pnl_amounts_of float_of_str (filter is_pnl wallet))
    as [| a rest] eqn:E; [discriminate|].
  injection H as ->. cbn [pnl_analysis_of].
  set (amounts := a :: rest).
  change (pget "profit_factor" _)
    with (Some (profit_factor_value
                  (profit_factor_of (avg_win_of amounts) (avg_loss_of amounts)))).
  change (pget "avg_loss_btc" _)
    with (Some (round_avg (avg_loss_of amounts) 8)).
  change (pget "losing_trades" _)
    with (Some (VInt (Z.of_nat (length (losing_of amounts))))).
  intro Hl. unfold profit_factor_of, avg_loss_of.
  destruct (losing_of amounts) as [| x l].
  - split; reflexivity.
  - cbn [length] in Hl. injection Hl as Hl. lia.
Qed.
End PnlTheorems.

Lemma pset_keys_present (k : string) (v x : pyval) (d : profile) :
  pget k d = Some x -> map fst (pset k v d) = map fst d.
Proof.
  unfold pget, pset.
  induction d as [| [k0 v0] d IH]; cbn [dict_get dict_set map fst];
    [discriminate|].
  destruct (pykey_eqb (KStr k) k0); cbn [map fst]; [reflexivity|].
  intro H. now rewrite IH.
Qed.

Lemma pset_keys_absent (k : string) (v : pyval) (d : profile) :
  pget k d = None -> map fst (pset k v d) = map fst d ++ [KStr k].
Proof.
  unfold pget, pset.
  induction d as [| [k0 v0] d IH]; cbn [dict_get dict_set map fst app];
    [reflexivity|].
  destruct (pykey_eqb (KStr k) k0); cbn [map fst]; [discriminate|].
  intro H. now rewrite IH.
Qed.

Lemma pset2_keys (group key : string) (v : pyval) (p p' : profile) :
  pset2 group key v p = Return p' ->
  map fst p' = map fst p /\ exists g, pget group p' = Some (VDict g).
Proof.
  unfold pset2. destruct (pget group p) as [[]|] eqn:E; try discriminate.
  intro H. injection H as <-. split.
  - eapply pset_keys_present; eauto.
  - eexists. apply pget_pset_same.
Qed.

Lemma trading_patterns_keys (ts : list datetime) (p p' : profile) :
  trading_patterns ts p = Return p' -> map fst p' = map fst p.
Proof.
  unfold trading_patterns. intro H. repeat inv_bind H.
  apply pset2_keys in Ha1 as [E1 _], Ha2 as [E2 _], Ha3 as [E3 _],
    H as [E4 _].
  congruence.
Qed.

Lemma time_analysis_keys (fromisoformat : string -> option datetime)
  (filled : list row) (p p' : profile) (ts : option (list datetime)) :
  time_analysis fromisoformat filled p = Return (ts, p') ->
  map fst p' = map fst p.
Proof.
  unfold time_analysis. intro H.
  destruct filled as [| o filled]; [now inversion H|].
  destruct (parse_timestamps fromisoformat (o :: filled)); [now inversion H|].
  inv_bind H. inversion H; subst. eapply trading_patterns_keys; eauto.
Qed.

Lemma typed_dict_get (k : pykey) (d : list (pykey * Z)) :
  dict_get pykey_eqb k (map (fun kv => (fst kv, VInt (snd kv))) d)
  = option_map VInt (dict_get pykey_eqb k d).
Proof.
  induction d as [| [k0 n] d IH]; cbn [map dict_get fst snd]; [reflexivity|].
  destruct (pykey_eqb k k0); [reflexivity | exact IH].
Qed.

Lemma qmax_from_spec (x : Q) (l : list Q) :
  In (qmax_from x l) (x :: l) /\
  forall y, In y (x :: l) -> (y <= qmax_from x l)%Q.
Proof.
  unfold qmax_from. revert x. induction l as [| z l IH]; intro x; cbn [fold_left].
  - split; [now left|]. intros y [<- | []]. apply Qle_refl.
  - destruct (IH (if Qltb x z then z else x)) as [Hin Hmax].
    destruct (Qltb x z) eqn:E.
    + apply Qltb_true in E. split.
      * destruct Hin as [<- | Hin]; [right; now left | right; now right].
      * intros y [<- | Hy]; [|now apply Hmax].
        apply Qle_trans with z; [now apply Qlt_le_weak|].
        apply Hmax. now left.
    + split.
      * destruct Hin as [<- | Hin]; [now left | right; now right].
      * intros y [<- | [<- | Hy]].
        -- apply Hmax. now left.
        -- apply Qle_trans with x; [|apply Hmax; now left].
           unfold Qltb in E. apply negb_false_iff in E.
           now apply Qle_bool_iff.
        -- apply Hmax. now right.
Qed.

Lemma qmin_from_spec (x : Q) (l : list Q) :
  In (qmin_from x l) (x :: l) /\
  forall y, In y (x :: l) -> (qmin_from x l <= y)%Q.
Proof.
  unfold qmin_from. revert x. induction l as [| z l IH]; intro x; cbn [fold_left].
  - split; [now left|]. intros y [<- | []]. apply Qle_refl.
  - destruct (IH (if Qltb z x then z else x)) as [Hin Hmin].
    destruct (Qltb z x) eqn:E.
    + apply Qltb_true in E. split.
      * destruct Hin as [<- | Hin]; [right; now left | right; now right].
      * intros y [<- | Hy]; [|now apply Hmin].
        apply Qle_trans with z; [apply Hmin; now left|].
        now apply Qlt_le_weak.
    + split.
      * destruct Hin as [<- | Hin]; [now left | right; now right].
      * intros y [<- | [<- | Hy]].
        -- apply Hmin. now left.
        -- apply Qle_trans with x; [apply Hmin; now left|].
           unfold Qltb in E. apply negb_false_iff in E.
           now apply Qle_bool_iff.
        -- apply Hmin. now right.
Qed.

Lemma order_sizes_positive (float_of_str : string -> option Q)
  (filled : list row) (y : Q) :
  In y (order_sizes_of float_of_str filled) -> (0 < y)%Q.
Proof.
  unfold order_sizes_of. intro H. apply in_flat_map in H as (o & _ & H).
  destruct (order_size float_of_str o) as [size|]; [|destruct H].
  destruct (Qltb 0 size) eqn:E; [|destruct H].
  destruct H as [<- | []]. now apply Qltb_true.
Qed.

Section StructureTheorems.
Variable fromisoformat : string -> option datetime.
Variable float_of_str : string -> option Q.

(** X20.  The keys of a returned profile are the six initial keys in their
    initial order, followed by [pnl_analysis] exactly when some RealisedPNL
    amount could be read. *)
Theorem profile_keys (orders wallet executions : list row) (p : profile) :
  analyze_trader_profile fromisoformat float_of_str orders wallet executions
  = Return p ->
  map fst p
  = initial_keys
    ++ match pnl_amounts_of float_of_str (filter is_pnl wallet) with
       | [] => []
       | _ :: _ => [KStr "pnl_analysis"]
       end.
Proof.
  intro H. unfold analyze_trader_profile in H.
  set (p0 := pset "basic_stats" (basic_stats orders) initial_profile) in H.
  inv_bind H. destruct a as [timestamps p1].
  inv_bind H. destruct a as [daily_trades p3].
  pose proof (time_analysis_frame _ _ _ _ _ Ha) as F1.
  apply time_analysis_keys in Ha.
  change (map fst p0) with initial_keys in Ha.
  set (p2 := risk_analysis float_of_str (filter is_filled orders) p1) in *.
  assert (K2 : map fst p2 = initial_keys).
  { unfold p2, risk_analysis.
    destruct (order_sizes_of float_of_str (filter is_filled orders));
      [exact Ha|].
    rewrite (pset_keys_present _ _ (VDict [])); [exact Ha|].
    rewrite F1 by (now apply neq_of_eqb_false). reflexivity. }
  assert (R2 : forall k, k <> "risk_preference"%string ->
                         k <> "trading_patterns"%string ->
                         pget k p2 = pget k p0).
  { intros k Hk Hk'. unfold p2. rewrite risk_analysis_frame by exact Hk.
    now apply F1. }
  assert (K3 : map fst p3 = initial_keys /\
               forall k, k <> "risk_preference"%string ->
                         k <> "trading_patterns"%string ->
                         k <> "trading_frequency"%string ->
                         pget k p3 = pget k p0).
  { apply frequency_analysis_inv in Ha0
      as (ts & _ & [(_ & -> & _) | (days & daily & avg & _ & _ & ->)]).
    - split; [exact K2|]. intros k H1 H2 _. now apply R2.
    - split.
      + rewrite (pset_keys_present _ _ (VDict [])); [exact K2|].
        rewrite R2 by (now apply neq_of_eqb_false). reflexivity.
      + intros k H1 H2 H3. rewrite pget_pset_other by exact H3.
        now apply R2. }
  destruct K3 as [K3 R3].
  set (p4 := discipline_analysis orders p3) in *.
  assert (K4 : map fst p4 = initial_keys).
  { unfold p4, discipline_analysis.
    rewrite (pset_keys_present _ _ (VDict [])); [exact K3|].
    rewrite R3 by (now apply neq_of_eqb_false). reflexivity. }
  assert (R4 : pget "pnl_analysis" p4 = None /\
               pget "summary" p4 = Some (VDict [])).
  { unfold p4. rewrite !discipline_analysis_frame by (now apply neq_of_eqb_false).
    rewrite !R3 by (now apply neq_of_eqb_false). split; reflexivity. }
  destruct R4 as [R4 S4].
  apply summary_inv in H
    as (daily & rl & fl & dl & os & adv & _ & _ & _ & ->).
  unfold pnl_analysis.
  destruct (filter is_pnl wallet) as [| e es]; cbv beta iota zeta.
  - cbn [pnl_amounts_of flat_map].
    rewrite (pset_keys_present _ _ _ _ S4), K4, app_nil_r. reflexivity.
  - destruct (pnl_amounts_of float_of_str (e :: es)) as [| a rest];
      cbv beta iota zeta.
    + rewrite (pset_keys_present _ _ _ _ S4), K4, app_nil_r. reflexivity.
    + rewrite (pset_keys_present _ _ (VDict [])).
      * rewrite pset_keys_absent by exact R4. now rewrite K4.
      * rewrite pget_pset_other by (now apply neq_of_eqb_false). exact S4.
Qed.
End StructureTheorems.

Lemma typed_dict_keys (d : list (pykey * Z)) :
  map fst (map (fun kv : pykey * Z => (fst kv, VInt (snd kv))) d) = map fst d.
Proof. rewrite map_map. reflexivity. Qed.

Lemma Qltb_inject_Z (a b : Z) : Qltb (inject_Z a) (inject_Z b) = (a <? b).
Proof.
  apply eq_true_iff_eq. rewrite Qltb_true, <- Zlt_Qlt, Z.ltb_lt. reflexivity.
Qed.

Lemma risk_score_below_5 (s : Q) (rest : list Q) :
  risk_score_of (s :: rest) < 5
  <-> (large_order_ratio (s :: rest) < 10)%Q.
Proof.
  unfold risk_score_of.
  set (r := large_order_ratio (s :: rest)).
  pose proof (clamp_score_ge 5 (py_int (r / 5 + 3)) ltac:(lia)) as H1.
  pose proof (py_int_ge 5 (r / 5 + 3) ltac:(lia)) as H2.
  change (inject_Z 5) with 5%Q in H2.
  split; intro H.
  - apply Qnot_le_lt. intro G.
    assert (5 <= r / 5 + 3)%Q by qlra.
    apply H2, H1 in H0. lia.
  - apply Z.lt_nge. intro G. apply H1, H2 in G.
    assert (10 <= r)%Q by qlra. lra.
Qed.

Section MoreTheorems.
Variable fromisoformat : string -> option datetime.
Variable float_of_str : string -> option Q.

(** X21.  In every returned profile [order_types] maps each order-type
    label that occurs ("Unknown" for a missing column) to the number of orders
    carrying it, holds no other key, and lists the labels once each in order
    of first occurrence. *)
Theorem order_types_count_labels
  (orders wallet executions : list row) (p : profile) :
  analyze_trader_profile fromisoformat float_of_str orders wallet executions
  = Return p ->
  let labels := map order_type_key orders in
  exists types,
    field "basic_stats" "order_types" p = Some (VDict types) /\
    map fst types = first_seen pykey_eqb labels /\
    NoDup (map fst types) /\
    forall k,
      dict_get pykey_eqb k types
      = if existsb (pykey_eqb k) labels
        then Some (VInt (occurrences pykey_eqb k labels)) else None.
Proof.
  intros H labels.
  apply analyze_returns_inv in H as (_ & H & _).
  unfold field. rewrite H. cbn [basic_stats].
  eexists. split; [reflexivity|]. unfold count_order_types. fold labels.
  rewrite typed_dict_keys. split; [|split].
  - apply count_keys_first_seen.
  - apply (count_keys_NoDup pykey_eqb pykey_eqb_eq).
  - intro k. rewrite typed_dict_get.
    rewrite (dict_get_count_keys pykey_eqb pykey_eqb_eq).
    destruct (existsb (pykey_eqb k) labels); reflexivity.
Qed.

(** X22.  When some filled order has a valid size, [min_order_size]
    and [max_order_size] are valid sizes that bound all of them, and the
    minimum is positive. *)
Theorem order_size_extremes
  (orders wallet executions : list row) (p : profile) (s : Q) (rest : list Q) :
  analyze_trader_profile fromisoformat float_of_str orders wallet executions
  = Return p ->
  order_sizes_of float_of_str (filter is_filled orders) = s :: rest ->
  exists lo hi,
    field "risk_preference" "min_order_size" p = Some (vfloat lo) /\
    field "risk_preference" "max_order_size" p = Some (vfloat hi) /\
    In lo (s :: rest) /\ In hi (s :: rest) /\ (0 < lo)%Q /\
    forall y, In y (s :: rest) -> (lo <= y)%Q /\ (y <= hi)%Q.
Proof.
  intros H Hs.
  apply analyze_returns_inv in H as (_ & _ & Hr & _).
  rewrite Hs in Hr. unfold field. rewrite Hr. cbn [risk_preference_of].
  destruct (qmin_from_spec s rest) as [Hlo Hmin].
  destruct (qmax_from_spec s rest) as [Hhi Hmax].
  exists (qmin_from s rest), (qmax_from s rest).
  split; [reflexivity|]. split; [reflexivity|].
  split; [exact Hlo|]. split; [exact Hhi|]. split.
  - apply (order_sizes_positive float_of_str (filter is_filled orders)).
    rewrite Hs. exact Hlo.
  - intros y Hy. split; [now apply Hmin | now apply Hmax].
Qed.

(** X23.  In every returned profile [advice] is a list of three strings,
    and the third is "Risk control is good" exactly when some filled order
    has a valid size and fewer than 10 percent of the valid sizes exceed
    10000; without any valid size it is the warning. *)
Theorem advice_risk_line
  (orders wallet executions : list row) (p : profile) :
  analyze_trader_profile fromisoformat float_of_str orders wallet executions
  = Return p ->
  let sizes := order_sizes_of float_of_str (filter is_filled orders) in
  exists a1 a2 a3,
    field "summary" "advice" p = Some (VList [VStr a1; VStr a2; VStr a3]) /\
    (a3 = "Risk control is good"%string
     <-> sizes <> [] /\ (large_order_ratio sizes < 10)%Q).
Proof.
  intros H sizes.
  apply analyze_returns_summary in H as (first & last & _ & _ & _ & H).
  cbv zeta in H. unfold field. rewrite H. cbn [summary_of]. fold sizes.
  eexists _, _, _. split; [reflexivity|].
  change 5%Q with (inject_Z 5). rewrite Qltb_inject_Z.
  destruct sizes as [| s rest]; cbn [risk_score_read].
  - change (5 <? 5) with false. cbv iota.
    split; [discriminate | intros [G _]; contradiction].
  - destruct (Z.ltb_spec (risk_score_of (s :: rest)) 5) as [Hlt | Hge].
    + split; [intros _ | reflexivity].
      split; [discriminate | now apply risk_score_below_5].
    + split; [discriminate|]. intros [_ G].
      apply risk_score_below_5 in G. lia.
Qed.
End MoreTheorems.

Lemma replace_Z_app (s t : string) :
  replace_Z (s ++ t) = (replace_Z s ++ replace_Z t)%string.
Proof.
  induction s as [| c s IH]; [reflexivity|].
  cbn [String.append replace_Z]. rewrite IH.
  destruct (Ascii.eqb c "Z"); reflexivity.
Qed.

(** Normalising twice is normalising once. *)
Lemma replace_Z_idempotent (s : string) :
  replace_Z (replace_Z s) = replace_Z s.
Proof.
  induction s as [| c s IH]; [reflexivity|].
  cbn [replace_Z]. destruct (Ascii.eqb c "Z") eqn:E.
  - rewrite replace_Z_app, IH. reflexivity.
  - cbn [replace_Z]. rewrite E, IH. reflexivity.
Qed.

Lemma intervals_of_range (l : list datetime) (iv : list Q) :
  intervals_of l = Return iv ->
  forall x, In x iv -> (0 < x)%Q /\ (x < 10080)%Q.
Proof.
  revert iv. induction l as [| a l IH]; intros iv H.
  - injection H as <-. intros x [].
  - destruct l as [| b l]; [injection H as <-; intros x []|].
    cbn [intervals_of] in H. inv_bind H. inv_bind H.
    injection H as <-.
    specialize (IH a1 Ha0).
    set (i := (inject_Z a0 / 60000000)%Q) in *.
    destruct (Qltb 0 i && Qltb i (60 * 24 * 7)) eqn:E; [|exact IH].
    apply andb_prop in E as [E1 E2]. apply Qltb_true in E1, E2.
    intros x [<- | Hx]; [|now apply IH].
    split; [exact E1|]. exact E2.
Qed.

Lemma qsum_bounds (lo hi : Q) (l : list Q) :
  (forall x, In x l -> (lo <= x)%Q /\ (x <= hi)%Q) ->
  (lo * qlen l <= qsum l)%Q /\ (qsum l <= hi * qlen l)%Q.
Proof.
  induction l as [| x l IH]; intro H.
  - change (qlen (@nil Q)) with 0%Q. change (qsum []) with 0%Q. split; lra.
  - rewrite qsum_cons.
    assert (E : (qlen (x :: l) == 1 + qlen l)%Q).
    { unfold qlen. cbn [length]. rewrite Nat2Z.inj_succ, <- Z.add_1_l.
      rewrite inject_Z_plus. reflexivity. }
    rewrite E.
    destruct IH as [I1 I2]; [intros y Hy; apply H; now right|].
    destruct (H x (or_introl eq_refl)) as [H1 H2].
    split; lra.
Qed.

Lemma avg_interval_range (iv : list Q) :
  (forall x, In x iv -> (0 < x)%Q /\ (x < 10080)%Q) ->
  round_num (avg_interval_of iv) 2 = VInt 0 \/
  exists q, round_num (avg_interval_of iv) 2 = VFloat q /\
            (0 <= q)%Q /\ (q <= 10080)%Q.
Proof.
  intro H. destruct iv as [| x l]; [now left|]. right.
  cbn [avg_interval_of round_num]. eexists. split; [reflexivity|].
  rewrite Qred_correct.
  apply (py_round_bounds 0 10080).
  - change (inject_Z 0) with 0%Q.
    apply Qle_shift_div_l; [apply qlen_pos|]. rewrite Qmult_0_l.
    apply qsum_nonneg. intros y Hy. apply Qlt_le_weak. now apply H.
  - change (inject_Z 10080) with 10080%Q.
    apply Qle_shift_div_r; [apply qlen_pos|].
    apply (qsum_bounds 0 10080). intros y Hy.
    destruct (H y Hy). split; now apply Qlt_le_weak.
Qed.

Lemma filter_idempotent {A : Type} (f : A -> bool) (l : list A) :
  filter f (filter f l) = filter f l.
Proof.
  induction l as [| x l IH]; [reflexivity|].
  cbn [filter]. destruct (f x) eqn:E; [|exact IH].
  cbn [filter]. now rewrite E, IH.
Qed.

Section LastTheorems.
Variable fromisoformat : string -> option datetime.
Variable float_of_str : string -> option Q.

(** X24.  Replacing "Z" by "+00:00" in an order's timestamp
    beforehand does not change what line 77 parses from it. *)
Theorem timestamp_normalisation_is_idempotent (o : row) (s : string) :
  row_get "timestamp" o = Some (CStr s) ->
  parse_timestamp fromisoformat (with_timestamp (replace_Z s) o)
  = parse_timestamp fromisoformat o.
Proof.
  intro H. unfold parse_timestamp, with_timestamp. rewrite H.
  cbn [row_get]. rewrite String.eqb_refl. now rewrite replace_Z_idempotent.
Qed.

(** X25.  Wallet entries whose [transactType] is not 'RealisedPNL' have
    no influence on the result: dropping them gives the same profile or the
    same error. *)
Theorem other_wallet_entries_ignored (orders wallet executions : list row) :
  analyze_trader_profile fromisoformat float_of_str orders wallet executions
  = analyze_trader_profile fromisoformat float_of_str
      orders (filter is_pnl wallet) executions.
Proof.
  unfold analyze_trader_profile.
  assert (E : forall p, pnl_analysis float_of_str wallet p
                        = pnl_analysis float_of_str (filter is_pnl wallet) p).
  { intro p. unfold pnl_analysis. now rewrite filter_idempotent. }
  destruct (time_analysis fromisoformat (filter is_filled orders) _)
    as [[ts p1] |]; [|reflexivity].
  cbn [bind].
  destruct (frequency_analysis ts (filter is_filled orders) _)
    as [[dt p3] |]; [|reflexivity].
  cbn [bind]. now rewrite E.
Qed.

Lemma frequency_analysis_intervals (timestamps : option (list datetime))
  (filled : list row) (p p' : profile) (daily : Q) :
  frequency_analysis timestamps filled p = Return (Some daily, p') ->
  exists days sorted_ts iv,
    intervals_of sorted_ts = Return iv /\
    p' = pset "trading_frequency"
           (trading_frequency_of days daily (avg_interval_of iv)) p.
Proof.
  unfold frequency_analysis. intro H.
  inv_bind H.
  destruct (negb (length a =? 0)%nat && (2 <=? Z.of_nat (length a)));
    [|discriminate].
  repeat inv_bind H. injection H as <- <-.
  eexists _, _, _. split; [eassumption | reflexivity].
Qed.

(** X26.  In every returned profile [avg_trade_interval_minutes] is
    the [int] 0 (no gap between consecutive timestamps lies strictly between
    0 and 7 days) or a [float] between 0 and 10080. *)
Theorem avg_trade_interval_bounded
  (orders wallet executions : list row) (p : profile) :
  analyze_trader_profile fromisoformat float_of_str orders wallet executions
  = Return p ->
  exists v,
    field "trading_frequency" "avg_trade_interval_minutes" p = Some v /\
    (v = VInt 0 \/
     exists q, v = VFloat q /\ (0 <= q)%Q /\ (q <= 10080)%Q).
Proof.
  intro H. unfold analyze_trader_profile in H.
  inv_bind H. destruct a as [timestamps p1].
  inv_bind H. destruct a as [daily_trades p3].
  apply summary_inv in H
    as (daily & rl & fl & dl & os & adv & -> & _ & _ & ->).
  apply frequency_analysis_intervals in Ha0
    as (days & sorted_ts & iv & Hiv & ->).
  unfold field.
  rewrite pget_pset_other, pnl_analysis_frame, discipline_analysis_frame,
    pget_pset_same by (now apply neq_of_eqb_false).
  cbn [trading_frequency_of].
  exists (round_num (avg_interval_of iv) 2). split; [reflexivity|].
  apply avg_interval_range. now apply intervals_of_range with sorted_ts.
Qed.
End LastTheorems.

Section MainTheorems.
Variable fromisoformat : string -> option datetime.
Variable float_of_str : string -> option Q.

(** X27.  Every key that [main] reads from a returned profile with a
    plain subscript is present: the groups [basic_stats] and [summary], their
    fields printed at lines 300-305 and 356-365, the eight fields of
    [pnl_analysis] when that group is present, and [advice] is a list. *)
Theorem main_subscripts_present
  (orders wallet executions : list row) (p : profile) :
  analyze_trader_profile fromisoformat float_of_str orders wallet executions
  = Return p ->
  (exists g, pget "basic_stats" p = Some (VDict g)) /\
  (exists g, pget "summary" p = Some (VDict g)) /\
  (exists l, field "summary" "advice" p = Some (VList l)) /\
  forall group key, In (group, key) main_subscripts ->
  forall g, pget group p = Some (VDict g) -> exists v, pget key g = Some v.
Proof.
  intro H.
  pose proof (analyze_returns_inv _ _ _ _ _ _ H)
    as (_ & Hb & _ & _ & _ & Hp & _).
  apply analyze_returns_summary in H as (first & last & _ & _ & _ & Hs).
  cbv zeta in Hs.
  split; [eexists; exact Hb|]. split; [eexists; exact Hs|].
  split; [unfold field; rewrite Hs; eexists; reflexivity|].
  intros group key Hin g Hg.
  cbn [main_subscripts In] in Hin.
  repeat (destruct Hin as [E | Hin];
          [injection E as <- <-;
           first [ rewrite Hb in Hg | rewrite Hs in Hg
                 | rewrite Hp in Hg;
                   destruct (pnl_amounts_of float_of_str (filter is_pnl wallet));
                   [discriminate|] ];
           injection Hg as <-; eexists; reflexivity |]).
  destruct Hin.
Qed.
End MainTheorems.

Section Related.
Context {A B : Type} (R : A -> A -> Prop).

Lemma Forall2_filter (f : A -> bool) (l l' : list A) :
  (forall x y, R x y -> f x = f y) ->
  Forall2 R l l' -> Forall2 R (filter f l) (filter f l').
Proof.
  intros Hf H. induction H as [| x y l l' Hxy H IH]; [constructor|].
  cbn [filter]. rewrite (Hf x y Hxy). destruct (f y); [constructor|]; auto.
Qed.

Lemma Forall2_map_eq (f : A -> B) (l l' : list A) :
  (forall x y, R x y -> f x = f y) ->
  Forall2 R l l' -> map f l = map f l'.
Proof.
  intros Hf H. induction H as [| x y l l' Hxy H IH]; [reflexivity|].
  cbn [map]. now rewrite (Hf x y Hxy), IH.
Qed.

Lemma Forall2_flat_map_eq (f : A -> list B) (l l' : list A) :
  (forall x y, R x y -> f x = f y) ->
  Forall2 R l l' -> flat_map f l = flat_map f l'.
Proof.
  intros Hf H. induction H as [| x y l l' Hxy H IH]; [reflexivity|].
  cbn [flat_map]. now rewrite (Hf x y Hxy), IH.
Qed.
End Related.

Lemma frequency_analysis_length (ts : option (list datetime))
  (filled filled' : list row) (p : profile) :
  length filled = length filled' ->
  frequency_analysis ts filled p = frequency_analysis ts filled' p.
Proof. intro H. unfold frequency_analysis, qlen. now rewrite H. Qed.

Section Columns.
Variable fromisoformat : string -> option datetime.
Variable float_of_str : string -> option Q.

Lemma same_columns_filled (o o' : row) :
  same_order_columns o o' -> is_filled o = is_filled o'.
Proof. intros (H & _). unfold is_filled, field_is. now rewrite H. Qed.

Lemma same_columns_canceled (o o' : row) :
  same_order_columns o o' -> is_canceled o = is_canceled o'.
Proof. intros (H & _). unfold is_canceled, field_is. now rewrite H. Qed.

Lemma same_columns_type (o o' : row) :
  same_order_columns o o' -> order_type_key o = order_type_key o'.
Proof. intros (_ & H & _). unfold order_type_key. now rewrite H. Qed.

(** What the analysis draws from the orders. *)
Lemma analyze_orders_ext (orders orders' wallet executions executions' : list row) :
  length orders = length orders' ->
  map order_type_key orders = map order_type_key orders' ->
  length (filter is_canceled orders) = length (filter is_canceled orders') ->
  length (filter is_filled orders) = length (filter is_filled orders') ->
  parse_timestamps fromisoformat (filter is_filled orders)
  = parse_timestamps fromisoformat (filter is_filled orders') ->
  order_sizes_of float_of_str (filter is_filled orders)
  = order_sizes_of float_of_str (filter is_filled orders') ->
  analyze_trader_profile fromisoformat float_of_str orders wallet executions
  = analyze_trader_profile fromisoformat float_of_str
      orders' wallet executions'.
Proof.
  intros Hlen Htypes Hc Hf Hts Hsz.
  unfold analyze_trader_profile.
  assert (Eb : basic_stats orders = basic_stats orders').
  { unfold basic_stats, count_order_types. now rewrite Hlen, Htypes, Hc, Hf. }
  assert (Ed : forall p, discipline_analysis orders p
                         = discipline_analysis orders' p).
  { intro p. unfold discipline_analysis, discipline_scores_of,
      count_order_types. now rewrite Hlen, Htypes, Hc. }
  assert (Et : forall p, time_analysis fromisoformat (filter is_filled orders) p
                = time_analysis fromisoformat (filter is_filled orders') p).
  { intro p. unfold time_analysis. rewrite Hts.
    destruct (filter is_filled orders), (filter is_filled orders');
      try discriminate; reflexivity. }
  assert (Er : forall p, risk_analysis float_of_str (filter is_filled orders) p
                = risk_analysis float_of_str (filter is_filled orders') p).
  { intro p. unfold risk_analysis. now rewrite Hsz. }
  rewrite Eb, Et.
  destruct (time_analysis fromisoformat (filter is_filled orders') _)
    as [[ts p1] |]; [|reflexivity].
  cbn [bind]. rewrite Er.
  rewrite (frequency_analysis_length ts _ _ _ Hf).
  destruct (frequency_analysis ts (filter is_filled orders') _)
    as [[dt p3] |]; [|reflexivity].
  cbn [bind]. unfold count_order_types. now rewrite Ed, Htypes.
Qed.

Lemma pnl_analysis_amounts (wallet : list row) (p : profile) :
  pnl_analysis float_of_str wallet p
  = match pnl_amounts_of float_of_str (filter is_pnl wallet) with
    | [] => p
    | (_ :: _) as pnl_amounts =>
        pset "pnl_analysis" (pnl_analysis_of pnl_amounts) p
    end.
Proof.
  unfold pnl_analysis. cbv zeta.
  destruct (filter is_pnl wallet) as [| w l]; [reflexivity|].
  destruct (pnl_amounts_of float_of_str (w :: l)); reflexivity.
Qed.

Lemma analyze_wallet_ext (orders wallet wallet' executions : list row) :
  pnl_amounts_of float_of_str (filter is_pnl wallet)
  = pnl_amounts_of float_of_str (filter is_pnl wallet') ->
  analyze_trader_profile fromisoformat float_of_str orders wallet executions
  = analyze_trader_profile fromisoformat float_of_str
      orders wallet' executions.
Proof.
  intros Ha. unfold analyze_trader_profile.
  assert (E : forall p, pnl_analysis float_of_str wallet p
                        = pnl_analysis float_of_str wallet' p).
  { intro p. now rewrite !pnl_analysis_amounts, Ha. }
  destruct (time_analysis fromisoformat (filter is_filled orders) _)
    as [[ts p1] |]; [|reflexivity].
  cbn [bind].
  destruct (frequency_analysis ts (filter is_filled orders) _)
    as [[dt p3] |]; [|reflexivity].
  cbn [bind]. now rewrite E.
Qed.

(** X28.  The analysis reads four columns of an order ([ordStatus],
    [ordType], [orderQty], [timestamp]) and two of a wallet entry
    ([transactType], [amount]) and nothing else: inputs that agree row by row
    on these columns give the same profile or the same error, whatever their
    other columns and whatever the executions. *)
Theorem only_read_columns_matter
  (orders orders' wallet wallet' executions executions' : list row) :
  Forall2 same_order_columns orders orders' ->
  Forall2 same_wallet_columns wallet wallet' ->
  analyze_trader_profile fromisoformat float_of_str orders wallet executions
  = analyze_trader_profile fromisoformat float_of_str
      orders' wallet' executions'.
Proof.
  intros Ho Hw.
  pose proof (Forall2_filter same_order_columns is_filled _ _
                same_columns_filled Ho) as Hf.
  pose proof (Forall2_filter same_order_columns is_canceled _ _
                same_columns_canceled Ho) as Hc.
  assert (Hp : forall w w', same_wallet_columns w w' -> is_pnl w = is_pnl w').
  { intros w w' (H & _). unfold is_pnl, field_is. now rewrite H. }
  pose proof (Forall2_filter same_wallet_columns is_pnl _ _ Hp Hw) as Hpnl.
  transitivity (analyze_trader_profile fromisoformat float_of_str
                  orders' wallet executions').
  - apply analyze_orders_ext.
    + eapply Forall2_length; eauto.
    + eapply Forall2_map_eq; [|exact Ho]. apply same_columns_type.
    + eapply Forall2_length; eauto.
    + eapply Forall2_length; eauto.
    + unfold parse_timestamps. eapply Forall2_flat_map_eq; [|exact Hf].
      intros o o' (_ & _ & _ & H). unfold parse_timestamp. now rewrite H.
    + unfold order_sizes_of. eapply Forall2_flat_map_eq; [|exact Hf].
      intros o o' (_ & _ & H & _). unfold order_size. now rewrite H.
  - apply analyze_wallet_ext.
    unfold pnl_amounts_of. eapply Forall2_flat_map_eq; [|exact Hpnl].
      intros w w' (_ & H). unfold pnl_amount. now rewrite H.
Qed.

(** X29.  In every returned profile the levels of the summary are those of
    the groups: [summary.frequency_level] is
    [trading_frequency.frequency_level], [summary.discipline_level] is
    [discipline_scores.discipline_level], and [summary.risk_level] is
    [risk_preference.risk_level] when that is present and "Unknown"
    otherwise. *)
Theorem summary_copies_levels
  (orders wallet executions : list row) (p : profile) :
  analyze_trader_profile fromisoformat float_of_str orders wallet executions
  = Return p ->
  field "summary" "frequency_level" p
  = field "trading_frequency" "frequency_level" p /\
  field "summary" "discipline_level" p
  = field "discipline_scores" "discipline_level" p /\
  field "summary" "risk_level" p
  = match field "risk_preference" "risk_level" p with
    | Some level => Some level
    | None => Some (VStr "Unknown")
    end.
Proof.
  intro H.
  pose proof (analyze_returns_inv _ _ _ _ _ _ H)
    as (_ & _ & Hr & _ & Hd & _).
  pose proof (analyze_returns_time _ _ _ _ _ _ H)
    as (_ & _ & (first & last & avg & Hf & Hl & Hb & Htf) & _).
  apply analyze_returns_summary in H
    as (first' & last' & Hf' & Hl' & Hb' & Hs).
  cbv zeta in Hs, Htf.
  assert (E1 : instant first' = instant first).
  { pose proof (Hb first' Hf'). pose proof (Hb' first Hf). lia. }
  assert (E2 : instant last' = instant last).
  { pose proof (Hb last' Hl'). pose proof (Hb' last Hl). lia. }
  rewrite E1, E2 in Hs.
  unfold field. rewrite Hs, Htf, Hd, Hr. cbn [summary_of].
  split; [reflexivity|]. split; [reflexivity|].
  destruct (order_sizes_of float_of_str (filter is_filled orders));
    reflexivity.
Qed.
End Columns.

Lemma Permutation_filter_length {A : Type} (f : A -> bool) (l l' : list A) :
  Permutation l l' -> length (filter f l) = length (filter f l').
Proof.
  intro H. induction H as [| x l l' H IH | x y l | l l' l'' H IH H' IH'];
    cbn [filter].
  - reflexivity.
  - destruct (f x); cbn [length]; now rewrite IH.
  - destruct (f x), (f y); reflexivity.
  - now rewrite IH.
Qed.

Lemma Permutation_filter_keeps {A : Type} (f : A -> bool) (l l' : list A) :
  Permutation l l' -> Permutation (filter f l) (filter f l').
Proof.
  intro H. induction H as [| x l l' H IH | x y l | l l' l'' H IH H' IH'];
    cbn [filter].
  - constructor.
  - destruct (f x); [constructor|]; exact IH.
  - destruct (f x), (f y); try apply Permutation_refl. constructor.
  - eapply Permutation_trans; eauto.
Qed.

Lemma comparable_pairs (ts : list datetime) :
  comparable ts = true <->
  (forall a b, In a ts -> In b ts -> same_kind a b = true).
Proof.
  destruct ts as [| t rest]; cbn [comparable].
  - split; [intros _ a b [] | reflexivity].
  - rewrite forallb_forall. split.
    + intros H a b Ha Hb.
      assert (G : forall x, In x (t :: rest) -> same_kind t x = true).
      { intros x [<- | Hx]; [apply same_kind_refl | now apply H]. }
      apply (same_kind_trans a t b); [|now apply G].
      rewrite same_kind_sym. now apply G.
    + intros H x Hx. apply H; [now left | now right].
Qed.

Lemma comparable_Permutation (ts ts' : list datetime) :
  Permutation ts ts' -> comparable ts = comparable ts'.
Proof.
  intro H.
  assert (G : forall l l', Permutation l l' ->
                           comparable l = true -> comparable l' = true).
  { intros l l' Hp Hc. apply comparable_pairs. intros a b Ha Hb.
    apply (proj1 (comparable_pairs l) Hc);
      eapply Permutation_in; try eassumption; now apply Permutation_sym. }
  destruct (comparable ts) eqn:E1, (comparable ts') eqn:E2; try reflexivity.
  - rewrite (G _ _ H E1) in E2. discriminate.
  - rewrite (G _ _ (Permutation_sym H) E2) in E1. discriminate.
Qed.

Lemma occurrences_Permutation {K : Type} (eqb : K -> K -> bool) (k : K)
  (ks ks' : list K) :
  Permutation ks ks' -> occurrences eqb k ks = occurrences eqb k ks'.
Proof.
  intro H. unfold occurrences.
  now rewrite (Permutation_filter_length (eqb k) _ _ H).
Qed.

Lemma type_count_Permutation (k : string) (orders orders' : list row) :
  Permutation orders orders' ->
  type_count k (count_order_types orders)
  = type_count k (count_order_types orders').
Proof.
  intro H. unfold type_count, count_order_types.
  change (count_of pykey_eqb (KStr k)
            (count_keys pykey_eqb (map order_type_key orders))
          = count_of pykey_eqb (KStr k)
              (count_keys pykey_eqb (map order_type_key orders'))).
  rewrite !(count_of_count_keys pykey_eqb pykey_eqb_eq).
  apply occurrences_Permutation. now apply Permutation_map.
Qed.

Lemma limit_ratio_Permutation (orders orders' : list row) :
  Permutation orders orders' ->
  limit_ratio_of (count_order_types orders)
  = limit_ratio_of (count_order_types orders').
Proof.
  intro H. unfold limit_ratio_of.
  now rewrite !(type_count_Permutation _ _ _ H).
Qed.

Lemma risk_score_Permutation (sizes sizes' : list Q) :
  Permutation sizes sizes' -> risk_score_of sizes = risk_score_of sizes'.
Proof.
  intro H. unfold risk_score_of, large_order_ratio, qlen.
  now rewrite (Permutation_filter_length _ _ _ H), (Permutation_length H).
Qed.

Lemma risk_score_read_Permutation (sizes sizes' : list Q) :
  Permutation sizes sizes' ->
  risk_score_read sizes = risk_score_read sizes'.
Proof.
  intro H. pose proof (risk_score_Permutation _ _ H) as E.
  pose proof (Permutation_length H) as L.
  unfold risk_score_read.
  destruct sizes, sizes'; try discriminate; [reflexivity | exact E].
Qed.

Lemma risk_level_read_Permutation (sizes sizes' : list Q) :
  Permutation sizes sizes' ->
  risk_level_read sizes = risk_level_read sizes'.
Proof.
  intro H. pose proof (risk_score_Permutation _ _ H) as E.
  pose proof (Permutation_length H) as L.
  unfold risk_level_read.
  destruct sizes, sizes'; try discriminate; [reflexivity | now rewrite E].
Qed.

Section Reordering.
Variable fromisoformat : string -> option datetime.
Variable float_of_str : string -> option Q.

(** X30.  The summary does not depend on the order of the rows: when a
    run returns, a run on the same orders in any other order, with any
    wallet and executions, returns as well and gives the same [summary] group
    (trader type, levels, overall score and advice). *)
Theorem summary_independent_of_row_order
  (orders orders' wallet wallet' executions executions' : list row)
  (p : profile) :
  Permutation orders orders' ->
  analyze_trader_profile fromisoformat float_of_str orders wallet executions
  = Return p ->
  exists p',
    analyze_trader_profile fromisoformat float_of_str
      orders' wallet' executions' = Return p' /\
    pget "summary" p' = pget "summary" p.
Proof.
  intros Hperm H.
  pose proof (Permutation_filter_keeps is_filled _ _ Hperm) as Pf.
  assert (Pt : Permutation
                 (parse_timestamps fromisoformat (filter is_filled orders))
                 (parse_timestamps fromisoformat (filter is_filled orders')))
    by (unfold parse_timestamps; now apply Permutation_flat_map).
  assert (Ps : Permutation (order_sizes_of float_of_str (filter is_filled orders))
                 (order_sizes_of float_of_str (filter is_filled orders')))
    by (unfold order_sizes_of; now apply Permutation_flat_map).
  pose proof (analyze_returns_time _ _ _ _ _ _ H) as (Hlen & Hc & _).
  cbv zeta in Hlen, Hc.
  destruct (analyze_cases fromisoformat float_of_str orders' wallet' executions')
    as [(Hf & _) | [(_ & Hlt & _) | [(_ & _ & (p' & H')) | (_ & Hc' & _)]]].
  - exfalso. apply Permutation_length in Pt. rewrite Hf in Pt.
    cbn in Pt. lia.
  - exfalso. apply Permutation_length in Pt. lia.
  - exists p'. split; [exact H'|].
    apply analyze_returns_summary in H as (f1 & l1 & Hf1 & Hl1 & Hb1 & Hs1).
    apply analyze_returns_summary in H' as (f2 & l2 & Hf2 & Hl2 & Hb2 & Hs2).
    cbv zeta in Hs1, Hs2.
    assert (E1 : instant f2 = instant f1).
    { pose proof (Hb1 f2 (Permutation_in _ (Permutation_sym Pt) Hf2)).
      pose proof (Hb2 f1 (Permutation_in _ Pt Hf1)). lia. }
    assert (E2 : instant l2 = instant l1).
    { pose proof (Hb1 l2 (Permutation_in _ (Permutation_sym Pt) Hl2)).
      pose proof (Hb2 l1 (Permutation_in _ Pt Hl1)). lia. }
    rewrite Hs1, Hs2, E1, E2.
    rewrite <- (risk_score_read_Permutation _ _ Ps),
      <- (risk_level_read_Permutation _ _ Ps),
      <- (limit_ratio_Permutation _ _ Hperm).
    unfold qlen.
    rewrite <- (Permutation_length Pf), <- (Permutation_length Hperm),
      <- (Permutation_filter_length is_canceled _ _ Hperm).
    reflexivity.
  - rewrite <- (comparable_Permutation _ _ Pt) in Hc'. congruence.
Qed.
End Reordering.

(** ** The further properties at concrete inputs *)

(** X5 on a single filled order. *)
Lemma raised_errors_witness :
  Reference.analyze Cases.single_order [] []
  = Raise (UnboundLocalError "daily_trades")
  /\ (UnboundLocalError "daily_trades" = UnboundLocalError "timestamps"
      \/ UnboundLocalError "daily_trades" = UnboundLocalError "daily_trades"
      \/ UnboundLocalError "daily_trades" = TypeError).
Proof.
  assert (H : Reference.analyze Cases.single_order [] []
              = Raise (UnboundLocalError "daily_trades"))
    by (vm_compute; reflexivity).
  split; [exact H |].
  exact (raised_errors Reference.fromisoformat Reference.float_of_str
           Cases.single_order [] [] _ H).
Defined.

(** X6 on three filled orders over forty days: the quotient is the double
    0.075, which lies below the decimal 0.075 and rounds to 0.07. *)
Lemma trading_days_span_witness :
  let filled := filter is_filled Cases.sparse_orders in
  let ts := parse_timestamps Reference.fromisoformat filled in
  exists g first last,
    pget "trading_frequency" Cases.sparse_profile = Some (VDict g) /\
    In first ts /\ In last ts /\
    (forall x, In x ts -> instant first <= instant x <= instant last) /\
    let days := Z.max 1 ((instant last - instant first) / 86400000000) in
    pget "total_trading_days" g = Some (VInt days) /\
    pget "daily_avg_trades" g
    = Some (VDouble (f64_round (f64_of_Q (qlen filled / inject_Z days)) 2)).
Proof.
  apply (trading_days_span Reference.fromisoformat Reference.float_of_str
           Cases.sparse_orders [] []).
  vm_compute. reflexivity.
Defined.

Example sparse_orders_daily_average :
  field "trading_frequency" "total_trading_days" Cases.sparse_profile
  = Some (VInt 40)
  /\ field "trading_frequency" "daily_avg_trades" Cases.sparse_profile
     = Some (VDouble (f64_of_Q (7 # 100))).
Proof. split; vm_compute; reflexivity. Qed.

(** X7 on the orders of a week. *)
Lemma histograms_count_timestamps_witness :
  let ts := parse_timestamps Reference.fromisoformat
              (filter is_filled Cases.week_orders) in
  exists g hours days,
    pget "trading_patterns" Cases.week_profile = Some (VDict g) /\
    pget "hour_distribution" g = Some (VDict hours) /\
    pget "weekday_distribution" g = Some (VDict days) /\
    (forall k,
       dict_get pykey_eqb (KInt k) hours
       = if existsb (Z.eqb k) (map dt_hour ts)
         then Some (VInt (occurrences Z.eqb k (map dt_hour ts))) else None) /\
    (forall k,
       dict_get pykey_eqb (KInt k) days
       = if existsb (Z.eqb k) (map dt_weekday ts)
         then Some (VInt (occurrences Z.eqb k (map dt_weekday ts)))
         else None) /\
    int_values_sum hours = Some (Z.of_nat (length ts)) /\
    int_values_sum days = Some (Z.of_nat (length ts)).
Proof.
  apply (histograms_count_timestamps Reference.fromisoformat
           Reference.float_of_str Cases.week_orders Examples.wallet []).
  vm_compute. reflexivity.
Defined.

(** X8 on the orders of a week: hour 10 occurs twice. *)
Lemma most_active_hour_is_mode_witness :
  let hours := map dt_hour
                 (parse_timestamps Reference.fromisoformat
                    (filter is_filled Cases.week_orders)) in
  exists g h,
    pget "trading_patterns" Cases.week_profile = Some (VDict g) /\
    pget "most_active_hour" g = Some (VInt h) /\
    0 <= h < 24 /\
    (forall k, occurrences Z.eqb k hours <= occurrences Z.eqb h hours) /\
    exists before after,
      first_seen Z.eqb hours = before ++ h :: after /\
      forall k, In k before ->
                occurrences Z.eqb k hours < occurrences Z.eqb h hours.
Proof.
  apply (most_active_hour_is_mode Reference.fromisoformat
           Reference.float_of_str Cases.week_orders Examples.wallet []).
  vm_compute. reflexivity.
Defined.

(** X9 on the orders of a week: two Mondays. *)
Lemma most_active_day_is_mode_witness :
  let days := map dt_weekday
                (parse_timestamps Reference.fromisoformat
                   (filter is_filled Cases.week_orders)) in
  exists g d name,
    pget "trading_patterns" Cases.week_profile = Some (VDict g) /\
    pget "most_active_day" g = Some (VStr name) /\
    nth_error weekday_names (Z.to_nat d) = Some name /\
    0 <= d < 7 /\
    (forall k, occurrences Z.eqb k days <= occurrences Z.eqb d days) /\
    exists before after,
      first_seen Z.eqb days = before ++ d :: after /\
      forall k, In k before ->
                occurrences Z.eqb k days < occurrences Z.eqb d days.
Proof.
  apply (most_active_day_is_mode Reference.fromisoformat
           Reference.float_of_str Cases.week_orders Examples.wallet []).
  vm_compute. reflexivity.
Defined.

(** X10 on the fill rate of the orders of a week, 80 percent. *)
Lemma percentages_in_range_witness :
  VFloat 80 = VInt 0
  \/ exists q, VFloat 80 = VFloat q /\ (0 <= q)%Q /\ (q <= 100)%Q.
Proof.
  apply (percentages_in_range Reference.fromisoformat Reference.float_of_str
           Cases.week_orders Examples.wallet [] Cases.week_profile)
    with (group := "basic_stats"%string) (key := "fill_rate"%string).
  - vm_compute. reflexivity.
  - vm_compute. left. reflexivity.
  - vm_compute. reflexivity.
Defined.

(** X11 on the orders of a week. *)
Lemma overall_score_in_range_witness :
  exists q, field "summary" "overall_score" Cases.week_profile
            = Some (VFloat q) /\ (1 <= q)%Q /\ (q <= 10)%Q.
Proof.
  apply (overall_score_in_range Reference.fromisoformat Reference.float_of_str
           Cases.week_orders Examples.wallet []).
  vm_compute. reflexivity.
Defined.

(** X12 on the orders without a valid size: an unknown risk level. *)
Lemma trader_type_from_table_witness :
  exists freq_level risk_level trader_type,
    field "summary" "frequency_level" Examples.profile2
    = Some (VStr freq_level) /\
    field "summary" "risk_level" Examples.profile2 = Some (VStr risk_level) /\
    field "summary" "trader_type" Examples.profile2
    = Some (VStr trader_type) /\
    In (freq_level, risk_level, trader_type) trader_type_table.
Proof.
  apply (trader_type_from_table Reference.fromisoformat Reference.float_of_str
           Examples.unsized_orders Examples.flat_wallet []).
  vm_compute. reflexivity.
Defined.

(** X13 on the orders without a valid size. *)
Lemma risk_level_unknown_iff_no_valid_size_witness :
  field "summary" "risk_level" Examples.profile2 = Some (VStr "Unknown")
  <-> order_sizes_of Reference.float_of_str
        (filter is_filled Examples.unsized_orders) = [].
Proof.
  apply (risk_level_unknown_iff_no_valid_size Reference.fromisoformat
           Reference.float_of_str Examples.unsized_orders
           Examples.flat_wallet []).
  vm_compute. reflexivity.
Defined.

(** X14 on the orders of a week: one size in four is large. *)
Lemma risk_level_by_large_order_share_witness :
  let ratio := large_order_ratio [20000; 500; 1500; 700]%Q in
  exists score,
    field "risk_preference" "risk_score" Cases.week_profile
    = Some (VInt score) /\
    3 <= score <= 10 /\
    field "risk_preference" "risk_level" Cases.week_profile
    = Some (VStr (if Qle_bool 20 ratio then "High Risk"
                  else if Qle_bool 5 ratio then "Medium Risk"
                  else "Low Risk")).
Proof.
  apply (risk_level_by_large_order_share Reference.fromisoformat
           Reference.float_of_str Cases.week_orders Examples.wallet []).
  - vm_compute. reflexivity.
  - vm_compute. reflexivity.
Defined.

(** X15 on the orders of a week. *)
Lemma frequency_level_by_daily_trades_witness :
  exists days,
    field "trading_frequency" "total_trading_days" Cases.week_profile
    = Some (VInt days) /\
    1 <= days /\
    let daily := (qlen (filter is_filled Cases.week_orders)
                  / inject_Z days)%Q in
    field "trading_frequency" "frequency_level" Cases.week_profile
    = Some (VStr (if Qle_bool 35 daily then "High Frequency"
                  else if Qle_bool 20 daily then "Medium Frequency"
                  else "Low Frequency")).
Proof.
  apply (frequency_level_by_daily_trades Reference.fromisoformat
           Reference.float_of_str Cases.week_orders Examples.wallet []).
  vm_compute. reflexivity.
Defined.

(** X16 on the orders of a week: three Limit orders, one Market order. *)
Lemma discipline_score_by_limit_share_witness :
  let types := map order_type_key Cases.week_orders in
  let limit := occurrences pykey_eqb (KStr "Limit") types in
  let market := occurrences pykey_eqb (KStr "Market") types in
  field "discipline_scores" "discipline_score" Cases.week_profile
  = Some (VInt (if 0 <? limit + market
                then clamp_score ((10 * limit) / (limit + market))
                else 1)).
Proof.
  apply (discipline_score_by_limit_share Reference.fromisoformat
           Reference.float_of_str Cases.week_orders Examples.wallet []).
  vm_compute. reflexivity.
Defined.

(** X17 on the orders of a week. *)
Lemma discipline_and_patience_levels_witness :
  let limit_ratio :=
    num_Q (limit_ratio_of (count_order_types Cases.week_orders)) in
  let cancel_ratio :=
    num_Q (cancel_ratio_of (length (filter is_canceled Cases.week_orders))
             (length Cases.week_orders)) in
  field "discipline_scores" "discipline_level" Cases.week_profile
  = Some (VStr (if Qle_bool 70 limit_ratio then "Highly Disciplined"
                else if Qle_bool 40 limit_ratio then "Moderately Disciplined"
                else "Needs Improvement")) /\
  field "discipline_scores" "patience_level" Cases.week_profile
  = Some (VStr (if Qle_bool cancel_ratio 15 then "Very Patient"
                else if Qle_bool cancel_ratio 30 then "Moderately Patient"
                else "Impulsive")).
Proof.
  apply (discipline_and_patience_levels Reference.fromisoformat
           Reference.float_of_str Cases.week_orders Examples.wallet []).
  vm_compute. reflexivity.
Defined.

(** X18 on the wallet with a win, a funding entry and a loss. *)
Lemma pnl_trade_counts_witness :
  exists total winning losing,
    pget "total_trades" (Examples.group "pnl_analysis" Examples.profile1)
    = Some (VInt total) /\
    pget "winning_trades" (Examples.group "pnl_analysis" Examples.profile1)
    = Some (VInt winning) /\
    pget "losing_trades" (Examples.group "pnl_analysis" Examples.profile1)
    = Some (VInt losing) /\
    0 <= winning /\ 0 <= losing /\ winning + losing <= total /\
    1 <= total <= Z.of_nat (length (filter is_pnl Examples.wallet)).
Proof.
  apply (pnl_trade_counts Reference.fromisoformat Reference.float_of_str
           Examples.orders Examples.wallet [] Examples.profile1).
  - vm_compute. reflexivity.
  - vm_compute. reflexivity.
Defined.

(** X19 on the wallet with a single amount of zero. *)
Lemma no_losing_trade_profit_factor_marker_witness :
  pget "avg_loss_btc" (Examples.group "pnl_analysis" Examples.profile2)
  = Some (VInt 0) /\
  pget "profit_factor" (Examples.group "pnl_analysis" Examples.profile2)
  = Some (VStr inf_marker).
Proof.
  apply (no_losing_trade_profit_factor_marker Reference.fromisoformat
           Reference.float_of_str Examples.unsized_orders Examples.flat_wallet
           [] Examples.profile2).
  - vm_compute. reflexivity.
  - vm_compute. reflexivity.
  - vm_compute. reflexivity.
Defined.

(** X20 on a wallet without and a wallet with realised PnL. *)
Lemma profile_keys_witness :
  map fst Examples.profile3 = initial_keys
  /\ map fst Examples.profile1 = initial_keys ++ [KStr "pnl_analysis"].
Proof.
  split.
  - apply (profile_keys Reference.fromisoformat Reference.float_of_str
             Examples.orders Examples.funding_wallet [] Examples.profile3).
    vm_compute. reflexivity.
  - apply (profile_keys Reference.fromisoformat Reference.float_of_str
             Examples.orders Examples.wallet [] Examples.profile1).
    vm_compute. reflexivity.
Defined.

(** X21 on the orders of a week: Limit, Market and one missing type. *)
Lemma order_types_count_labels_witness :
  let labels := map order_type_key Cases.week_orders in
  exists types,
    field "basic_stats" "order_types" Cases.week_profile
    = Some (VDict types) /\
    map fst types = first_seen pykey_eqb labels /\
    NoDup (map fst types) /\
    forall k,
      dict_get pykey_eqb k types
      = if existsb (pykey_eqb k) labels
        then Some (VInt (occurrences pykey_eqb k labels)) else None.
Proof.
  apply (order_types_count_labels Reference.fromisoformat
           Reference.float_of_str Cases.week_orders Examples.wallet []).
  vm_compute. reflexivity.
Defined.

(** X22 on the orders of a week. *)
Lemma order_size_extremes_witness :
  exists lo hi,
    field "risk_preference" "min_order_size" Cases.week_profile
    = Some (vfloat lo) /\
    field "risk_preference" "max_order_size" Cases.week_profile
    = Some (vfloat hi) /\
    In lo [20000; 500; 1500; 700]%Q /\ In hi [20000; 500; 1500; 700]%Q /\
    (0 < lo)%Q /\
    forall y, In y [20000; 500; 1500; 700]%Q -> (lo <= y)%Q /\ (y <= hi)%Q.
Proof.
  apply (order_size_extremes Reference.fromisoformat Reference.float_of_str
           Cases.week_orders Examples.wallet []).
  - vm_compute. reflexivity.
  - vm_compute. reflexivity.
Defined.

(** X23 on the orders of a week. *)
Lemma advice_risk_line_witness :
  let sizes := order_sizes_of Reference.float_of_str
                 (filter is_filled Cases.week_orders) in
  exists a1 a2 a3,
    field "summary" "advice" Cases.week_profile
    = Some (VList [VStr a1; VStr a2; VStr a3]) /\
    (a3 = "Risk control is good"%string
     <-> sizes <> [] /\ (large_order_ratio sizes < 10)%Q).
Proof.
  apply (advice_risk_line Reference.fromisoformat Reference.float_of_str
           Cases.week_orders Examples.wallet []).
  vm_compute. reflexivity.
Defined.

(** X24 on a timestamp ending in Z. *)
Lemma timestamp_normalisation_is_idempotent_witness :
  parse_timestamp Reference.fromisoformat
    (with_timestamp (replace_Z "2024-01-01T10:00:00Z")
       (Examples.order "Limit" "20000" "2024-01-01T10:00:00Z"))
  = parse_timestamp Reference.fromisoformat
      (Examples.order "Limit" "20000" "2024-01-01T10:00:00Z").
Proof.
  apply (timestamp_normalisation_is_idempotent Reference.fromisoformat).
  vm_compute. reflexivity.
Defined.

(** X26 on the orders of a week: an average gap of 3880 minutes. *)
Lemma avg_trade_interval_bounded_witness :
  exists v,
    field "trading_frequency" "avg_trade_interval_minutes" Cases.week_profile
    = Some v /\
    (v = VInt 0 \/
     exists q, v = VFloat q /\ (0 <= q)%Q /\ (q <= 10080)%Q).
Proof.
  apply (avg_trade_interval_bounded Reference.fromisoformat
           Reference.float_of_str Cases.week_orders Examples.wallet []).
  vm_compute. reflexivity.
Defined.

(** X27 on the first example. *)
Lemma main_subscripts_present_witness :
  (exists g, pget "basic_stats" Examples.profile1 = Some (VDict g)) /\
  (exists g, pget "summary" Examples.profile1 = Some (VDict g)) /\
  (exists l, field "summary" "advice" Examples.profile1 = Some (VList l)) /\
  forall group key, In (group, key) main_subscripts ->
  forall g, pget group Examples.profile1 = Some (VDict g) ->
  exists v, pget key g = Some v.
Proof.
  apply (main_subscripts_present Reference.fromisoformat
           Reference.float_of_str Examples.orders Examples.wallet []).
  vm_compute. reflexivity.
Defined.

(** X28 on the orders of a week, with and without further columns. *)
Lemma only_read_columns_matter_witness :
  Reference.analyze Cases.week_orders Examples.wallet []
  = Reference.analyze Variants.wide_orders Variants.wide_wallet
      Variants.wide_orders.
Proof.
  apply (only_read_columns_matter Reference.fromisoformat
           Reference.float_of_str).
  - repeat (apply Forall2_cons); try apply Forall2_nil;
      repeat split; reflexivity.
  - repeat (apply Forall2_cons); try apply Forall2_nil;
      repeat split; reflexivity.
Defined.

(** X29 on the orders of a week. *)
Lemma summary_copies_levels_witness :
  field "summary" "frequency_level" Cases.week_profile
  = field "trading_frequency" "frequency_level" Cases.week_profile /\
  field "summary" "discipline_level" Cases.week_profile
  = field "discipline_scores" "discipline_level" Cases.week_profile /\
  field "summary" "risk_level" Cases.week_profile
  = match field "risk_preference" "risk_level" Cases.week_profile with
    | Some level => Some level
    | None => Some (VStr "Unknown")
    end.
Proof.
  apply (summary_copies_levels Reference.fromisoformat Reference.float_of_str
           Cases.week_orders Examples.wallet []).
  vm_compute. reflexivity.
Defined.

(** X30 on the orders of a week, read latest first and with another
    wallet. *)
Lemma summary_independent_of_row_order_witness :
  exists p',
    Reference.analyze Variants.latest_first Examples.funding_wallet []
    = Return p' /\
    pget "summary" p' = pget "summary" Cases.week_profile.
Proof.
  apply (summary_independent_of_row_order Reference.fromisoformat
           Reference.float_of_str Cases.week_orders Variants.latest_first
           Examples.wallet Examples.funding_wallet [] []).
  - apply Permutation_rev.
  - vm_compute. reflexivity.
Defined.
